(** * Wallet service: the double-entry ledger engine

    A shallow embedding of the wallet service ([getOrCreateWallet],
    [computeBalance], [getTreasuryWallet], [lockWalletsInOrder],
    [topupWallet], [issueBonus], [spendCredits], [computeBalanceInTx],
    [getBalance]), of the constraints of [migration.sql] that the operations
    run against, and of the request layer ([walletController.ts],
    [errorHandler.ts]), followed by the properties of the engine.

    Conventions of the embedding.
    - A Prisma client call is a computation in the monad [M]: it reads and
      writes the [Tables] of the database and emits the query it issues.
      The emitted queries are an observation and are never rolled back.
    - [prisma.$transaction] runs its body and, when the body throws, restores
      the tables it started from.
    - The identifiers Prisma draws for new rows (random UUIDs) are inputs of
      the operation that inserts the row; an identifier that is already taken
      violates the primary key, as in PostgreSQL.
    - A JavaScript [number] carrying an amount is the rational [decimal.js]
      reads from it; NaN and the infinities are not amounts (for them the
      client refuses the [Decimal] it is handed, an error outside [Exn]).
      A [DECIMAL(20,4)] column holds an integer count of ten-thousandths.
      [decimal.js] keeps [precision] = 20 significant digits in the result
      of an operation and rounds ties away from zero.
    - The queries of one unit run one after the other on its connection:
      the two wallet lookups that the code starts together under
      [Promise.all] are taken in the order they are written.
    - The timeout of a unit (ten seconds) is outside the model.
    - Row timestamps and the [metadata] column are never read by the engine
      and are left out of the rows. *)

From Stdlib Require Import List String Ascii Bool NArith ZArith QArith Lia.
From Stdlib Require Import Permutation Sorted.
Import ListNotations.

Local Open Scope string_scope.
Local Open Scope Z_scope.
Local Open Scope list_scope.

(** ** Rows of the schema ([migration.sql]) *)

Inductive TransactionType := TOPUP | BONUS | SPEND.
Inductive TxStatus := PENDING | COMPLETED | FAILED.

Module AssetType.
Record t := mk
  { id : string; name : string; symbol : string; description : option string }.
End AssetType.

Module User.
Record t := mk
  { id : string; username : string; email : string; isSystem : bool }.
End User.

Module Wallet.
Record t := mk { id : string; userId : string; assetTypeId : string }.
End Wallet.

Module Transaction.
Record t := mk
  { id : string; type : TransactionType; status : TxStatus;
    description : option string }.
End Transaction.

Module LedgerEntry.
(** [amount] is the [DECIMAL(20,4)] value counted in ten-thousandths. *)
Record t := mk
  { id : string;
    transactionId : string;
    assetTypeId : string;
    debitWalletId : string;
    creditWalletId : string;
    amount : Z;
    transactionType : TransactionType;
    description : option string;
    idempotencyKey : option string }.
End LedgerEntry.

Record Tables := mkTables
  { assetType : list AssetType.t;
    user : list User.t;
    wallet : list Wallet.t;
    transaction : list Transaction.t;
    ledgerEntry : list LedgerEntry.t }.

(** ** Queries, exceptions and the client monad *)

Inductive Query :=
| Q_ledgerEntry_findUnique (idempotencyKey : string)
| Q_wallet_upsert (userId assetTypeId : string)
| Q_user_findFirstOrThrow
| Q_wallet_forUpdate (id : string)
| Q_balance (walletId : string)
| Q_transaction_create
| Q_ledgerEntry_create
| Q_transaction_update (id : string)
| Q_wallet_findUnique (userId assetTypeId : string)
| Q_assetType_findUniqueOrThrow (id : string)
| Q_begin
| Q_commit
| Q_rollback.

Record ZodIssue := mkIssue { path : string; issueMessage : string }.

(** The values the code throws or receives from its libraries.  The message
    of a Prisma error is the library's; only its [code] is inspected. *)
Inductive Exn :=
| Error (message : string)
| PrismaClientKnownRequestError (code : string) (message : string)
| ZodError (errors : list ZodIssue).

Inductive result (A : Type) :=
| Ok (a : A)
| Throw (e : Exn).
Arguments Ok {A} a.
Arguments Throw {A} e.

(** A client computation: from the tables it finds to its outcome, the
    tables it leaves and the queries it issued, in order. *)
Definition M (A : Type) : Type := Tables -> result A * Tables * list Query.

Definition ret {A} (a : A) : M A := fun t => (Ok a, t, []).
Definition throw {A} (e : Exn) : M A := fun t => (Throw e, t, []).
Definition bind {A B} (m : M A) (k : A -> M B) : M B :=
  fun t =>
    match m t with
    | (Ok a, t1, q1) =>
        match k a t1 with
        | (r, t2, q2) => (r, t2, q1 ++ q2)
        end
    | (Throw e, t1, q1) => (Throw e, t1, q1)
    end.

Notation "x <- m ;; k" := (bind m (fun x => k))
  (at level 61, m at next level, right associativity).
Notation "m ;;; k" := (bind m (fun _ => k))
  (at level 61, right associativity).

Definition issue (q : Query) : M unit := fun t => (Ok tt, t, [q]).
Definition readTables : M Tables := fun t => (Ok t, t, []).
Definition writeTables (t' : Tables) : M unit := fun _ => (Ok tt, t', []).

(** [prisma.$transaction(async tx => ...)]: all or nothing on the tables. *)
Definition transaction_scope {A} (body : M A) : M A :=
  fun t =>
    match body t with
    | (Ok a, t', q) => (Ok a, t', Q_begin :: q ++ [Q_commit])
    | (Throw e, _, q) => (Throw e, t, Q_begin :: q ++ [Q_rollback])
    end.

(** ** Decimal arithmetic ([decimal.js], rounding mode ROUND_HALF_UP) *)

Definition number := Q.

(** [new Decimal(x).toFixed(4)] read back as a count of ten-thousandths:
    the nearest multiple, ties away from zero. *)
Definition toFixed4 (x : number) : Z :=
  Z.sgn (Qnum x) * ((2 * Z.abs (Qnum x) * 10000 + Zpos (Qden x)) / (2 * Zpos (Qden x))).

(** The decimal a [DECIMAL(20,4)] count stands for. *)
Definition decimal (units : Z) : Q := units # 10000.

(** [d.lessThan(x)] *)
Definition lessThan (d : Z) (x : number) : bool := negb (Qle_bool x (decimal d)).

(** [10^e <= n/d], for positive [n] and [d]. *)
Definition reaches (e n d : Z) : bool :=
  if 0 <=? e then 10 ^ e * d <=? n else d <=? n * 10 ^ (- e).

(** The decimal exponent of [n/d], for positive [n] and [d]: the greatest
    [e] with [10^e <= n/d], searched downwards from one that is too
    large. *)
Fixpoint exponentFrom (fuel : nat) (e n d : Z) : Z :=
  match fuel with
  | O => e
  | S fuel' => if reaches e n d then e else exponentFrom fuel' (e - 1) n d
  end.

Definition exponent (n d : Z) : Z :=
  let hi := Z.log2 n + 1 in
  exponentFrom (Z.to_nat (hi + Z.log2 d + 2)) hi n d.

(** Rounding to [s] digits after the point, ties away from zero; for a
    negative [s] to a multiple of [10^(-s)]. *)
Definition roundAt (s : Z) (x : Q) : Q :=
  let n := Z.abs (Qnum x) in
  let d := Zpos (Qden x) in
  if 0 <=? s
  then Qmake (Z.sgn (Qnum x) * ((2 * n * 10 ^ s + d) / (2 * d)))
         (Z.to_pos (10 ^ s))
  else inject_Z (Z.sgn (Qnum x)
                 * ((2 * n + d * 10 ^ (- s)) / (2 * d * 10 ^ (- s)))
                 * 10 ^ (- s)).

(** [Decimal.precision]: the significant digits the result of an
    operation keeps (the library's default). *)
Definition precision : Z := 20.

Definition toSignificantDigits (x : Q) : Q :=
  if Qnum x =? 0 then x
  else roundAt (precision - 1 - exponent (Z.abs (Qnum x)) (Zpos (Qden x))) x.

(** [d.minus(x)]: the difference, rounded to [precision] significant
    digits. *)
Definition minus (d : Z) (x : number) : Q := toSignificantDigits (decimal d - x)%Q.

(** The range of [DECIMAL(20,4)]: sixteen digits before the point. *)
Definition fitsDecimal20_4 (units : Z) : bool := Z.abs units <? 10 ^ 20.

Fixpoint digits (fuel : nat) (n : N) (acc : string) : string :=
  match fuel with
  | O => acc
  | S fuel' =>
      let acc' := String (ascii_of_N (48 + n mod 10)) acc in
      if (n / 10 =? 0)%N then acc' else digits fuel' (n / 10)%N acc'
  end.

Definition showN (n : N) : string := digits (S (N.to_nat (N.log2 n))) n "".

Fixpoint zeros (n : nat) : string :=
  match n with
  | O => ""
  | S n' => String "0" (zeros n')
  end.

Definition padLeft (width : nat) (s : string) : string :=
  (zeros (width - String.length s) ++ s)%string.

(** The text [toFixed(4)] prints for a count of ten-thousandths. *)
Definition showFixed4 (units : Z) : string :=
  let a := Z.to_N (Z.abs units) in
  ((if (units <? 0)%Z then "-" else "") ++
   showN (a / 10000)%N ++ "." ++ padLeft 4 (showN (a mod 10000)%N))%string.

(** ** The Prisma client calls the service makes *)

Definition withWallet (t : Tables) (ws : list Wallet.t) : Tables :=
  mkTables (assetType t) (user t) ws (transaction t) (ledgerEntry t).
Definition withTransaction (t : Tables) (xs : list Transaction.t) : Tables :=
  mkTables (assetType t) (user t) (wallet t) xs (ledgerEntry t).
Definition withLedgerEntry (t : Tables) (es : list LedgerEntry.t) : Tables :=
  mkTables (assetType t) (user t) (wallet t) (transaction t) es.

Definition P2002 : Exn :=
  PrismaClientKnownRequestError "P2002" "Unique constraint failed".
Definition P2003 : Exn :=
  PrismaClientKnownRequestError "P2003" "Foreign key constraint failed".
Definition P2025 : Exn :=
  PrismaClientKnownRequestError "P2025" "No record found".
Definition P2020 : Exn :=
  PrismaClientKnownRequestError "P2020" "Value out of range for the type".

Definition hasKey (key : string) (e : LedgerEntry.t) : bool :=
  match LedgerEntry.idempotencyKey e with
  | Some k => String.eqb k key
  | None => false
  end.

(** [ledgerEntry.findUnique({ where: { idempotencyKey } })] *)
Definition ledgerEntry_findUnique (key : string) : M (option LedgerEntry.t) :=
  issue (Q_ledgerEntry_findUnique key) ;;;
  t <- readTables ;;
  ret (find (hasKey key) (ledgerEntry t)).

Definition ownedBy (userId assetTypeId : string) (w : Wallet.t) : bool :=
  String.eqb (Wallet.userId w) userId && String.eqb (Wallet.assetTypeId w) assetTypeId.

Definition walletExists (id : string) (t : Tables) : bool :=
  existsb (fun w => String.eqb (Wallet.id w) id) (wallet t).
Definition userExists (id : string) (t : Tables) : bool :=
  existsb (fun u => String.eqb (User.id u) id) (user t).
Definition assetTypeExists (id : string) (t : Tables) : bool :=
  existsb (fun a => String.eqb (AssetType.id a) id) (assetType t).
Definition transactionExists (id : string) (t : Tables) : bool :=
  existsb (fun x => String.eqb (Transaction.id x) id) (transaction t).
Definition ledgerEntryExists (id : string) (t : Tables) : bool :=
  existsb (fun e => String.eqb (LedgerEntry.id e) id) (ledgerEntry t).

(** [wallet.upsert({ where: { userId_assetTypeId }, update: {}, create })].
    [Wallet_pkey] and [Wallet_userId_assetTypeId_key] are checked when the row
    is inserted, the two foreign keys after it. *)
Definition wallet_upsert (uuid userId assetTypeId : string) : M Wallet.t :=
  issue (Q_wallet_upsert userId assetTypeId) ;;;
  t <- readTables ;;
  match find (ownedBy userId assetTypeId) (wallet t) with
  | Some w => ret w
  | None =>
      if walletExists uuid t then throw P2002
      else if negb (userExists userId t && assetTypeExists assetTypeId t)
      then throw P2003
      else
        let w := Wallet.mk uuid userId assetTypeId in
        writeTables (withWallet t (wallet t ++ [w])) ;;; ret w
  end.

(** [user.findFirstOrThrow({ where: { isSystem: true } })] *)
Definition user_findFirstOrThrow_isSystem : M User.t :=
  issue Q_user_findFirstOrThrow ;;;
  t <- readTables ;;
  match find User.isSystem (user t) with
  | Some u => ret u
  | None => throw P2025
  end.

(** [SELECT id FROM "Wallet" WHERE id = $id FOR UPDATE] *)
Definition wallet_forUpdate (id : string) : M unit :=
  issue (Q_wallet_forUpdate id).

(** [transaction.create({ data })] *)
Definition transaction_create (uuid : string) (type : TransactionType)
    (status : TxStatus) (description : string) : M Transaction.t :=
  issue Q_transaction_create ;;;
  t <- readTables ;;
  if transactionExists uuid t then throw P2002
  else
    let x := Transaction.mk uuid type status (Some description) in
    writeTables (withTransaction t (transaction t ++ [x])) ;;; ret x.

Definition setStatus (id : string) (status : TxStatus) (x : Transaction.t)
  : Transaction.t :=
  if String.eqb (Transaction.id x) id
  then Transaction.mk (Transaction.id x) (Transaction.type x) status
         (Transaction.description x)
  else x.

(** [transaction.update({ where: { id }, data: { status } })] *)
Definition transaction_update (id : string) (status : TxStatus) : M unit :=
  issue (Q_transaction_update id) ;;;
  t <- readTables ;;
  if transactionExists id t
  then writeTables (withTransaction t (map (setStatus id status) (transaction t)))
  else throw P2025.

Definition keyTaken (e : LedgerEntry.t) (t : Tables) : bool :=
  match LedgerEntry.idempotencyKey e with
  | Some k => existsb (hasKey k) (ledgerEntry t)
  | None => false
  end.

Definition referencesResolve (e : LedgerEntry.t) (t : Tables) : bool :=
  transactionExists (LedgerEntry.transactionId e) t
  && assetTypeExists (LedgerEntry.assetTypeId e) t
  && walletExists (LedgerEntry.debitWalletId e) t
  && walletExists (LedgerEntry.creditWalletId e) t.

(** [ledgerEntry.create({ data })]: the amount must fit the column, the
    primary key and [LedgerEntry_idempotencyKey_key] must be free, and the
    four foreign keys must resolve. *)
Definition ledgerEntry_create (e : LedgerEntry.t) : M unit :=
  issue Q_ledgerEntry_create ;;;
  t <- readTables ;;
  if negb (fitsDecimal20_4 (LedgerEntry.amount e)) then throw P2020
  else if ledgerEntryExists (LedgerEntry.id e) t || keyTaken e t then throw P2002
  else if negb (referencesResolve e t) then throw P2003
  else writeTables (withLedgerEntry t (ledgerEntry t ++ [e])).

(** The balance query of [computeBalance] and [computeBalanceInTx]:
    [COALESCE(SUM(CASE credit ...) - SUM(CASE debit ...), 0)] over the rows
    that mention the wallet.  [SUM] over no row is NULL. *)
Definition mentions (walletId : string) (e : LedgerEntry.t) : bool :=
  String.eqb (LedgerEntry.creditWalletId e) walletId
  || String.eqb (LedgerEntry.debitWalletId e) walletId.

Definition SUM (f : LedgerEntry.t -> Z) (rows : list LedgerEntry.t) : option Z :=
  match rows with
  | [] => None
  | _ => Some (fold_right Z.add 0 (map f rows))
  end.

Definition creditCase (walletId : string) (e : LedgerEntry.t) : Z :=
  if String.eqb (LedgerEntry.creditWalletId e) walletId then LedgerEntry.amount e else 0.
Definition debitCase (walletId : string) (e : LedgerEntry.t) : Z :=
  if String.eqb (LedgerEntry.debitWalletId e) walletId then LedgerEntry.amount e else 0.

Definition balanceQuery (walletId : string) (es : list LedgerEntry.t) : Z :=
  let rows := filter (mentions walletId) es in
  match SUM (creditCase walletId) rows, SUM (debitCase walletId) rows with
  | Some c, Some d => c - d
  | _, _ => 0
  end.

(** ** Helpers of the service *)

Definition getOrCreateWallet (uuid userId assetTypeId : string) : M Wallet.t :=
  wallet_upsert uuid userId assetTypeId.

Definition computeBalance (walletId : string) : M Z :=
  issue (Q_balance walletId) ;;;
  t <- readTables ;;
  ret (balanceQuery walletId (ledgerEntry t)).

Definition getTreasuryWallet (uuid assetTypeId : string) : M Wallet.t :=
  systemUser <- user_findFirstOrThrow_isSystem ;;
  getOrCreateWallet uuid (User.id systemUser) assetTypeId.

(** [[...walletIds].sort()]: ascending in the order of [String.compare],
    which on identifiers (ASCII text) is the code-unit order of JavaScript. *)
Fixpoint insert (x : string) (l : list string) : list string :=
  match l with
  | [] => [x]
  | y :: l' => if (x <=? y)%string then x :: l else y :: insert x l'
  end.

Definition sort (l : list string) : list string := fold_right insert [] l.

Fixpoint forEach {A} (l : list A) (f : A -> M unit) : M unit :=
  match l with
  | [] => ret tt
  | x :: l' => f x ;;; forEach l' f
  end.

Definition lockWalletsInOrder (walletIds : list string) : M unit :=
  let sorted := sort walletIds in
  forEach sorted wallet_forUpdate.

Definition computeBalanceInTx (walletId : string) : M Z :=
  issue (Q_balance walletId) ;;;
  t <- readTables ;;
  ret (balanceQuery walletId (ledgerEntry t)).

(** ** Requests and results ([types/index.ts]) *)

Module Request.
(** [TopupRequest], [BonusRequest] and [SpendRequest] are one shape. *)
Record t := mk
  { userId : string;
    assetTypeId : string;
    amount : number;
    idempotencyKey : string;
    description : option string }.
End Request.

Definition TopupRequest := Request.t.
Definition BonusRequest := Request.t.
Definition SpendRequest := Request.t.

Module Payload.
(** The object an operation resolves to; a field the object does not
    carry is [None]. *)
Record t := mk
  { message : option string;
    idempotent : bool;
    transactionId : string;
    amount : option number;
    remainingBalance : option string }.
End Payload.

Module BalanceResponse.
Record t := mk
  { userId : string;
    assetTypeId : string;
    assetName : string;
    assetSymbol : string;
    balance : string }.
End BalanceResponse.

(** The identifiers drawn for the rows one operation may insert. *)
Record Uuids := mkUuids
  { userWalletUuid : string;
    treasuryWalletUuid : string;
    transactionUuid : string;
    ledgerEntryUuid : string }.

Definition orElse (d : option string) (default : string) : string :=
  match d with
  | Some s => s
  | None => default
  end.

Definition duplicate (existing : LedgerEntry.t) : Payload.t :=
  Payload.mk (Some "Duplicate request - returning original result") true
    (LedgerEntry.transactionId existing) None None.

Section Service.

(** [String(amount)] of a template literal: ECMAScript's number-to-text
    conversion. *)
Variable numberToString : number -> string.

(** The opening statements of the three transaction bodies: the two wallets
    of the operation, resolved and locked. *)
Definition resolveAndLock (ids : Uuids) (userId assetTypeId : string)
  : M (Wallet.t * Wallet.t) :=
  userWallet <- getOrCreateWallet (userWalletUuid ids) userId assetTypeId ;;
  treasuryWallet <- getTreasuryWallet (treasuryWalletUuid ids) assetTypeId ;;
  lockWalletsInOrder [Wallet.id userWallet; Wallet.id treasuryWallet] ;;;
  ret (userWallet, treasuryWallet).

Definition topupBody (ids : Uuids) (req : TopupRequest) : M Payload.t :=
  ws <- resolveAndLock ids (Request.userId req) (Request.assetTypeId req) ;;
  let (userWallet, treasuryWallet) := ws in
  transaction <-
    transaction_create (transactionUuid ids) TOPUP COMPLETED
      (orElse (Request.description req)
         ("Top-up of " ++ numberToString (Request.amount req) ++ " credits")%string) ;;
  ledgerEntry_create
    (LedgerEntry.mk (ledgerEntryUuid ids) (Transaction.id transaction)
       (Request.assetTypeId req)
       (Wallet.id treasuryWallet)
       (Wallet.id userWallet)
       (toFixed4 (Request.amount req))
       TOPUP
       (Some (orElse (Request.description req) "Top-up purchase"))
       (Some (Request.idempotencyKey req))) ;;;
  transaction_update (Transaction.id transaction) COMPLETED ;;;
  ret (Payload.mk None false (Transaction.id transaction)
         (Some (Request.amount req)) None).

Definition topupWallet (ids : Uuids) (req : TopupRequest) : M Payload.t :=
  if Qle_bool (Request.amount req) 0 then throw (Error "Amount must be positive")
  else
    existing <- ledgerEntry_findUnique (Request.idempotencyKey req) ;;
    match existing with
    | Some e => ret (duplicate e)
    | None => transaction_scope (topupBody ids req)
    end.

Definition bonusBody (ids : Uuids) (req : BonusRequest) : M Payload.t :=
  ws <- resolveAndLock ids (Request.userId req) (Request.assetTypeId req) ;;
  let (userWallet, treasuryWallet) := ws in
  transaction <-
    transaction_create (transactionUuid ids) BONUS PENDING
      (orElse (Request.description req)
         ("Bonus of " ++ numberToString (Request.amount req) ++ " credits")%string) ;;
  ledgerEntry_create
    (LedgerEntry.mk (ledgerEntryUuid ids) (Transaction.id transaction)
       (Request.assetTypeId req)
       (Wallet.id treasuryWallet)
       (Wallet.id userWallet)
       (toFixed4 (Request.amount req))
       BONUS
       (Some (orElse (Request.description req) "Bonus/incentive credit"))
       (Some (Request.idempotencyKey req))) ;;;
  transaction_update (Transaction.id transaction) COMPLETED ;;;
  ret (Payload.mk None false (Transaction.id transaction)
         (Some (Request.amount req)) None).

Definition issueBonus (ids : Uuids) (req : BonusRequest) : M Payload.t :=
  if Qle_bool (Request.amount req) 0 then throw (Error "Amount must be positive")
  else
    existing <- ledgerEntry_findUnique (Request.idempotencyKey req) ;;
    match existing with
    | Some e => ret (duplicate e)
    | None => transaction_scope (bonusBody ids req)
    end.

Definition insufficientBalance (balance : Z) (amount : number) : Exn :=
  Error ("Insufficient balance. Available: " ++ showFixed4 balance
         ++ ", Required: " ++ numberToString amount)%string.

Definition spendBody (ids : Uuids) (req : SpendRequest) : M Payload.t :=
  ws <- resolveAndLock ids (Request.userId req) (Request.assetTypeId req) ;;
  let (userWallet, treasuryWallet) := ws in
  balance <- computeBalanceInTx (Wallet.id userWallet) ;;
  if lessThan balance (Request.amount req)
  then throw (insufficientBalance balance (Request.amount req))
  else
    transaction <-
      transaction_create (transactionUuid ids) SPEND PENDING
        (orElse (Request.description req)
           ("Spend of " ++ numberToString (Request.amount req) ++ " credits")%string) ;;
    ledgerEntry_create
      (LedgerEntry.mk (ledgerEntryUuid ids) (Transaction.id transaction)
         (Request.assetTypeId req)
         (Wallet.id userWallet)
         (Wallet.id treasuryWallet)
         (toFixed4 (Request.amount req))
         SPEND
         (Some (orElse (Request.description req) "In-app purchase"))
         (Some (Request.idempotencyKey req))) ;;;
    transaction_update (Transaction.id transaction) COMPLETED ;;;
    let newBalance := minus balance (Request.amount req) in
    ret (Payload.mk None false (Transaction.id transaction)
           (Some (Request.amount req)) (Some (showFixed4 (toFixed4 newBalance)))).

Definition spendCredits (ids : Uuids) (req : SpendRequest) : M Payload.t :=
  if Qle_bool (Request.amount req) 0 then throw (Error "Amount must be positive")
  else
    existing <- ledgerEntry_findUnique (Request.idempotencyKey req) ;;
    match existing with
    | Some e => ret (duplicate e)
    | None => transaction_scope (spendBody ids req)
    end.

(** The three operations under their kind. *)
Definition transactionBody (kind : TransactionType)
  : Uuids -> Request.t -> M Payload.t :=
  match kind with
  | TOPUP => topupBody
  | BONUS => bonusBody
  | SPEND => spendBody
  end.

Definition operation (kind : TransactionType)
  : Uuids -> Request.t -> M Payload.t :=
  match kind with
  | TOPUP => topupWallet
  | BONUS => issueBonus
  | SPEND => spendCredits
  end.

(** What is left of an operation once its fast-path lookup has found no
    entry: the point two requests with one key reach together when they
    race. *)
Definition afterFastPath (kind : TransactionType) (ids : Uuids)
    (req : Request.t) : M Payload.t :=
  transaction_scope (transactionBody kind ids req).

(** The rows a transaction body of a kind inserts, as they stand at commit. *)
Definition transactionPrefix (kind : TransactionType) : string :=
  match kind with
  | TOPUP => "Top-up of "
  | BONUS => "Bonus of "
  | SPEND => "Spend of "
  end.

Definition entryDefault (kind : TransactionType) : string :=
  match kind with
  | TOPUP => "Top-up purchase"
  | BONUS => "Bonus/incentive credit"
  | SPEND => "In-app purchase"
  end.

Definition transactionOf (kind : TransactionType) (ids : Uuids) (req : Request.t)
  : Transaction.t :=
  Transaction.mk (transactionUuid ids) kind COMPLETED
    (Some (orElse (Request.description req)
             (transactionPrefix kind ++ numberToString (Request.amount req)
              ++ " credits")%string)).

Definition entryOf (kind : TransactionType) (ids : Uuids) (req : Request.t)
    (userWallet treasuryWallet : Wallet.t) : LedgerEntry.t :=
  LedgerEntry.mk (ledgerEntryUuid ids) (transactionUuid ids)
    (Request.assetTypeId req)
    (match kind with
     | SPEND => Wallet.id userWallet
     | _ => Wallet.id treasuryWallet
     end)
    (match kind with
     | SPEND => Wallet.id treasuryWallet
     | _ => Wallet.id userWallet
     end)
    (toFixed4 (Request.amount req))
    kind
    (Some (orElse (Request.description req) (entryDefault kind)))
    (Some (Request.idempotencyKey req)).

Definition payloadOf (kind : TransactionType) (ids : Uuids) (req : Request.t)
    (balance : Z) : Payload.t :=
  Payload.mk None false (transactionUuid ids) (Some (Request.amount req))
    (match kind with
     | SPEND => Some (showFixed4 (toFixed4 (minus balance (Request.amount req))))
     | _ => None
     end).

(** What a committed body has done, read off the tables it started from and
    the wallets it resolved. *)
Definition committed (kind : TransactionType) (ids : Uuids) (req : Request.t)
    (t t' : Tables) (p : Payload.t) : Prop :=
  exists uw tw t1 q1,
    resolveAndLock ids (Request.userId req) (Request.assetTypeId req) t
    = (Ok (uw, tw), t1, q1)
    /\ transactionExists (transactionUuid ids) t = false
    /\ fitsDecimal20_4 (toFixed4 (Request.amount req)) = true
    /\ ledgerEntryExists (ledgerEntryUuid ids) t = false
    /\ existsb (hasKey (Request.idempotencyKey req)) (ledgerEntry t) = false
    /\ (kind = SPEND ->
        lessThan (balanceQuery (Wallet.id uw) (ledgerEntry t))
          (Request.amount req) = false)
    /\ t' = mkTables (assetType t) (user t) (wallet t1)
              (transaction t ++ [transactionOf kind ids req])
              (ledgerEntry t ++ [entryOf kind ids req uw tw])
    /\ p = payloadOf kind ids req (balanceQuery (Wallet.id uw) (ledgerEntry t)).

(** The four ways an operation ends. *)
Inductive outcome (kind : TransactionType) (ids : Uuids) (req : Request.t)
    (t : Tables) : result Payload.t -> Tables -> Prop :=
| rejected :
    (Request.amount req <= 0)%Q ->
    outcome kind ids req t (Throw (Error "Amount must be positive")) t
| replayed e :
    (0 < Request.amount req)%Q ->
    find (hasKey (Request.idempotencyKey req)) (ledgerEntry t) = Some e ->
    outcome kind ids req t (Ok (duplicate e)) t
| applied p t' :
    (0 < Request.amount req)%Q ->
    find (hasKey (Request.idempotencyKey req)) (ledgerEntry t) = None ->
    committed kind ids req t t' p ->
    outcome kind ids req t (Ok p) t'
| rolledBack e :
    (0 < Request.amount req)%Q ->
    find (hasKey (Request.idempotencyKey req)) (ledgerEntry t) = None ->
    outcome kind ids req t (Throw e) t.

(** A stream of submissions, each with the identifiers drawn for it. *)
Record Submission := mkSubmission
  { kind : TransactionType; draws : Uuids; request : Request.t }.

Definition submit (s : Submission) (t : Tables) : Tables :=
  match operation (kind s) (draws s) (request s) t with
  | (_, t', _) => t'
  end.

Definition submitAll (l : list Submission) (t : Tables) : Tables :=
  fold_left (fun t s => submit s t) l t.

(** The same request sent again, once per draw. *)
Fixpoint resubmit (kind : TransactionType) (draws : list Uuids)
    (req : Request.t) (t : Tables) : list (result Payload.t) * Tables :=
  match draws with
  | [] => ([], t)
  | ids :: rest =>
      match operation kind ids req t with
      | (r, t', _) =>
          match resubmit kind rest req t' with
          | (rs, t'') => (r :: rs, t'')
          end
      end
  end.

End Service.

(** [wallet.findUnique({ where: { userId_assetTypeId }, include: { assetType } })] *)
Definition wallet_findUnique (userId assetTypeId : string)
  : M (option (Wallet.t * option AssetType.t)) :=
  issue (Q_wallet_findUnique userId assetTypeId) ;;;
  t <- readTables ;;
  match find (ownedBy userId assetTypeId) (wallet t) with
  | Some w =>
      ret (Some (w, find (fun a => String.eqb (AssetType.id a) (Wallet.assetTypeId w))
                      (assetType t)))
  | None => ret None
  end.

(** [assetType.findUniqueOrThrow({ where: { id } })] *)
Definition assetType_findUniqueOrThrow (id : string) : M AssetType.t :=
  issue (Q_assetType_findUniqueOrThrow id) ;;;
  t <- readTables ;;
  match find (fun a => String.eqb (AssetType.id a) id) (assetType t) with
  | Some a => ret a
  | None => throw P2025
  end.

(** Reading a property of the joined row when the join found none is a
    [TypeError]; the foreign key of [Wallet] rules the case out. *)
Definition getBalance (userId assetTypeId : string) : M BalanceResponse.t :=
  wallet <- wallet_findUnique userId assetTypeId ;;
  match wallet with
  | None =>
      assetType <- assetType_findUniqueOrThrow assetTypeId ;;
      ret (BalanceResponse.mk userId assetTypeId (AssetType.name assetType)
             (AssetType.symbol assetType) "0.0000")
  | Some (w, joined) =>
      balance <- computeBalance (Wallet.id w) ;;
      match joined with
      | Some assetType =>
          ret (BalanceResponse.mk userId assetTypeId (AssetType.name assetType)
                 (AssetType.symbol assetType) (showFixed4 balance))
      | None => throw (Error "Cannot read properties of null (reading 'name')")
      end
  end.

(** ** The specification's wording, for comparison *)

(** "Sum of entry amounts crediting the wallet" and "debiting it". *)
Definition creditsTotal (walletId : string) (es : list LedgerEntry.t) : Z :=
  fold_right Z.add 0
    (map LedgerEntry.amount
       (filter (fun e => String.eqb (LedgerEntry.creditWalletId e) walletId) es)).

Definition debitsTotal (walletId : string) (es : list LedgerEntry.t) : Z :=
  fold_right Z.add 0
    (map LedgerEntry.amount
       (filter (fun e => String.eqb (LedgerEntry.debitWalletId e) walletId) es)).

(** Reading a run of decimal digits back as a number. *)
Definition digitValue (c : ascii) : N := (N_of_ascii c - 48)%N.

Fixpoint readDigits (v : N) (s : string) : N :=
  match s with
  | EmptyString => v
  | String c s' => readDigits (10 * v + digitValue c)%N s'
  end.

Fixpoint onlyDigits (s : string) : bool :=
  match s with
  | EmptyString => true
  | String c s' =>
      (48 <=? N_of_ascii c)%N && (N_of_ascii c <=? 57)%N && onlyDigits s'
  end.

(** The ascending order of [sort]. *)
Definition sle (a b : string) : Prop := (a <=? b)%string = true.

(** "Sorting the distinct identifiers in ascending lexical order". *)
Definition spec_lockOrder (walletIds : list string) : list string :=
  sort (nodup string_dec walletIds).

(** The primary key of [Wallet]. *)
Definition Wallet_pkey (t : Tables) : Prop := NoDup (map Wallet.id (wallet t)).

(** A step that may only have added wallets. *)
Definition sameButWallets (t t' : Tables) : Prop :=
  assetType t' = assetType t /\ user t' = user t
  /\ transaction t' = transaction t /\ ledgerEntry t' = ledgerEntry t
  /\ (exists new, wallet t' = wallet t ++ new)
  /\ (Wallet_pkey t -> Wallet_pkey t').

(** ** The request layer ([walletController.ts], [errorHandler.ts]) *)

Inductive Content :=
| Data (data : Payload.t)
| BalanceData (data : BalanceResponse.t)
| Failure (error : string) (details : list ZodIssue).

Record Response := mkResponse
  { status : nat; success : bool; content : Content }.

(** [message.includes(needle)] *)
Definition includes (needle s : string) : bool :=
  match index 0 needle s with
  | Some _ => true
  | None => false
  end.

Definition businessError (message : string) : Response :=
  if includes "Insufficient balance" message
  then mkResponse 422 false (Failure message [])
  else mkResponse 500 false (Failure message []).

Definition errorHandler (err : Exn) : Response :=
  match err with
  | ZodError errors => mkResponse 400 false (Failure "Validation error" errors)
  | PrismaClientKnownRequestError code message =>
      if String.eqb code "P2002"
      then mkResponse 409 false (Failure "Duplicate request detected" [])
      else if String.eqb code "P2025"
      then mkResponse 404 false (Failure "Record not found" [])
      else businessError message
  | Error message => businessError message
  end.

(** The answer of an endpoint to the outcome of its service call:
    [res.status(result.idempotent ? 200 : 201).json(...)] or, through
    [next(err)], the error handler. *)
Definition respond (r : result Payload.t) : Response :=
  match r with
  | Ok data =>
      mkResponse (if Payload.idempotent data then 200 else 201) true (Data data)
  | Throw err => errorHandler err
  end.

Section Controller.

Variable numberToString : number -> string.

(** The test zod's [z.string().uuid()] applies. *)
Variable isUuid : string -> bool.

Definition check (ok : bool) (path message : string) : list ZodIssue :=
  if ok then [] else [mkIssue path message].

(** [TopupSchema.parse(req.body)] on a body of the right field types; zod
    reports every failing field. *)
Definition TopupSchema_parse (body : Request.t) : result Request.t :=
  let issues : list ZodIssue :=
    (check (isUuid (Request.userId body)) "userId" "Invalid uuid"
    ++ check (isUuid (Request.assetTypeId body)) "assetTypeId" "Invalid uuid"
    ++ check (negb (Qle_bool (Request.amount body) 0)) "amount"
         "Number must be greater than 0"
    ++ check (Nat.leb 1 (String.length (Request.idempotencyKey body)))
         "idempotencyKey" "String must contain at least 1 character(s)"
    ++ check (Nat.leb (String.length (Request.idempotencyKey body)) 255)
         "idempotencyKey" "String must contain at most 255 character(s)")%list in
  match issues with
  | [] => Ok body
  | _ => Throw (ZodError issues)
  end.

Definition BonusSchema_parse := TopupSchema_parse.
Definition SpendSchema_parse := TopupSchema_parse.

(** [try { const body = Schema.parse(req.body); const result = await
     service(body); ... } catch (err) { next(err) }] *)
Definition handle (parse : Request.t -> result Request.t)
    (service : Request.t -> M Payload.t) (body : Request.t)
  : Tables -> Response * Tables * list Query :=
  fun t =>
    match parse body with
    | Throw err => (errorHandler err, t, [])
    | Ok req =>
        match service req t with
        | (r, t', q) => (respond r, t', q)
        end
    end.

Definition topup (ids : Uuids) :=
  handle TopupSchema_parse (topupWallet numberToString ids).
Definition bonus (ids : Uuids) :=
  handle BonusSchema_parse (issueBonus numberToString ids).
Definition spend (ids : Uuids) :=
  handle SpendSchema_parse (spendCredits numberToString ids).

Definition endpoint (kind : TransactionType) (ids : Uuids) :=
  match kind with
  | TOPUP => topup ids
  | BONUS => bonus ids
  | SPEND => spend ids
  end.

End Controller.

(** ** A seeded database ([seed.sql]) used by the examples *)

Definition gc_id := "aaaaaaaa-0001-0000-0000-000000000001".
Definition treasury_id := "bbbbbbbb-0001-0000-0000-000000000001".
Definition alice_id := "bbbbbbbb-0001-0000-0000-000000000002".
Definition bob_id := "bbbbbbbb-0001-0000-0000-000000000003".
Definition treasury_gc_id := "cccccccc-0001-0000-0000-000000000001".
Definition alice_gc_id := "cccccccc-0001-0000-0000-000000000004".
Definition seed_tx_id := "dddddddd-0001-0000-0000-000000000001".

(** Alice starts with 50 Gold Coins. *)
Definition seedEntry : LedgerEntry.t :=
  LedgerEntry.mk "eeeeeeee-0001-0000-0000-000000000001" seed_tx_id gc_id
    treasury_gc_id alice_gc_id 500000 TOPUP
    (Some "Alice initial Gold Coins") (Some "seed-alice-gc").

Definition seedTables : Tables :=
  mkTables
    [AssetType.mk gc_id "Gold Coins" "GC" (Some "Premium in-game currency")]
    [User.mk treasury_id "treasury" "treasury@system.internal" true;
     User.mk alice_id "alice" "alice@example.com" false;
     User.mk bob_id "bob" "bob@example.com" false]
    [Wallet.mk treasury_gc_id treasury_id gc_id;
     Wallet.mk alice_gc_id alice_id gc_id]
    [Transaction.mk seed_tx_id TOPUP COMPLETED (Some "Initial seed balances")]
    [seedEntry].

Definition uuids (n : string) : Uuids :=
  mkUuids ("cccccccc-0002-0000-0000-00000000000" ++ n)%string
    ("cccccccc-0003-0000-0000-00000000000" ++ n)%string
    ("dddddddd-0002-0000-0000-00000000000" ++ n)%string
    ("eeeeeeee-0002-0000-0000-00000000000" ++ n)%string.

(** A stand-in for the number printer where an example needs one. *)
Definition printUnits (x : number) : string := showFixed4 (toFixed4 x).

Definition aliceWallet : Wallet.t := Wallet.mk alice_gc_id alice_id gc_id.
Definition treasuryWallet : Wallet.t := Wallet.mk treasury_gc_id treasury_id gc_id.

Definition aliceSpends9999 : SpendRequest :=
  Request.mk alice_id gc_id (9999 # 1) "spend-alice-fail-001" (Some "Should fail").
Definition aliceSpends10 : SpendRequest :=
  Request.mk alice_id gc_id (10 # 1) "spend-alice-001" (Some "Bought magic sword").
Definition bobTopup500 : TopupRequest :=
  Request.mk bob_id gc_id (500 # 1) "topup-bob-001" (Some "Purchased Gold Coins").
Definition treasuryTopup500 : TopupRequest :=
  Request.mk treasury_id gc_id (500 # 1) "topup-treasury-001" None.
Definition zeroForSeedKey : TopupRequest :=
  Request.mk bob_id gc_id (0 # 1) "seed-alice-gc" None.

Definition afterAliceSpends10 : Tables :=
  submit printUnits (mkSubmission SPEND (uuids "1") aliceSpends10) seedTables.
Definition afterBobTopup500 : Tables :=
  submit printUnits (mkSubmission TOPUP (uuids "1") bobTopup500) seedTables.
Definition afterTreasuryTopup500 : Tables :=
  submit printUnits (mkSubmission TOPUP (uuids "1") treasuryTopup500) seedTables.

Definition aliceSpends30 : SpendRequest :=
  Request.mk alice_id gc_id (30 # 1) "spend-alice-002" None.
Definition afterAliceSpends30 : Tables :=
  submit printUnits (mkSubmission SPEND (uuids "1") aliceSpends30) seedTables.
Definition bobTopupTiny : TopupRequest :=
  Request.mk bob_id gc_id (1 # 100000) "topup-bob-002" None.
Definition afterBobTopupTiny : Tables :=
  submit printUnits (mkSubmission TOPUP (uuids "1") bobTopupTiny) seedTables.

(** ** The constraints of the schema, as properties of the tables *)

(** The idempotency keys present in the ledger; a row without one
    contributes none ([LedgerEntry_idempotencyKey_key] ignores NULL). *)
Definition keysOf (es : list LedgerEntry.t) : list string :=
  flat_map
    (fun e =>
       match LedgerEntry.idempotencyKey e with
       | Some k => [k]
       | None => []
       end)
    es.

(** [Wallet_pkey], [Wallet_userId_assetTypeId_key], [Transaction_pkey],
    [LedgerEntry_pkey] and [LedgerEntry_idempotencyKey_key]. *)
Definition UniqueKeys (t : Tables) : Prop :=
  NoDup (map Wallet.id (wallet t))
  /\ NoDup (map (fun w => (Wallet.userId w, Wallet.assetTypeId w)) (wallet t))
  /\ NoDup (map Transaction.id (transaction t))
  /\ NoDup (map LedgerEntry.id (ledgerEntry t))
  /\ NoDup (keysOf (ledgerEntry t)).

(** The two foreign keys of [Wallet] and the four of [LedgerEntry]. *)
Definition ForeignKeys (t : Tables) : Prop :=
  (forall w, In w (wallet t) ->
             userExists (Wallet.userId w) t = true
             /\ assetTypeExists (Wallet.assetTypeId w) t = true)
  /\ (forall e, In e (ledgerEntry t) -> referencesResolve e t = true).

(** Both wallets of an entry hold the asset type the entry names. *)
Definition sameAsset (t : Tables) (e : LedgerEntry.t) : Prop :=
  exists debit credit,
    In debit (wallet t) /\ In credit (wallet t)
    /\ Wallet.id debit = LedgerEntry.debitWalletId e
    /\ Wallet.id credit = LedgerEntry.creditWalletId e
    /\ Wallet.assetTypeId debit = LedgerEntry.assetTypeId e
    /\ Wallet.assetTypeId credit = LedgerEntry.assetTypeId e.

Definition OneAssetPerEntry (t : Tables) : Prop :=
  forall e, In e (ledgerEntry t) -> sameAsset t e.

(** The sum of the derived balances of a list of wallets. *)
Definition totalBalance (ws : list Wallet.t) (es : list LedgerEntry.t) : Z :=
  fold_right Z.add 0 (map (fun w => balanceQuery (Wallet.id w) es) ws).

Definition holds (assetTypeId : string) (w : Wallet.t) : bool :=
  String.eqb (Wallet.assetTypeId w) assetTypeId.

(** The errors the database raises to the engine. *)
Definition databaseError (e : Exn) : Prop :=
  e = P2002 \/ e = P2003 \/ e = P2025 \/ e = P2020.

(** The change of the user's balance an entry of the kind makes: a credit
    for TOPUP and BONUS, a debit for SPEND. *)
Definition signed (kind : TransactionType) (amount : Z) : Z :=
  match kind with
  | SPEND => - amount
  | _ => amount
  end.

(** ** The read endpoints ([walletController.ts]) *)

Module walletController.

(** [BalanceQuerySchema.parse(req.query)], on a query string in which
    [assetTypeId] is absent or given once. *)
Definition BalanceQuerySchema_parse (isUuid : string -> bool)
    (assetTypeId : option string) : result string :=
  match assetTypeId with
  | None => Throw (ZodError [mkIssue "assetTypeId" "Required"])
  | Some s =>
      if isUuid s then Ok s
      else Throw (ZodError [mkIssue "assetTypeId" "Invalid uuid"])
  end.

(** [try { const { userId } = req.params; const { assetTypeId } =
     BalanceQuerySchema.parse(req.query); const result = await
     walletService.getBalance(userId, assetTypeId);
     res.json({ success: true, data: result }) } catch (err) { next(err) }] *)
Definition getBalance (isUuid : string -> bool) (userId : string)
    (assetTypeId : option string)
  : Tables -> Response * Tables * list Query :=
  fun t =>
    match BalanceQuerySchema_parse isUuid assetTypeId with
    | Throw err => (errorHandler err, t, [])
    | Ok a =>
        match getBalance userId a t with
        | (Ok data, t', q) => (mkResponse 200 true (BalanceData data), t', q)
        | (Throw err, t', q) => (errorHandler err, t', q)
        end
    end.

End walletController.

(** ** The transaction history ([getTransactionHistory]) *)

Module TransactionResponse.
(** The object the history builds for an entry; [createdAt] is the
    entry's timestamp. *)
Record t := mk
  { id : string;
    type : TransactionType;
    status : TxStatus;
    amount : string;
    description : option string;
    createdAt : Z;
    debitWalletId : string;
    creditWalletId : string }.
End TransactionResponse.

(** A string is truthy unless it is empty. *)
Definition truthy (s : string) : bool := negb (String.eqb s "").

Fixpoint stripZeros (s : string) : string :=
  match s with
  | EmptyString => EmptyString
  | String c rest =>
      match stripZeros rest with
      | EmptyString => if Ascii.eqb c "0" then EmptyString else String c EmptyString
      | rest' => String c rest'
      end
  end.

(** [Decimal.toString()] of a count of ten-thousandths that fits
    [DECIMAL(20,4)]: plain notation, no trailing zeros, no point for a
    whole number. *)
Definition decimalToString (units : Z) : string :=
  let a := Z.to_N (Z.abs units) in
  let fraction := stripZeros (padLeft 4 (showN (a mod 10000)%N)) in
  ((if (units <? 0)%Z then "-" else "") ++
   showN (a / 10000)%N ++
   match fraction with
   | EmptyString => ""
   | _ => "." ++ fraction
   end)%string.

(** [wallet.findMany({ where: { userId, ...(assetTypeId ? { assetTypeId } : {}) } })] *)
Definition wallet_findMany (userId : string) (assetTypeId : option string)
    (t : Tables) : list Wallet.t :=
  filter
    (fun w =>
       String.eqb (Wallet.userId w) userId
       && match assetTypeId with
          | Some a => if truthy a then String.eqb (Wallet.assetTypeId w) a else true
          | None => true
          end)
    (wallet t).

(** [{ OR: [{ debitWalletId: { in: walletIds } }, { creditWalletId: { in: walletIds } }] }] *)
Definition touches (walletIds : list string) (e : LedgerEntry.t) : bool :=
  existsb (String.eqb (LedgerEntry.debitWalletId e)) walletIds
  || existsb (String.eqb (LedgerEntry.creditWalletId e)) walletIds.

(** [entries.map(e => ...)]: the first element whose image throws ends the
    map. *)
Fixpoint mapResult {A B} (f : A -> result B) (l : list A) : result (list B) :=
  match l with
  | [] => Ok []
  | x :: l' =>
      match f x with
      | Throw err => Throw err
      | Ok y =>
          match mapResult f l' with
          | Throw err => Throw err
          | Ok ys => Ok (y :: ys)
          end
      end
  end.

Section History.

(** The [createdAt] column of an entry, in milliseconds, and the rows of
    [orderBy: { createdAt: 'desc' }]; PostgreSQL leaves the order of rows
    of one timestamp open. *)
Variable createdAt : LedgerEntry.t -> Z.
Variable orderBy_createdAt_desc : list LedgerEntry.t -> list LedgerEntry.t.

(** The object built for an entry joined with its transaction
    ([include: { transaction: true }]); [LedgerEntry_transactionId_fkey]
    rules out an entry without one. *)
Definition toResponse (t : Tables) (e : LedgerEntry.t)
  : result TransactionResponse.t :=
  match find (fun x => String.eqb (Transaction.id x) (LedgerEntry.transactionId e))
             (transaction t) with
  | Some x =>
      Ok (TransactionResponse.mk (LedgerEntry.id e)
            (LedgerEntry.transactionType e) (Transaction.status x)
            (decimalToString (LedgerEntry.amount e))
            (LedgerEntry.description e) (createdAt e)
            (LedgerEntry.debitWalletId e) (LedgerEntry.creditWalletId e))
  | None => Throw (Error "Cannot read properties of null (reading 'status')")
  end.

(** The function reads two tables and writes none; it is given as a
    function of the tables it reads. *)
Definition getTransactionHistory (userId : string) (assetTypeId : option string)
    (t : Tables) : result (list TransactionResponse.t) :=
  let wallet := if truthy userId then wallet_findMany userId assetTypeId t else [] in
  let walletIds := map Wallet.id wallet in
  match walletIds with
  | [] => Ok []
  | _ =>
      let entries :=
        firstn 50 (orderBy_createdAt_desc (filter (touches walletIds) (ledgerEntry t))) in
      mapResult (toResponse t) entries
  end.

End History.

(** * Properties *)

(** ** The monad *)

Lemma bind_inv {A B} (m : M A) (k : A -> M B) t r t' q :
  bind m k t = (r, t', q) ->
  (exists a t1 q1 q2,
      m t = (Ok a, t1, q1) /\ k a t1 = (r, t', q2) /\ q = q1 ++ q2)
  \/ (exists e, m t = (Throw e, t', q) /\ r = Throw e).
Proof.
  unfold bind. destruct (m t) as [[[a|e] t1] q1].
  - destruct (k a t1) as [[r2 t2] q2] eqn:Hk. intros H. inversion H; subst.
    left. exists a, t1, q1, q2. auto.
  - intros H. inversion H; subst. right. exists e. auto.
Qed.

Lemma bind_Ok {A B} (m : M A) (k : A -> M B) t b t' q :
  bind m k t = (Ok b, t', q) ->
  exists a t1 q1 q2,
    m t = (Ok a, t1, q1) /\ k a t1 = (Ok b, t', q2) /\ q = q1 ++ q2.
Proof.
  intros H. apply bind_inv in H. destruct H as [H | [e [_ H]]]; [exact H | discriminate].
Qed.

Lemma bind_eq_Ok {A B} (m : M A) (k : A -> M B) t a t1 q1 :
  m t = (Ok a, t1, q1) ->
  bind m k t = (let '(r, t2, q2) := k a t1 in (r, t2, q1 ++ q2)).
Proof. intros H. unfold bind. rewrite H. reflexivity. Qed.

Lemma bind_eq_Throw {A B} (m : M A) (k : A -> M B) t e t1 q1 :
  m t = (Throw e, t1, q1) -> bind m k t = (Throw e, t1, q1).
Proof. intros H. unfold bind. rewrite H. reflexivity. Qed.

Lemma transaction_scope_tables {A} (body : M A) t r t' q :
  transaction_scope body t = (r, t', q) ->
  match r with
  | Ok a => exists q', body t = (Ok a, t', q')
  | Throw e => t' = t
  end.
Proof.
  unfold transaction_scope. destruct (body t) as [[[a|e] t1] q1]; intros H;
    inversion H; subst; eauto.
Qed.

(** ** What each client call does *)

Lemma transaction_create_eq uuid type status description t :
  transaction_create uuid type status description t =
  if transactionExists uuid t then (Throw P2002, t, [Q_transaction_create])
  else
    (Ok (Transaction.mk uuid type status (Some description)),
     withTransaction t
       (transaction t ++ [Transaction.mk uuid type status (Some description)]),
     [Q_transaction_create]).
Proof.
  unfold transaction_create, bind, issue, readTables, writeTables, throw, ret.
  destruct (transactionExists uuid t); reflexivity.
Qed.

Lemma transaction_update_eq id t :
  transaction_update id COMPLETED t =
  if transactionExists id t
  then (Ok tt, withTransaction t (map (setStatus id COMPLETED) (transaction t)),
        [Q_transaction_update id])
  else (Throw P2025, t, [Q_transaction_update id]).
Proof.
  unfold transaction_update, bind, issue, readTables, writeTables, throw, ret.
  destruct (transactionExists id t); reflexivity.
Qed.

Lemma ledgerEntry_create_eq e t :
  ledgerEntry_create e t =
  if negb (fitsDecimal20_4 (LedgerEntry.amount e))
  then (Throw P2020, t, [Q_ledgerEntry_create])
  else if ledgerEntryExists (LedgerEntry.id e) t || keyTaken e t
  then (Throw P2002, t, [Q_ledgerEntry_create])
  else if negb (referencesResolve e t)
  then (Throw P2003, t, [Q_ledgerEntry_create])
  else (Ok tt, withLedgerEntry t (ledgerEntry t ++ [e]), [Q_ledgerEntry_create]).
Proof.
  unfold ledgerEntry_create, bind, issue, readTables, writeTables, throw, ret.
  destruct (fitsDecimal20_4 (LedgerEntry.amount e)); simpl; [|reflexivity].
  destruct (ledgerEntryExists (LedgerEntry.id e) t || keyTaken e t);
    [reflexivity|].
  destruct (referencesResolve e t); reflexivity.
Qed.

Lemma computeBalanceInTx_eq walletId t :
  computeBalanceInTx walletId t =
  (Ok (balanceQuery walletId (ledgerEntry t)), t, [Q_balance walletId]).
Proof. reflexivity. Qed.

Lemma computeBalance_eq walletId t :
  computeBalance walletId t =
  (Ok (balanceQuery walletId (ledgerEntry t)), t, [Q_balance walletId]).
Proof. reflexivity. Qed.

Lemma ledgerEntry_findUnique_eq key t :
  ledgerEntry_findUnique key t =
  (Ok (find (hasKey key) (ledgerEntry t)), t, [Q_ledgerEntry_findUnique key]).
Proof. reflexivity. Qed.

Lemma forEach_forUpdate l t :
  forEach l wallet_forUpdate t = (Ok tt, t, map Q_wallet_forUpdate l).
Proof.
  induction l as [|x l IH]; simpl; [reflexivity|].
  unfold bind. simpl. rewrite IH. reflexivity.
Qed.

Lemma lockWalletsInOrder_eq walletIds t :
  lockWalletsInOrder walletIds t =
  (Ok tt, t, map Q_wallet_forUpdate (sort walletIds)).
Proof. unfold lockWalletsInOrder. apply forEach_forUpdate. Qed.

Lemma wallet_upsert_eq uuid userId assetTypeId t :
  wallet_upsert uuid userId assetTypeId t =
  match find (ownedBy userId assetTypeId) (wallet t) with
  | Some w => (Ok w, t, [Q_wallet_upsert userId assetTypeId])
  | None =>
      if walletExists uuid t
      then (Throw P2002, t, [Q_wallet_upsert userId assetTypeId])
      else if negb (userExists userId t && assetTypeExists assetTypeId t)
      then (Throw P2003, t, [Q_wallet_upsert userId assetTypeId])
      else (Ok (Wallet.mk uuid userId assetTypeId),
            withWallet t (wallet t ++ [Wallet.mk uuid userId assetTypeId]),
            [Q_wallet_upsert userId assetTypeId])
  end.
Proof.
  unfold wallet_upsert, bind, issue, readTables, writeTables, throw, ret.
  destruct (find _ (wallet t)); [reflexivity|].
  destruct (walletExists uuid t); [reflexivity|].
  destruct (negb _); reflexivity.
Qed.

Lemma user_findFirstOrThrow_eq t :
  user_findFirstOrThrow_isSystem t =
  match find User.isSystem (user t) with
  | Some u => (Ok u, t, [Q_user_findFirstOrThrow])
  | None => (Throw P2025, t, [Q_user_findFirstOrThrow])
  end.
Proof.
  unfold user_findFirstOrThrow_isSystem, bind, issue, readTables, throw, ret.
  destruct (find _ (user t)); reflexivity.
Qed.

(** ** Lists and lookups *)

Lemma find_app_Some {A} (f : A -> bool) l l' x :
  find f l = Some x -> find f (l ++ l') = Some x.
Proof.
  induction l as [|y l IH]; simpl; [discriminate|].
  destruct (f y); auto.
Qed.

Lemma find_app_None {A} (f : A -> bool) l l' :
  find f l = None -> find f (l ++ l') = find f l'.
Proof.
  induction l as [|y l IH]; simpl; [reflexivity|].
  destruct (f y); [discriminate | auto].
Qed.

Lemma find_None_existsb {A} (f : A -> bool) l :
  find f l = None <-> existsb f l = false.
Proof.
  induction l as [|y l IH]; simpl; [tauto|].
  destruct (f y); simpl; [split; discriminate | exact IH].
Qed.

Lemma existsb_id_In {A} (proj : A -> string) id l :
  existsb (fun x => String.eqb (proj x) id) l = true <-> In id (map proj l).
Proof.
  rewrite existsb_exists, in_map_iff. split.
  - intros [x [Hin Hx]]. apply String.eqb_eq in Hx. eauto.
  - intros [x [Hx Hin]]. exists x. split; [exact Hin|]. now apply String.eqb_eq.
Qed.

Lemma NoDup_map_inj {A} (proj : A -> string) l x y :
  NoDup (map proj l) -> In x l -> In y l -> proj x = proj y -> x = y.
Proof.
  induction l as [|z l IH]; simpl; [tauto|].
  intros Hnd Hx Hy Heq. inversion Hnd as [|? ? Hnotin Hnd']; subst.
  destruct Hx as [-> | Hx], Hy as [-> | Hy]; auto.
  - exfalso. apply Hnotin. rewrite Heq. now apply in_map.
  - exfalso. apply Hnotin. rewrite <- Heq. now apply in_map.
Qed.

Lemma NoDup_snoc {A} (l : list A) x : NoDup l -> ~ In x l -> NoDup (l ++ [x]).
Proof.
  intros Hnd Hx. apply Permutation_NoDup with (l := x :: l).
  - apply Permutation_cons_append.
  - now constructor.
Qed.

Lemma ownedBy_true u a w :
  ownedBy u a w = true <-> Wallet.userId w = u /\ Wallet.assetTypeId w = a.
Proof.
  unfold ownedBy. rewrite andb_true_iff, !String.eqb_eq. tauto.
Qed.

(** ** Wallet resolution *)

Lemma sameButWallets_refl t : sameButWallets t t.
Proof.
  unfold sameButWallets. repeat split; auto. exists []. now rewrite app_nil_r.
Qed.

Lemma sameButWallets_trans t1 t2 t3 :
  sameButWallets t1 t2 -> sameButWallets t2 t3 -> sameButWallets t1 t3.
Proof.
  unfold sameButWallets.
  intros (A1 & U1 & X1 & E1 & [n1 W1] & P1) (A2 & U2 & X2 & E2 & [n2 W2] & P2).
  repeat split; try congruence; auto.
  exists (n1 ++ n2). rewrite W2, W1. now rewrite app_assoc.
Qed.

Lemma wallet_upsert_inv uuid u a t r t' q :
  wallet_upsert uuid u a t = (r, t', q) ->
  q = [Q_wallet_upsert u a] /\ sameButWallets t t'
  /\ match r with
     | Ok w => find (ownedBy u a) (wallet t') = Some w
     | Throw _ => t' = t
     end.
Proof.
  rewrite wallet_upsert_eq.
  destruct (find (ownedBy u a) (wallet t)) as [w|] eqn:Hfind.
  - intros H; inversion H; subst. auto using sameButWallets_refl.
  - destruct (walletExists uuid t) eqn:Hpk.
    + intros H; inversion H; subst. auto using sameButWallets_refl.
    + destruct (negb _).
      * intros H; inversion H; subst. auto using sameButWallets_refl.
      * intros H; inversion H; subst. split; [reflexivity|]. split.
        -- unfold sameButWallets; simpl. repeat split; eauto.
           unfold Wallet_pkey; simpl. intros Hnd. rewrite map_app. simpl.
           apply NoDup_snoc; [exact Hnd|].
           intros Hin. apply (existsb_id_In Wallet.id) in Hin.
           unfold walletExists in Hpk. congruence.
        -- simpl. rewrite find_app_None by exact Hfind. simpl.
           replace (ownedBy u a _) with true; [reflexivity|].
           symmetry. now apply ownedBy_true.
Qed.

Lemma resolveAndLock_inv ids u a t r t' q :
  resolveAndLock ids u a t = (r, t', q) ->
  sameButWallets t t'
  /\ match r with
     | Ok (uw, tw) =>
         find (ownedBy u a) (wallet t') = Some uw
         /\ (exists sys,
               find User.isSystem (user t) = Some sys
               /\ find (ownedBy (User.id sys) a) (wallet t') = Some tw)
         /\ q = [Q_wallet_upsert u a; Q_user_findFirstOrThrow]
                ++ (match find User.isSystem (user t) with
                    | Some sys => [Q_wallet_upsert (User.id sys) a]
                    | None => []
                    end)
                ++ map Q_wallet_forUpdate (sort [Wallet.id uw; Wallet.id tw])
     | Throw _ => t' = t \/ True
     end.
Proof.
  unfold resolveAndLock, getOrCreateWallet, getTreasuryWallet. intros H.
  apply bind_inv in H.
  destruct H as [(uw & t1 & q1 & q2 & H1 & H & ->) | (e & H1 & ->)].
  2: { apply wallet_upsert_inv in H1. destruct H1 as (_ & S & _). auto. }
  apply wallet_upsert_inv in H1. destruct H1 as (-> & S1 & F1).
  apply bind_inv in H.
  destruct H as [(tw & t2 & q3 & q4 & H2 & H & ->) | (e & H2 & ->)].
  - apply bind_inv in H2.
    destruct H2 as [(sys & t3 & q5 & q6 & H3 & H2 & ->) | (e & H3 & Hr)];
      [|discriminate].
    rewrite user_findFirstOrThrow_eq in H3.
    destruct (find User.isSystem (user t1)) as [sys'|] eqn:Hsys;
      inversion H3; subst; clear H3.
    apply wallet_upsert_inv in H2. destruct H2 as (-> & S2 & F2).
    rewrite bind_eq_Ok with (1 := lockWalletsInOrder_eq _ _) in H.
    unfold ret in H. inversion H; subst; clear H.
    assert (Hu : user t3 = user t) by apply S1.
    split; [eapply sameButWallets_trans; eauto|].
    split.
    { destruct S2 as (_ & _ & _ & _ & [new ->] & _). now apply find_app_Some. }
    split.
    { exists sys. rewrite <- Hu. auto. }
    rewrite <- Hu, Hsys. simpl. now rewrite app_nil_r.
  - apply bind_inv in H2.
    destruct H2 as [(sys & t3 & q5 & q6 & H3 & H2 & ->) | (e' & H3 & Hr)].
    + rewrite user_findFirstOrThrow_eq in H3.
      destruct (find User.isSystem (user t1)); inversion H3; subst; clear H3.
      apply wallet_upsert_inv in H2. destruct H2 as (_ & S2 & _).
      split; [eapply sameButWallets_trans; eauto | auto].
    + rewrite user_findFirstOrThrow_eq in H3.
      destruct (find User.isSystem (user t1)); inversion H3; subst; clear H3.
      auto.
Qed.

(** ** The transaction bodies *)

Lemma map_setStatus_fresh id status l :
  existsb (fun x => String.eqb (Transaction.id x) id) l = false ->
  map (setStatus id status) l = l.
Proof.
  induction l as [|x l IH]; simpl; [reflexivity|].
  intros H. apply orb_false_iff in H. destruct H as [Hx Hl].
  unfold setStatus at 1. rewrite Hx. now rewrite IH.
Qed.

Section Engine.

(** The number printer of template literals, left open. *)
Variable numberToString : number -> string.

Ltac step H :=
  let a := fresh "a" in
  let t := fresh "t" in
  let qa := fresh "q" in
  let qb := fresh "q" in
  let H1 := fresh "H" in
  apply bind_Ok in H; destruct H as (a & t & qa & qb & H1 & H & ->).

Lemma insert_commit t1 t x e (p : Payload.t) q r t' :
  transaction t1 = transaction t -> ledgerEntry t1 = ledgerEntry t ->
  assetType t1 = assetType t -> user t1 = user t ->
  transactionExists (Transaction.id x) t1 = false ->
  (ledgerEntry_create e ;;; transaction_update (Transaction.id x) COMPLETED ;;;
   ret p) (withTransaction t1 (transaction t1 ++ [x])) = (Ok r, t', q) ->
  fitsDecimal20_4 (LedgerEntry.amount e) = true
  /\ ledgerEntryExists (LedgerEntry.id e) t = false
  /\ keyTaken e t = false
  /\ r = p
  /\ t' = mkTables (assetType t) (user t) (wallet t1)
            (transaction t ++ [setStatus (Transaction.id x) COMPLETED x])
            (ledgerEntry t ++ [e]).
Proof.
  intros HX HE HA HU Hfresh H.
  step H. rewrite ledgerEntry_create_eq in H0.
  destruct (fitsDecimal20_4 (LedgerEntry.amount e)) eqn:Hfit; simpl in H0;
    [|discriminate].
  destruct (ledgerEntryExists _ _ || keyTaken _ _) eqn:Hfree; [discriminate|].
  destruct (negb _); [discriminate|].
  inversion H0; subst; clear H0.
  step H. rewrite transaction_update_eq in H0.
  unfold transactionExists in H0. simpl in H0.
  rewrite existsb_app in H0. simpl in H0.
  rewrite String.eqb_refl, orb_true_r in H0.
  inversion H0; subst; clear H0.
  unfold ret in H. inversion H; subst; clear H.
  apply orb_false_iff in Hfree. destruct Hfree as [Hpk Hkey].
  unfold ledgerEntryExists, keyTaken in *. simpl in *.
  rewrite HE in *. repeat split; auto.
  unfold withTransaction, withLedgerEntry; simpl.
  rewrite map_app, map_setStatus_fresh by exact Hfresh. simpl.
  now rewrite HA, HU, HX.
Qed.

Lemma topupBody_Ok ids req t p t' q :
  topupBody numberToString ids req t = (Ok p, t', q) ->
  committed numberToString TOPUP ids req t t' p.
Proof.
  unfold topupBody. intros H. step H. destruct a as [uw tw].
  pose proof (resolveAndLock_inv _ _ _ _ _ _ _ H0) as [S _].
  step H. rewrite transaction_create_eq in H1.
  destruct (transactionExists _ t0) eqn:Hfresh; [discriminate|].
  inversion H1; subst; clear H1.
  destruct S as (HA & HU & HX & HE & _ & _).
  eapply insert_commit in H; eauto.
  destruct H as (Hfit & Hpk & Hkey & -> & ->).
  unfold committed. exists uw, tw, t0, q0.
  unfold transactionExists in *. rewrite HX in Hfresh.
  repeat split; auto; try (intros; discriminate); try reflexivity.
  all: unfold setStatus; simpl; rewrite ?String.eqb_refl; reflexivity.
Qed.

Lemma bonusBody_Ok ids req t p t' q :
  bonusBody numberToString ids req t = (Ok p, t', q) ->
  committed numberToString BONUS ids req t t' p.
Proof.
  unfold bonusBody. intros H. step H. destruct a as [uw tw].
  pose proof (resolveAndLock_inv _ _ _ _ _ _ _ H0) as [S _].
  step H. rewrite transaction_create_eq in H1.
  destruct (transactionExists _ t0) eqn:Hfresh; [discriminate|].
  inversion H1; subst; clear H1.
  destruct S as (HA & HU & HX & HE & _ & _).
  eapply insert_commit in H; eauto.
  destruct H as (Hfit & Hpk & Hkey & -> & ->).
  unfold committed. exists uw, tw, t0, q0.
  unfold transactionExists in *. rewrite HX in Hfresh.
  repeat split; auto; try (intros; discriminate); try reflexivity.
  all: unfold setStatus; simpl; rewrite ?String.eqb_refl; reflexivity.
Qed.

Lemma spendBody_Ok ids req t p t' q :
  spendBody numberToString ids req t = (Ok p, t', q) ->
  committed numberToString SPEND ids req t t' p.
Proof.
  unfold spendBody. intros H. step H. destruct a as [uw tw].
  pose proof (resolveAndLock_inv _ _ _ _ _ _ _ H0) as [S _].
  step H. rewrite computeBalanceInTx_eq in H1. inversion H1; subst; clear H1.
  destruct (lessThan _ _) eqn:Hguard; [discriminate|].
  step H. rewrite transaction_create_eq in H1.
  destruct (transactionExists _ t1) eqn:Hfresh; [discriminate|].
  inversion H1; subst; clear H1.
  destruct S as (HA & HU & HX & HE & _ & _).
  eapply insert_commit in H; eauto.
  destruct H as (Hfit & Hpk & Hkey & -> & ->).
  unfold committed. exists uw, tw, t1, q0.
  unfold transactionExists in *. rewrite HX in Hfresh. rewrite HE in *.
  repeat split; auto; try (intros; discriminate); try reflexivity.
  all: unfold setStatus; simpl; rewrite ?String.eqb_refl; reflexivity.
Qed.

Lemma transactionBody_Ok kind ids req t p t' q :
  transactionBody numberToString kind ids req t = (Ok p, t', q) ->
  committed numberToString kind ids req t t' p.
Proof.
  destruct kind; simpl;
    [apply topupBody_Ok | apply bonusBody_Ok | apply spendBody_Ok].
Qed.

(** An operation is its guard, its fast path and its transaction. *)
Lemma operation_eq kind ids req t :
  operation numberToString kind ids req t =
  if Qle_bool (Request.amount req) 0
  then (Throw (Error "Amount must be positive"), t, [])
  else
    match find (hasKey (Request.idempotencyKey req)) (ledgerEntry t) with
    | Some e =>
        (Ok (duplicate e), t,
         [Q_ledgerEntry_findUnique (Request.idempotencyKey req)])
    | None =>
        match
          transaction_scope (transactionBody numberToString kind ids req) t
        with
        | (r, t', q) =>
            (r, t', Q_ledgerEntry_findUnique (Request.idempotencyKey req) :: q)
        end
    end.
Proof.
  destruct kind; simpl; unfold topupWallet, issueBonus, spendCredits;
    (destruct (Qle_bool (Request.amount req) 0); [reflexivity|]);
    unfold bind; rewrite ledgerEntry_findUnique_eq;
    (destruct (find _ (ledgerEntry t)); [reflexivity|]);
    destruct (transaction_scope _ t) as [[r t'] q]; reflexivity.
Qed.

Lemma Qle_bool_false x y : Qle_bool x y = false -> (y < x)%Q.
Proof.
  intros H. apply Qnot_le_lt. intros Hle. apply Qle_bool_iff in Hle. congruence.
Qed.

Lemma operation_outcome kind ids req t r t' q :
  operation numberToString kind ids req t = (r, t', q) ->
  outcome numberToString kind ids req t r t'.
Proof.
  rewrite operation_eq.
  destruct (Qle_bool (Request.amount req) 0) eqn:Hamt.
  - intros H; inversion H; subst. constructor. now apply Qle_bool_iff.
  - apply Qle_bool_false in Hamt.
    destruct (find _ (ledgerEntry t)) as [e|] eqn:Hfind.
    + intros H; inversion H; subst. now constructor.
    + destruct (transaction_scope _ t) as [[r1 t1] q1] eqn:Hscope.
      intros H; inversion H; subst.
      apply transaction_scope_tables in Hscope. destruct r as [p|e].
      * destruct Hscope as [q' Hbody]. apply transactionBody_Ok in Hbody.
        now constructor.
      * subst. now constructor.
Qed.



(** ** The order of identifiers and [sort] *)

Lemma ascii_compare_lt_trans a b c :
  Ascii.compare a b = Lt -> Ascii.compare b c = Lt -> Ascii.compare a c = Lt.
Proof.
  unfold Ascii.compare. rewrite !N.compare_lt_iff. apply N.lt_trans.
Qed.

Lemma compare_lt_trans a : forall b c,
  String.compare a b = Lt -> String.compare b c = Lt -> String.compare a c = Lt.
Proof.
  induction a as [|x a IH]; intros [|y b] [|z c]; simpl; try discriminate; auto.
  destruct (Ascii.compare x y) eqn:Hxy; try discriminate.
  - apply Ascii.compare_eq_iff in Hxy. subst y.
    destruct (Ascii.compare x z); try discriminate; eauto.
  - destruct (Ascii.compare y z) eqn:Hyz; try discriminate.
    + apply Ascii.compare_eq_iff in Hyz. subst z. now rewrite Hxy.
    + now rewrite (ascii_compare_lt_trans _ _ _ Hxy Hyz).
Qed.

Lemma sle_cases a b : sle a b <-> String.compare a b = Lt \/ a = b.
Proof.
  unfold sle, String.leb. split.
  - destruct (String.compare a b) eqn:H; try discriminate; auto.
    right. now apply String.compare_eq_iff.
  - intros [-> | ->]; [reflexivity|].
    destruct (String.compare b b) eqn:H; auto.
    pose proof (String.compare_antisym b b) as Ha. rewrite H in Ha.
    discriminate.
Qed.

Lemma sle_refl a : sle a a.
Proof. apply sle_cases. now right. Qed.

Lemma sle_trans a b c : sle a b -> sle b c -> sle a c.
Proof.
  rewrite !sle_cases. intros [H1 | ->] [H2 | ->]; auto.
  left. eapply compare_lt_trans; eauto.
Qed.

Lemma sle_antisym a b : sle a b -> sle b a -> a = b.
Proof. apply String.leb_antisym. Qed.

Lemma sle_total a b : sle a b \/ sle b a.
Proof. apply String.leb_total. Qed.

Lemma insert_Permutation x l : Permutation (x :: l) (insert x l).
Proof.
  induction l as [|y l IH]; simpl; [reflexivity|].
  destruct (x <=? y)%string; [reflexivity|].
  rewrite perm_swap. now constructor.
Qed.

Lemma sort_Permutation l : Permutation l (sort l).
Proof.
  induction l as [|x l IH]; simpl; [constructor|].
  rewrite <- insert_Permutation. now constructor.
Qed.

Lemma insert_HdRel a x l : sle a x -> HdRel sle a l -> HdRel sle a (insert x l).
Proof.
  intros Hax Hl. destruct l as [|y l]; simpl; [now constructor|].
  destruct (x <=? y)%string; constructor; auto. now inversion Hl.
Qed.

Lemma insert_Sorted x l : Sorted sle l -> Sorted sle (insert x l).
Proof.
  induction 1 as [|y l Hs IH Hhd]; simpl; [repeat constructor|].
  destruct (x <=? y)%string eqn:Hxy.
  - constructor; [now constructor | now constructor].
  - constructor; [exact IH|].
    apply insert_HdRel; [|exact Hhd].
    destruct (sle_total x y) as [H | H]; [unfold sle in H; congruence | exact H].
Qed.

Lemma sort_Sorted l : Sorted sle (sort l).
Proof.
  induction l as [|x l IH]; simpl; [constructor | now apply insert_Sorted].
Qed.

Lemma Sorted_head_least x l y :
  Sorted sle (x :: l) -> In y (x :: l) -> sle x y.
Proof.
  intros Hs Hin. apply Sorted_StronglySorted in Hs.
  - inversion Hs as [|? ? _ Hall]; subst. destruct Hin as [-> | Hin].
    + apply sle_refl.
    + rewrite Forall_forall in Hall. auto.
  - intros a b c. apply sle_trans.
Qed.

(** An ascending arrangement of given identifiers is unique: whatever
    algorithm the engine's [sort] runs, this is its result. *)
Lemma Sorted_Permutation_unique l1 : forall l2,
  Sorted sle l1 -> Sorted sle l2 -> Permutation l1 l2 -> l1 = l2.
Proof.
  induction l1 as [|x l1 IH]; intros l2 H1 H2 HP.
  - apply Permutation_nil in HP. now subst.
  - destruct l2 as [|y l2].
    + symmetry in HP. apply Permutation_nil in HP. discriminate.
    + assert (x = y).
      { apply sle_antisym.
        - apply (Sorted_head_least x l1 y H1).
          apply Permutation_in with (l := y :: l2); [now symmetry | now left].
        - apply (Sorted_head_least y l2 x H2).
          apply Permutation_in with (l := x :: l1); [exact HP | now left]. }
      subst y. f_equal. apply IH.
      * now inversion H1.
      * now inversion H2.
      * eapply Permutation_cons_inv; eauto.
Qed.

Lemma sort_Permutation_invariant l l' : Permutation l l' -> sort l = sort l'.
Proof.
  intros HP. apply Sorted_Permutation_unique; try apply sort_Sorted.
  rewrite <- (sort_Permutation l), <- (sort_Permutation l'). exact HP.
Qed.

(** ** Balances *)

Lemma sum_filter_case (f : LedgerEntry.t -> bool) (g : LedgerEntry.t -> bool) es :
  (forall e, f e = true -> g e = true) ->
  fold_right Z.add 0
    (map (fun e => if f e then LedgerEntry.amount e else 0) (filter g es))
  = fold_right Z.add 0 (map LedgerEntry.amount (filter f es)).
Proof.
  intros Hfg. induction es as [|e es IH]; simpl; [reflexivity|].
  destruct (f e) eqn:Hf.
  - rewrite (Hfg e Hf). simpl. rewrite Hf. now rewrite IH.
  - destruct (g e); simpl; rewrite ?Hf; rewrite IH; reflexivity.
Qed.

(** The query computes the specification's "credits minus debits". *)
Lemma balanceQuery_spec walletId es :
  balanceQuery walletId es = creditsTotal walletId es - debitsTotal walletId es.
Proof.
  unfold balanceQuery, creditsTotal, debitsTotal, SUM.
  rewrite <- (sum_filter_case _ (mentions walletId) es).
  2: { intros e H. unfold mentions. now rewrite H. }
  rewrite <- (sum_filter_case
                (fun e => String.eqb (LedgerEntry.debitWalletId e) walletId)
                (mentions walletId) es).
  2: { intros e H. unfold mentions. rewrite H. now rewrite orb_true_r. }
  destruct (filter (mentions walletId) es); reflexivity.
Qed.

Lemma balanceQuery_snoc walletId es e :
  balanceQuery walletId (es ++ [e])
  = balanceQuery walletId es + creditCase walletId e - debitCase walletId e.
Proof.
  rewrite !balanceQuery_spec. unfold creditsTotal, debitsTotal, creditCase, debitCase.
  rewrite !filter_app, !map_app, !fold_right_app. simpl.
  assert (H : forall l z, fold_right Z.add z l = fold_right Z.add 0 l + z).
  { induction l as [|x l IH]; intros z; simpl; [lia|]. rewrite IH. lia. }
  rewrite (H _ (fold_right _ _ (map _ (if String.eqb (LedgerEntry.creditWalletId e) walletId then _ else _)))).
  rewrite (H _ (fold_right _ _ (map _ (if String.eqb (LedgerEntry.debitWalletId e) walletId then _ else _)))).
  destruct (String.eqb (LedgerEntry.creditWalletId e) walletId),
    (String.eqb (LedgerEntry.debitWalletId e) walletId); simpl; lia.
Qed.

(** ** Rendering *)

Lemma padLeft_fraction_length n :
  (n < 10000)%N -> String.length (padLeft 4 (showN n)) = 4%nat.
Proof.
  intros Hn.
  assert (Hall : forallb
            (fun k => Nat.eqb (String.length (padLeft 4 (showN (N.of_nat k)))) 4)
            (seq 0 (N.to_nat 10000)) = true) by (vm_compute; reflexivity).
  rewrite forallb_forall in Hall.
  specialize (Hall (N.to_nat n)). rewrite N2Nat.id in Hall.
  apply Nat.eqb_eq, Hall, in_seq. lia.
Qed.

Lemma digit_embedding d :
  (d < 10)%N -> N_of_ascii (ascii_of_N (48 + d)) = (48 + d)%N.
Proof. intros H. apply N_ascii_embedding. lia. Qed.

Lemma readDigits_digits fuel : forall n acc,
  (n < 2 ^ N.of_nat fuel)%N ->
  readDigits 0 (digits fuel n acc) = readDigits n acc.
Proof.
  induction fuel as [|fuel IH]; intros n acc Hn.
  - simpl in *. replace n with 0%N by lia. reflexivity.
  - assert (Hd : (n mod 10 < 10)%N) by (apply N.mod_lt; discriminate).
    assert (Hv : digitValue (ascii_of_N (48 + n mod 10)) = (n mod 10)%N).
    { unfold digitValue. rewrite digit_embedding by exact Hd.
      now rewrite N.add_comm, N.add_sub. }
    pose proof (N.div_mod n 10 ltac:(discriminate)) as Hdm.
    cbn [digits]. destruct (N.eqb_spec (n / 10) 0) as [Hz | Hnz].
    + cbn [readDigits]. rewrite Hv. f_equal. lia.
    + rewrite IH.
      * cbn [readDigits]. rewrite Hv. f_equal. lia.
      * apply N.Div0.div_lt_upper_bound.
        rewrite Nat2N.inj_succ, N.pow_succ_r' in Hn. lia.
Qed.

Lemma readDigits_showN n : readDigits 0 (showN n) = n.
Proof.
  unfold showN. rewrite readDigits_digits; [reflexivity|].
  rewrite Nat2N.inj_succ, N2Nat.id.
  destruct (N.eq_dec n 0) as [-> | Hn]; [reflexivity|].
  apply N.log2_spec. lia.
Qed.

Lemma onlyDigits_digits fuel : forall n acc,
  onlyDigits acc = true -> onlyDigits (digits fuel n acc) = true.
Proof.
  induction fuel as [|fuel IH]; intros n acc Hacc; [exact Hacc|].
  assert (Hd : (n mod 10 < 10)%N) by (apply N.mod_lt; discriminate).
  assert (Hacc' : onlyDigits (String (ascii_of_N (48 + n mod 10)) acc) = true).
  { cbn [onlyDigits]. rewrite digit_embedding by exact Hd. rewrite Hacc.
    set (d := (n mod 10)%N) in *.
    rewrite !andb_true_iff, !N.leb_le. repeat split; lia. }
  cbn [digits]. destruct (n / 10 =? 0)%N; auto.
Qed.

Lemma readDigits_zeros k s : readDigits 0 (zeros k ++ s) = readDigits 0 s.
Proof. induction k as [|k IH]; simpl; [reflexivity | exact IH]. Qed.

Lemma onlyDigits_zeros k s : onlyDigits s = true -> onlyDigits (zeros k ++ s) = true.
Proof. intros H. induction k as [|k IH]; simpl; [exact H | exact IH]. Qed.

(** The text of [showFixed4]: an optional minus sign, the whole part, a
    point and four digits, which read back as the count it prints. *)
Lemma showFixed4_value units :
  exists whole fraction,
    showFixed4 units
    = ((if (units <? 0)%Z then "-" else "") ++ whole ++ "." ++ fraction)%string
    /\ String.length fraction = 4%nat
    /\ onlyDigits whole = true /\ onlyDigits fraction = true
    /\ Z.abs units
       = Z.of_N (readDigits 0 whole * 10000 + readDigits 0 fraction).
Proof.
  unfold showFixed4. set (a := Z.to_N (Z.abs units)).
  exists (showN (a / 10000)), (padLeft 4 (showN (a mod 10000))).
  split; [reflexivity|].
  split; [apply padLeft_fraction_length, N.mod_lt; discriminate|].
  split; [apply onlyDigits_digits; reflexivity|].
  split; [apply onlyDigits_zeros, onlyDigits_digits; reflexivity|].
  unfold padLeft. rewrite readDigits_zeros, !readDigits_showN.
  pose proof (N.div_mod a 10000 ltac:(discriminate)).
  unfold a in *. lia.
Qed.

(** ** Rounding to the column's scale *)

Lemma Qpos_num (x : Q) : (0 < x)%Q -> 0 < Qnum x.
Proof. unfold Qlt. simpl. lia. Qed.

Lemma toFixed4_pos_eq (x : Q) :
  0 < Qnum x ->
  toFixed4 x = (2 * Qnum x * 10000 + Zpos (Qden x)) / (2 * Zpos (Qden x)).
Proof.
  intros H. unfold toFixed4. rewrite Z.sgn_pos, Z.abs_eq by lia. lia.
Qed.

(** [toFixed4] picks the nearest count, a tie going up. *)
Lemma toFixed4_nearest (x : Q) :
  0 < Qnum x ->
  2 * Qnum x * 10000 - Zpos (Qden x)
  < 2 * Zpos (Qden x) * toFixed4 x
  <= 2 * Qnum x * 10000 + Zpos (Qden x).
Proof.
  intros H. rewrite toFixed4_pos_eq by exact H.
  set (a := 2 * Qnum x * 10000 + Zpos (Qden x)).
  set (b := 2 * Zpos (Qden x)).
  pose proof (Z.mul_div_le a b ltac:(unfold b; lia)).
  pose proof (Z.mul_succ_div_gt a b ltac:(unfold b; lia)).
  replace (2 * Zpos (Qden x) * (a / b)) with (b * (a / b)) by (unfold b; lia).
  unfold a, b in *. lia.
Qed.

Lemma toFixed4_whole (z : Z) : 0 < z -> toFixed4 (z # 1) = z * 10000.
Proof.
  intros H. rewrite toFixed4_pos_eq by exact H. simpl Qnum. simpl Qden.
  symmetry. apply Z.div_unique with (r := 1); lia.
Qed.

Lemma toFixed4_nonneg (x : Q) : (0 < x)%Q -> 0 <= toFixed4 x.
Proof.
  intros H. apply Qpos_num in H. rewrite toFixed4_pos_eq by exact H.
  apply Z.div_pos; lia.
Qed.

(** A positive amount that a balance covers still fits under the balance
    once rounded: balances are whole counts of ten-thousandths. *)
Lemma toFixed4_le_balance (x : Q) (balance : Z) :
  (0 < x)%Q -> (x <= decimal balance)%Q -> toFixed4 x <= balance.
Proof.
  intros Hpos Hle. apply Qpos_num in Hpos.
  rewrite toFixed4_pos_eq by exact Hpos.
  unfold Qle, decimal in Hle. simpl in Hle.
  apply Z.lt_succ_r. apply Z.div_lt_upper_bound; lia.
Qed.

Lemma toFixed4_positive (x : Q) : (5 # 100000 <= x)%Q -> 0 < toFixed4 x.
Proof.
  intros Hle. unfold Qle in Hle. simpl in Hle.
  assert (Hpos : 0 < Qnum x) by lia.
  rewrite toFixed4_pos_eq by exact Hpos.
  apply Z.lt_le_trans with 1; [lia|].
  apply Z.div_le_lower_bound; lia.
Qed.

Lemma lessThan_false balance (x : Q) :
  lessThan balance x = false -> (x <= decimal balance)%Q.
Proof.
  unfold lessThan. intros H. apply negb_false_iff in H.
  now apply Qle_bool_iff.
Qed.

Lemma Qle_bool_pos (x : Q) : (0 < x)%Q -> Qle_bool x 0 = false.
Proof.
  intros Hpos. apply not_true_is_false. intros H.
  apply Qle_bool_iff in H. apply Qlt_not_le in Hpos. contradiction.
Qed.

(** ** What a commit leaves behind *)


Lemma committed_inv kind ids req t t' p :
  committed numberToString kind ids req t t' p ->
  exists uw tw sys,
    ledgerEntry t' = ledgerEntry t ++ [entryOf kind ids req uw tw]
    /\ transaction t' = transaction t ++ [transactionOf numberToString kind ids req]
    /\ user t' = user t
    /\ assetType t' = assetType t
    /\ (exists new, wallet t' = wallet t ++ new)
    /\ (Wallet_pkey t -> Wallet_pkey t')
    /\ find (ownedBy (Request.userId req) (Request.assetTypeId req)) (wallet t')
       = Some uw
    /\ find User.isSystem (user t) = Some sys
    /\ find (ownedBy (User.id sys) (Request.assetTypeId req)) (wallet t')
       = Some tw
    /\ p = payloadOf kind ids req (balanceQuery (Wallet.id uw) (ledgerEntry t))
    /\ existsb (hasKey (Request.idempotencyKey req)) (ledgerEntry t) = false
    /\ fitsDecimal20_4 (toFixed4 (Request.amount req)) = true
    /\ (kind = SPEND ->
        lessThan (balanceQuery (Wallet.id uw) (ledgerEntry t))
          (Request.amount req) = false).
Proof.
  intros (uw & tw & t1 & q1 & Hres & Hx & Hfit & Hpk & Hkey & Hguard & -> & ->).
  apply resolveAndLock_inv in Hres.
  destruct Hres as [(HA & HU & HX & HE & Hnew & Hnd) (Fu & (sys & Hsys & Ft) & _)].
  exists uw, tw, sys. simpl. repeat split; auto.
Qed.

Lemma hasKey_entryOf kind ids req uw tw :
  hasKey (Request.idempotencyKey req) (entryOf kind ids req uw tw) = true.
Proof. unfold hasKey. simpl. apply String.eqb_refl. Qed.

Lemma filter_existsb_false {A} (f : A -> bool) l :
  existsb f l = false -> filter f l = [].
Proof.
  induction l as [|x l IH]; simpl; [reflexivity|].
  destruct (f x); simpl; [discriminate | exact IH].
Qed.

(** After a commit the key finds the committed entry, and only it. *)
Lemma committed_key kind ids req t t' p :
  committed numberToString kind ids req t t' p ->
  exists e,
    find (hasKey (Request.idempotencyKey req)) (ledgerEntry t') = Some e
    /\ LedgerEntry.transactionId e = Payload.transactionId p
    /\ filter (hasKey (Request.idempotencyKey req)) (ledgerEntry t') = [e].
Proof.
  intros H. apply committed_inv in H.
  destruct H as (uw & tw & sys & HE & _ & _ & _ & _ & _ & _ & _ & _ & -> & Hkey & _).
  exists (entryOf kind ids req uw tw). rewrite HE. split; [|split].
  - rewrite find_app_None by (now apply find_None_existsb).
    simpl. now rewrite hasKey_entryOf.
  - reflexivity.
  - rewrite filter_app, (filter_existsb_false _ _ Hkey). simpl.
    now rewrite hasKey_entryOf.
Qed.


(** * Guarantees of the engine *)


(** ** C1 *)

(** C1.  A SPEND whose user wallet, resolved and locked, has a derived
    balance strictly below the requested amount throws the
    "Insufficient balance" error (HTTP 422) and leaves every table as it
    was: no transaction row and no ledger entry of the attempt is inserted
    and the balance is the one before. *)
Theorem spend_insufficient_funds ids (req : SpendRequest) t uw tw t1 q1 :
  (0 < Request.amount req)%Q ->
  find (hasKey (Request.idempotencyKey req)) (ledgerEntry t) = None ->
  resolveAndLock ids (Request.userId req) (Request.assetTypeId req) t
  = (Ok (uw, tw), t1, q1) ->
  (decimal (balanceQuery (Wallet.id uw) (ledgerEntry t)) < Request.amount req)%Q ->
  let balance := balanceQuery (Wallet.id uw) (ledgerEntry t) in
  let err := insufficientBalance numberToString balance (Request.amount req) in
  spendCredits numberToString ids req t
  = (Throw err, t,
     Q_ledgerEntry_findUnique (Request.idempotencyKey req)
     :: Q_begin :: (q1 ++ [Q_balance (Wallet.id uw)]) ++ [Q_rollback])
  /\ status (errorHandler err) = 422%nat
  /\ ~ In Q_transaction_create q1 /\ ~ In Q_ledgerEntry_create q1.
Proof.
  intros Hpos Hmiss Hres Hlow balance err.
  pose proof (resolveAndLock_inv _ _ _ _ _ _ _ Hres) as [S (_ & _ & Hq)].
  assert (HE : ledgerEntry t1 = ledgerEntry t) by apply S.
  split; [|split].
  - change (operation numberToString SPEND ids req t = (Throw err, t,
     Q_ledgerEntry_findUnique (Request.idempotencyKey req)
     :: Q_begin :: (q1 ++ [Q_balance (Wallet.id uw)]) ++ [Q_rollback])).
    rewrite operation_eq.
    replace (Qle_bool (Request.amount req) 0) with false.
    2: { symmetry. apply not_true_is_false. intros H.
         apply Qle_bool_iff in H. apply Qlt_not_le in Hpos. contradiction. }
    rewrite Hmiss. unfold transaction_scope. simpl. unfold spendBody.
    rewrite bind_eq_Ok with (1 := Hres).
    rewrite bind_eq_Ok with (1 := computeBalanceInTx_eq _ _).
    rewrite HE. fold balance.
    replace (lessThan balance (Request.amount req)) with true.
    2: { symmetry. unfold lessThan. apply negb_true_iff, not_true_is_false.
         intros H. apply Qle_bool_iff in H. apply Qlt_not_le in Hlow.
         contradiction. }
    unfold throw. simpl. reflexivity.
  - reflexivity.
  - subst q1. split; intros H; rewrite !in_app_iff, in_map_iff in H;
      destruct H as [H | [H | [x [H _]]]]; try discriminate;
      try (destruct (find User.isSystem (user t)));
      simpl in H; intuition discriminate.
Qed.

(** ** C6 *)

(** C6 (as amended).  Whatever the order of the identifiers supplied,
    [lockWalletsInOrder] issues one [FOR UPDATE] per supplied identifier, in
    ascending order: the sequence is the ascending arrangement of the
    supplied list with its repetitions kept, and it coincides with the
    sorted distinct identifiers exactly when no identifier is supplied
    twice. *)
Theorem lockWalletsInOrder_ascending walletIds t :
  lockWalletsInOrder walletIds t
  = (Ok tt, t, map Q_wallet_forUpdate (sort walletIds))
  /\ Sorted sle (sort walletIds)
  /\ Permutation walletIds (sort walletIds)
  /\ (forall supplied, Permutation walletIds supplied ->
      lockWalletsInOrder supplied t = lockWalletsInOrder walletIds t)
  /\ (NoDup walletIds -> sort walletIds = spec_lockOrder walletIds).
Proof.
  split; [apply lockWalletsInOrder_eq|].
  split; [apply sort_Sorted|].
  split; [apply sort_Permutation|].
  split.
  - intros supplied HP. rewrite !lockWalletsInOrder_eq.
    now rewrite (sort_Permutation_invariant _ _ HP).
  - intros Hnd. unfold spec_lockOrder. now rewrite nodup_fixed_point.
Qed.

(** ** C8 *)

(** C8.  A TOPUP, BONUS or SPEND request whose amount is not positive is
    rejected before the store is touched: the service throws without issuing
    a query, the endpoint answers 400 "Validation error" without issuing a
    query, and the tables are the ones before. *)
Theorem nonpositive_amount_rejected kind ids (req : Request.t) t :
  (Request.amount req <= 0)%Q ->
  operation numberToString kind ids req t
  = (Throw (Error "Amount must be positive"), t, [])
  /\ forall isUuid,
      exists details,
        endpoint numberToString isUuid kind ids req t
        = (mkResponse 400 false (Failure "Validation error" details), t, [])
        /\ In (mkIssue "amount" "Number must be greater than 0") details.
Proof.
  intros Hamt. apply Qle_bool_iff in Hamt. split.
  - rewrite operation_eq. now rewrite Hamt.
  - intros isUuid.
    assert (H : exists details,
               TopupSchema_parse isUuid req = Throw (ZodError details)
               /\ In (mkIssue "amount" "Number must be greater than 0") details).
    { unfold TopupSchema_parse. rewrite Hamt.
      set (a := check (isUuid (Request.userId req)) _ _).
      set (b := check (isUuid (Request.assetTypeId req)) _ _).
      set (c := check (Nat.leb 1 _) _ _ ++ _).
      change (check (negb true) "amount" "Number must be greater than 0" ++ c)
        with (mkIssue "amount" "Number must be greater than 0" :: c).
      exists (a ++ b ++ mkIssue "amount" "Number must be greater than 0" :: c).
      split.
      - destruct (a ++ b ++ _ :: c) eqn:Hl; [|reflexivity].
        apply app_eq_nil in Hl. destruct Hl as [_ Hl].
        apply app_eq_nil in Hl. destruct Hl as [_ Hl]. discriminate.
      - rewrite !in_app_iff. right. right. now left. }
    destruct H as (details & Hparse & Hin). exists details. split; [|exact Hin].
    destruct kind; simpl; unfold topup, bonus, spend, handle,
      BonusSchema_parse, SpendSchema_parse; rewrite Hparse; reflexivity.
Qed.

(** ** C9 *)

(** C9.  [getBalance] never writes.  For a known asset type it answers with
    the asset's name and symbol and, when the user has no wallet of that
    asset, the balance "0.0000", creating none; when the wallet exists, the
    balance is the total credited to the wallet minus the total debited from
    it, printed as a decimal with four fractional digits. *)
Theorem getBalance_derived userId assetTypeId t a :
  find (fun x => String.eqb (AssetType.id x) assetTypeId) (assetType t) = Some a ->
  let es := ledgerEntry t in
  (forall r t' q, getBalance userId assetTypeId t = (r, t', q) -> t' = t)
  /\ match find (ownedBy userId assetTypeId) (wallet t) with
     | None =>
         getBalance userId assetTypeId t
         = (Ok (BalanceResponse.mk userId assetTypeId (AssetType.name a)
                  (AssetType.symbol a) "0.0000"),
            t,
            [Q_wallet_findUnique userId assetTypeId;
             Q_assetType_findUniqueOrThrow assetTypeId])
     | Some w =>
         let balance :=
           creditsTotal (Wallet.id w) es - debitsTotal (Wallet.id w) es in
         getBalance userId assetTypeId t
         = (Ok (BalanceResponse.mk userId assetTypeId (AssetType.name a)
                  (AssetType.symbol a) (showFixed4 balance)),
            t,
            [Q_wallet_findUnique userId assetTypeId; Q_balance (Wallet.id w)])
         /\ exists whole fraction,
             showFixed4 balance
             = ((if (balance <? 0)%Z then "-" else "") ++ whole ++ "."
                ++ fraction)%string
             /\ String.length fraction = 4%nat
             /\ onlyDigits whole = true /\ onlyDigits fraction = true
             /\ Z.abs balance
                = Z.of_N (readDigits 0 whole * 10000 + readDigits 0 fraction)
     end.
Proof.
  intros Ha es.
  assert (Heq : getBalance userId assetTypeId t =
    match find (ownedBy userId assetTypeId) (wallet t) with
    | None =>
        (Ok (BalanceResponse.mk userId assetTypeId (AssetType.name a)
               (AssetType.symbol a) "0.0000"), t,
         [Q_wallet_findUnique userId assetTypeId;
          Q_assetType_findUniqueOrThrow assetTypeId])
    | Some w =>
        (Ok (BalanceResponse.mk userId assetTypeId (AssetType.name a)
               (AssetType.symbol a)
               (showFixed4 (balanceQuery (Wallet.id w) es))), t,
         [Q_wallet_findUnique userId assetTypeId; Q_balance (Wallet.id w)])
    end).
  { unfold getBalance, wallet_findUnique, assetType_findUniqueOrThrow,
      computeBalance, bind, issue, readTables, ret, throw.
    destruct (find (ownedBy userId assetTypeId) (wallet t)) as [w|] eqn:Hw; simpl.
    - apply find_some in Hw. destruct Hw as [_ Hw].
      apply ownedBy_true in Hw. destruct Hw as [_ ->].
      rewrite Ha. reflexivity.
    - rewrite Ha. reflexivity. }
  split.
  - intros r t' q H. rewrite Heq in H.
    destruct (find _ (wallet t)); inversion H; reflexivity.
  - destruct (find _ (wallet t)) as [w|]; [|exact Heq].
    intros balance. split.
    + rewrite Heq. unfold balance. now rewrite balanceQuery_spec.
    + apply showFixed4_value.
Qed.

(** ** C10 *)

(** C10.  The fast path looks at the idempotency key alone: when a
    committed entry carries the key of a request that reaches the lookup
    (its amount is positive, so the guard lets it pass), the operation, of
    any kind and for any user, asset type and amount, answers with that
    entry's transaction identifier marked as a replay, after the single
    lookup and without writing. *)
Theorem replay_matches_key_alone kind ids (req : Request.t) t e :
  (0 < Request.amount req)%Q ->
  find (hasKey (Request.idempotencyKey req)) (ledgerEntry t) = Some e ->
  operation numberToString kind ids req t
  = (Ok (Payload.mk (Some "Duplicate request - returning original result")
           true (LedgerEntry.transactionId e) None None),
     t, [Q_ledgerEntry_findUnique (Request.idempotencyKey req)]).
Proof.
  intros Hpos Hfind. rewrite operation_eq.
  replace (Qle_bool (Request.amount req) 0) with false.
  - now rewrite Hfind.
  - symmetry. apply not_true_is_false. intros H.
    apply Qle_bool_iff in H. apply Qlt_not_le in Hpos. contradiction.
Qed.



(** ** C5 *)


(** ** C7 *)

(** C7 (as amended).  On a store that respects the primary key of [Wallet],
    the entry written for a request whose user is not the system user has a
    debit wallet different from its credit wallet; the entry's amount is the
    requested amount rounded to four decimals, and it is positive whenever
    the requested amount is at least 0.00005. *)
Theorem entry_wallets_differ kind ids (req : Request.t) t p t' q :
  Wallet_pkey t ->
  operation numberToString kind ids req t = (Ok p, t', q) ->
  Payload.idempotent p = false ->
  exists e,
    ledgerEntry t' = ledgerEntry t ++ [e]
    /\ LedgerEntry.amount e = toFixed4 (Request.amount req)
    /\ ((5 # 100000 <= Request.amount req)%Q -> 0 < LedgerEntry.amount e)
    /\ ((forall sys, find User.isSystem (user t) = Some sys ->
                     User.id sys <> Request.userId req) ->
        LedgerEntry.debitWalletId e <> LedgerEntry.creditWalletId e).
Proof.
  intros Hpkey Hop Hfresh. apply operation_outcome in Hop.
  inversion Hop as [| e0 ? ? | p0 t0 Hpos Hmiss Hc | ]; subst.
  - discriminate.
  - apply committed_inv in Hc.
    destruct Hc as (uw & tw & sys & HE & _ & _ & _ & _ & Hpk' & Fu & Hsys & Ft & _).
    exists (entryOf kind ids req uw tw).
    split; [exact HE|]. split; [reflexivity|]. split.
    + intros Hmin. simpl. now apply toFixed4_positive.
    + intros Hother. specialize (Hother sys Hsys).
      apply find_some in Fu. destruct Fu as [Inu Ou].
      apply find_some in Ft. destruct Ft as [Int Ot].
      apply ownedBy_true in Ou. destruct Ou as [Ou _].
      apply ownedBy_true in Ot. destruct Ot as [Ot _].
      assert (Hne : Wallet.id tw <> Wallet.id uw).
      { intros Heq.
        pose proof (NoDup_map_inj Wallet.id _ tw uw (Hpk' Hpkey) Int Inu Heq).
        subst tw. congruence. }
      destruct kind; simpl; congruence.
Qed.

(** ** C3 *)

(** C3 (as amended).  Once a request has been applied, sending it again any
    number of times, whatever identifiers are drawn, changes no table, and
    each repeat answers with the original transaction identifier, the replay
    flag set and the fixed message, carrying neither the amount nor, for
    SPEND, the remaining balance; the one entry the first submission
    appended is the only one that bears the key. *)
Theorem resubmission_replays kind ids (req : Request.t) t p t1 q draws :
  operation numberToString kind ids req t = (Ok p, t1, q) ->
  Payload.idempotent p = false ->
  resubmit numberToString kind draws req t1
  = (map (fun _ =>
            Ok (Payload.mk (Some "Duplicate request - returning original result")
                  true (Payload.transactionId p) None None))
       draws,
     t1)
  /\ (exists e, ledgerEntry t1 = ledgerEntry t ++ [e])
  /\ List.length (filter (hasKey (Request.idempotencyKey req)) (ledgerEntry t1))
     = 1%nat
  /\ Payload.amount p = Some (Request.amount req).
Proof.
  intros Hop Hfresh. apply operation_outcome in Hop.
  inversion Hop as [| e0 ? ? | p0 t0 Hpos Hmiss Hc | ]; subst.
  - discriminate.
  - pose proof (committed_key _ _ _ _ _ _ Hc) as (e & Hfind & Hid & Hone).
    apply committed_inv in Hc.
    destruct Hc as (uw & tw & sys & HE & _ & _ & _ & _ & _ & _ & _ & _ & -> & _).
    split; [|split; [|split]].
    + induction draws as [|d draws IH]; simpl; [reflexivity|].
      rewrite operation_eq, (Qle_bool_pos _ Hpos), Hfind, IH.
      unfold duplicate. now rewrite Hid.
    + eauto.
    + now rewrite Hone.
    + reflexivity.
Qed.


(** ** Racing on one key *)

Lemma resolveAndLock_existing ids u a t uw tw sys :
  find (ownedBy u a) (wallet t) = Some uw ->
  find User.isSystem (user t) = Some sys ->
  find (ownedBy (User.id sys) a) (wallet t) = Some tw ->
  exists q, resolveAndLock ids u a t = (Ok (uw, tw), t, q).
Proof.
  intros Hu Hsys Ht. unfold resolveAndLock, getOrCreateWallet, getTreasuryWallet.
  assert (H1 : wallet_upsert (userWalletUuid ids) u a t
               = (Ok uw, t, [Q_wallet_upsert u a]))
    by (rewrite wallet_upsert_eq, Hu; reflexivity).
  assert (H2 : user_findFirstOrThrow_isSystem t
               = (Ok sys, t, [Q_user_findFirstOrThrow]))
    by (rewrite user_findFirstOrThrow_eq, Hsys; reflexivity).
  assert (H3 : wallet_upsert (treasuryWalletUuid ids) (User.id sys) a t
               = (Ok tw, t, [Q_wallet_upsert (User.id sys) a]))
    by (rewrite wallet_upsert_eq, Ht; reflexivity).
  eexists.
  rewrite bind_eq_Ok with (1 := H1).
  rewrite (bind_eq_Ok (bind _ _)) with (a := tw) (t1 := t)
    (q1 := [Q_user_findFirstOrThrow; Q_wallet_upsert (User.id sys) a]).
  2: { rewrite bind_eq_Ok with (1 := H2). cbv beta.
       unfold getOrCreateWallet. rewrite H3. reflexivity. }
  rewrite bind_eq_Ok with (1 := lockWalletsInOrder_eq _ _).
  unfold ret. reflexivity.
Qed.

Lemma errorHandler_failure e : success (errorHandler e) = false.
Proof.
  destruct e as [m | c m | errs]; simpl; unfold businessError;
    repeat match goal with |- context [if ?b then _ else _] => destruct b end;
    reflexivity.
Qed.


Lemma insert_conflict e x t p :
  fitsDecimal20_4 (LedgerEntry.amount e) = true ->
  keyTaken e t = true ->
  exists q,
    (ledgerEntry_create e ;;; transaction_update (Transaction.id x) COMPLETED ;;;
     ret p) (withTransaction t (transaction t ++ [x]))
    = (@Throw Payload.t P2002, withTransaction t (transaction t ++ [x]), q).
Proof.
  intros Hfit Hkey. eexists. unfold bind at 1.
  rewrite ledgerEntry_create_eq, Hfit. simpl negb. cbv iota.
  replace (keyTaken e (withTransaction t (transaction t ++ [x]))) with true
    by (symmetry; exact Hkey).
  rewrite orb_true_r. reflexivity.
Qed.

Lemma create_then_conflict uuid type status description
    (entry : Transaction.t -> LedgerEntry.t) (payload : Transaction.t -> Payload.t)
    key t :
  (forall x, LedgerEntry.idempotencyKey (entry x) = Some key) ->
  (forall x, fitsDecimal20_4 (LedgerEntry.amount (entry x)) = true) ->
  existsb (hasKey key) (ledgerEntry t) = true ->
  exists t2 q,
    (x <- transaction_create uuid type status description ;;
     ledgerEntry_create (entry x) ;;;
     transaction_update (Transaction.id x) COMPLETED ;;;
     ret (payload x)) t
    = (Throw P2002, t2, q).
Proof.
  intros Hk Hfit Htaken. unfold bind at 1. rewrite transaction_create_eq.
  destruct (transactionExists uuid t); [eauto|].
  set (x := Transaction.mk uuid type status (Some description)).
  destruct (insert_conflict (entry x) x t (payload x)) as [q Hq].
  - apply Hfit.
  - unfold keyTaken. now rewrite Hk.
  - rewrite Hq. eauto.
Qed.

Lemma loser_throws kind ids1 ids2 (req : Request.t) t p t1 :
  committed numberToString kind ids1 req t t1 p ->
  exists e t2 q,
    transactionBody numberToString kind ids2 req t1 = (Throw e, t2, q)
    /\ (e = P2002
        \/ (kind = SPEND
            /\ exists balance,
                e = insufficientBalance numberToString balance
                      (Request.amount req))).
Proof.
  intros Hc.
  pose proof (committed_key _ _ _ _ _ _ Hc) as (e1 & Hfind & _).
  assert (Htaken : existsb (hasKey (Request.idempotencyKey req)) (ledgerEntry t1)
                   = true).
  { destruct (existsb _ (ledgerEntry t1)) eqn:H; [reflexivity|].
    apply find_None_existsb in H. congruence. }
  apply committed_inv in Hc.
  destruct Hc as (uw & tw & sys & _ & _ & HU & _ & _ & _ & Fu & Hsys & Ft & _ & _
                  & Hfit & _).
  rewrite <- HU in Hsys.
  destruct (resolveAndLock_existing ids2 _ _ _ _ _ _ Fu Hsys Ft) as [q0 Hres].
  destruct kind; simpl.
  - unfold topupBody. rewrite bind_eq_Ok with (1 := Hres). cbv beta iota.
    edestruct create_then_conflict as (t2 & q & H);
      [ | | exact Htaken
      | cbv beta in H; rewrite H; do 3 eexists; split; [reflexivity | now left] ];
      intros; reflexivity || exact Hfit.
  - unfold bonusBody. rewrite bind_eq_Ok with (1 := Hres). cbv beta iota.
    edestruct create_then_conflict as (t2 & q & H);
      [ | | exact Htaken
      | cbv beta in H; rewrite H; do 3 eexists; split; [reflexivity | now left] ];
      intros; reflexivity || exact Hfit.
  - unfold spendBody. rewrite bind_eq_Ok with (1 := Hres). cbv beta iota.
    rewrite bind_eq_Ok with (1 := computeBalanceInTx_eq _ _). cbv beta.
    destruct (lessThan _ _).
    + unfold throw. do 3 eexists. split; [reflexivity|]. right. eauto.
    + edestruct create_then_conflict as (t2 & q & H);
        [ | | exact Htaken
      | cbv beta in H; rewrite H; do 3 eexists; split; [reflexivity | now left] ];
      intros; reflexivity || exact Hfit.
Qed.


(** ** C4 *)

(** C4 (as amended).  When two submissions of a request race past the
    fast-path lookup and one commits, the key is borne by exactly one entry;
    the other's unit is rolled back and its failure reaches the caller as an
    error response, never as a replay: the uniqueness conflict [P2002] is
    answered 409 "Duplicate request detected" (a SPEND may fail earlier, on
    the balance the winner left).  No request carrying the key can commit
    any more, and a resubmission afterwards is answered with the replay of
    the winner's transaction. *)
Theorem race_loser_gets_conflict kind ids1 ids2 (req : Request.t) t p t1 q1 :
  afterFastPath numberToString kind ids1 req t = (Ok p, t1, q1) ->
  find (hasKey (Request.idempotencyKey req)) (ledgerEntry t) = None
  /\ List.length (filter (hasKey (Request.idempotencyKey req)) (ledgerEntry t1))
     = 1%nat
  /\ (exists e q2,
        afterFastPath numberToString kind ids2 req t1 = (Throw e, t1, q2)
        /\ success (respond (Throw e)) = false
        /\ ((e = P2002
             /\ respond (Throw e)
                = mkResponse 409 false (Failure "Duplicate request detected" []))
            \/ (kind = SPEND
                /\ status (respond (Throw e)) = 422%nat
                /\ exists balance,
                    e = insufficientBalance numberToString balance
                          (Request.amount req))))
  /\ (forall kind' ids' (req' : Request.t) r t' q',
        Request.idempotencyKey req' = Request.idempotencyKey req ->
        afterFastPath numberToString kind' ids' req' t1 = (r, t', q') ->
        t' = t1 /\ exists e, r = Throw e)
  /\ (forall ids3,
        (0 < Request.amount req)%Q ->
        operation numberToString kind ids3 req t1
        = (Ok (Payload.mk (Some "Duplicate request - returning original result")
                 true (Payload.transactionId p) None None),
           t1, [Q_ledgerEntry_findUnique (Request.idempotencyKey req)])).
Proof.
  intros Hwin. unfold afterFastPath in Hwin.
  apply transaction_scope_tables in Hwin. destruct Hwin as [q' Hbody].
  apply transactionBody_Ok in Hbody.
  pose proof (committed_key _ _ _ _ _ _ Hbody)
    as (e1 & Hfind & Hid & Hone).
  split.
  { apply committed_inv in Hbody.
    destruct Hbody as (uw & tw & sys & _ & _ & _ & _ & _ & _ & _ & _ & _ & _ & Hkey & _).
    now apply find_None_existsb. }
  split; [now rewrite Hone|].
  split.
  { destruct (loser_throws kind ids1 ids2 req t p t1 Hbody)
      as (e & t2 & q & Hlose & He).
    exists e. eexists. split.
    - unfold afterFastPath, transaction_scope. rewrite Hlose. reflexivity.
    - split; [apply errorHandler_failure|].
      destruct He as [-> | (-> & balance & ->)].
      + left. split; reflexivity.
      + right. split; [reflexivity|]. split; [reflexivity | eauto]. }
  split.
  { intros kind' ids' req' r t' q2 Hkey Hrun. unfold afterFastPath in Hrun.
    apply transaction_scope_tables in Hrun. destruct r as [p'|e].
    - destruct Hrun as [q3 Hrun]. apply transactionBody_Ok in Hrun.
      apply committed_inv in Hrun.
      destruct Hrun as (uw & tw & sys & _ & _ & _ & _ & _ & _ & _ & _ & _ & _ & Hfree & _).
      rewrite Hkey in Hfree. apply find_None_existsb in Hfree. congruence.
    - eauto. }
  intros ids3 Hpos.
  rewrite operation_eq, (Qle_bool_pos _ Hpos), Hfind.
  unfold duplicate. now rewrite Hid.
Qed.


(** ** Non-negative balances *)


Lemma creditCase_entryOf_nonneg kind ids (req : Request.t) uw tw walletId :
  (0 < Request.amount req)%Q ->
  0 <= creditCase walletId (entryOf kind ids req uw tw).
Proof.
  intros Hpos. unfold creditCase. simpl.
  destruct (String.eqb _ walletId); [now apply toFixed4_nonneg | lia].
Qed.

Lemma debitCase_le_amount walletId e :
  0 <= LedgerEntry.amount e -> debitCase walletId e <= LedgerEntry.amount e.
Proof.
  intros H. unfold debitCase. destruct (String.eqb _ walletId); lia.
Qed.

(** One submission keeps a user wallet that was not overdrawn that way. *)
Lemma submit_keeps_nonnegative s t w :
  Wallet_pkey t ->
  In w (wallet t) ->
  (forall sys, find User.isSystem (user t) = Some sys ->
               Wallet.userId w <> User.id sys) ->
  0 <= balanceQuery (Wallet.id w) (ledgerEntry t) ->
  Wallet_pkey (submit numberToString s t)
  /\ In w (wallet (submit numberToString s t))
  /\ user (submit numberToString s t) = user t
  /\ 0 <= balanceQuery (Wallet.id w) (ledgerEntry (submit numberToString s t)).
Proof.
  intros Hpkey Hin Huser Hbal. unfold submit.
  destruct (operation numberToString (kind s) (draws s) (request s) t)
    as [[r t'] q] eqn:Hop.
  apply operation_outcome in Hop.
  inversion Hop as [| e0 ? ? | p0 t0 Hpos Hmiss Hc | ]; subst; auto.
  apply committed_inv in Hc.
  destruct Hc as (uw & tw & sys & HE & _ & HU & _ & [new HW] & Hpk' & Fu & Hsys
                  & Ft & _ & _ & _ & Hguard).
  split; [auto|]. split; [rewrite HW; apply in_or_app; now left|].
  split; [exact HU|].
  rewrite HE, balanceQuery_snoc.
  pose proof (creditCase_entryOf_nonneg (kind s) (draws s) (request s) uw tw
                (Wallet.id w) Hpos) as Hcredit.
  assert (Hin' : In w (wallet t')) by (rewrite HW; apply in_or_app; now left).
  assert (Htw : Wallet.id tw <> Wallet.id w).
  { intros Heq. apply find_some in Ft. destruct Ft as [Int Ot].
    apply ownedBy_true in Ot. destruct Ot as [Ot _].
    pose proof (NoDup_map_inj Wallet.id _ tw w (Hpk' Hpkey) Int Hin' Heq).
    subst tw. apply (Huser sys Hsys). exact Ot. }
  destruct (kind s) eqn:Hkind.
  - unfold debitCase at 1. simpl.
    apply String.eqb_neq in Htw. rewrite Htw. lia.
  - unfold debitCase at 1. simpl.
    apply String.eqb_neq in Htw. rewrite Htw. lia.
  - unfold debitCase at 1. simpl.
    destruct (String.eqb (Wallet.id uw) (Wallet.id w)) eqn:Hu; [|lia].
    apply String.eqb_eq in Hu. rewrite Hu in Hguard.
    specialize (Hguard eq_refl). apply lessThan_false in Hguard.
    pose proof (toFixed4_le_balance _ _ Hpos Hguard). lia.
Qed.

(** ** C2 *)

(** C2.  An accepted SPEND leaves the wallet it debited with a derived
    balance of at least zero; and through any sequence of TOPUP, BONUS and
    SPEND submissions, accepted or not, a wallet of a user other than the
    system user that starts from a balance of at least zero keeps a balance
    of at least zero. *)
Theorem spend_keeps_balance_nonnegative :
  (forall ids (req : SpendRequest) t p t' q,
      spendCredits numberToString ids req t = (Ok p, t', q) ->
      Payload.idempotent p = false ->
      exists e userWallet,
        ledgerEntry t' = ledgerEntry t ++ [e]
        /\ find (ownedBy (Request.userId req) (Request.assetTypeId req))
             (wallet t') = Some userWallet
        /\ LedgerEntry.debitWalletId e = Wallet.id userWallet
        /\ 0 <= balanceQuery (Wallet.id userWallet) (ledgerEntry t'))
  /\ (forall submissions t w,
        Wallet_pkey t ->
        In w (wallet t) ->
        (forall sys, find User.isSystem (user t) = Some sys ->
                     Wallet.userId w <> User.id sys) ->
        0 <= balanceQuery (Wallet.id w) (ledgerEntry t) ->
        0 <= balanceQuery (Wallet.id w)
               (ledgerEntry (submitAll numberToString submissions t))).
Proof.
  split.
  - intros ids req t p t' q Hop Hfresh.
    change (operation numberToString SPEND ids req t = (Ok p, t', q)) in Hop.
    apply operation_outcome in Hop.
    inversion Hop as [| e0 ? ? | p0 t0 Hpos Hmiss Hc | ]; subst; [discriminate|].
    apply committed_inv in Hc.
    destruct Hc as (uw & tw & sys & HE & _ & _ & _ & _ & _ & Fu & _ & _ & _ & _ & _
                    & Hguard).
    exists (entryOf SPEND ids req uw tw), uw.
    split; [exact HE|]. split; [exact Fu|]. split; [reflexivity|].
    rewrite HE, balanceQuery_snoc.
    pose proof (creditCase_entryOf_nonneg SPEND ids req uw tw (Wallet.id uw) Hpos).
    specialize (Hguard eq_refl). apply lessThan_false in Hguard.
    pose proof (toFixed4_le_balance _ _ Hpos Hguard).
    pose proof (debitCase_le_amount (Wallet.id uw) (entryOf SPEND ids req uw tw)
                  (toFixed4_nonneg _ Hpos)).
    simpl in *. lia.
  - intros submissions. induction submissions as [|s l IH];
      intros t w Hpkey Hin Huser Hbal; simpl; [exact Hbal|].
    destruct (submit_keeps_nonnegative s t w Hpkey Hin Huser Hbal)
      as (Hpkey' & Hin' & HU & Hbal').
    apply IH; auto. now rewrite HU.
Qed.

End Engine.

(** * The guarantees on the seeded database *)

(** C1 on the seed: Alice holds 50 and asks to spend 9999. *)
Lemma spend_insufficient_funds_witness :
  exists q,
    spendCredits printUnits (uuids "1") aliceSpends9999 seedTables
    = (Throw (Error "Insufficient balance. Available: 50.0000, Required: 9999.0000"),
       seedTables, q).
Proof.
  eexists.
  refine (proj1 (spend_insufficient_funds printUnits (uuids "1") aliceSpends9999
                   seedTables aliceWallet treasuryWallet seedTables
                   (snd (resolveAndLock (uuids "1") alice_id gc_id seedTables))
                   _ _ _ _)).
  - reflexivity.
  - reflexivity.
  - reflexivity.
  - reflexivity.
Defined.

(** C2 on the seed: Alice's wallet through a spend, a top-up of Bob and a
    spend beyond her means. *)
Lemma spend_keeps_balance_nonnegative_witness :
  0 <= balanceQuery alice_gc_id
         (ledgerEntry
            (submitAll printUnits
               [mkSubmission SPEND (uuids "1") aliceSpends10;
                mkSubmission TOPUP (uuids "2") bobTopup500;
                mkSubmission SPEND (uuids "3") aliceSpends9999]
               seedTables)).
Proof.
  apply (proj2 (spend_keeps_balance_nonnegative printUnits) _ seedTables aliceWallet).
  - unfold Wallet_pkey. simpl. repeat constructor; simpl; intuition discriminate.
  - simpl. auto.
  - intros sys H. inversion H. discriminate.
  - vm_compute. discriminate.
Defined.

(** C3, the claim as written, fails: the repeat of Alice's spend carries
    neither the amount nor the remaining balance of the original answer. *)
Lemma replay_payload_omits_amount_and_balance :
  fst (fst (spendCredits printUnits (uuids "1") aliceSpends10 seedTables))
  = Ok (Payload.mk None false "dddddddd-0002-0000-0000-000000000001"
          (Some (10 # 1)) (Some "40.0000"))
  /\ fst (fst (spendCredits printUnits (uuids "2") aliceSpends10 afterAliceSpends10))
     = Ok (Payload.mk (Some "Duplicate request - returning original result") true
             "dddddddd-0002-0000-0000-000000000001" None None).
Proof. split; vm_compute; reflexivity. Qed.

Lemma resubmission_replays_witness :
  resubmit printUnits SPEND [uuids "2"; uuids "3"] aliceSpends10 afterAliceSpends10
  = ([Ok (Payload.mk (Some "Duplicate request - returning original result") true
            "dddddddd-0002-0000-0000-000000000001" None None);
      Ok (Payload.mk (Some "Duplicate request - returning original result") true
            "dddddddd-0002-0000-0000-000000000001" None None)],
     afterAliceSpends10).
Proof.
  refine (proj1 (resubmission_replays printUnits SPEND (uuids "1") aliceSpends10
                   seedTables
                   (Payload.mk None false "dddddddd-0002-0000-0000-000000000001"
                      (Some (10 # 1)) (Some "40.0000"))
                   afterAliceSpends10 _ [uuids "2"; uuids "3"] _ _)).
  - reflexivity.
  - reflexivity.
Defined.

(** C4, the claim as written, fails: Bob's top-up sent twice, both past the
    lookup; the second insert hits the unique index and the caller is
    answered 409, not a replay. *)
Lemma race_loser_is_answered_409 :
  find (hasKey (Request.idempotencyKey bobTopup500)) (ledgerEntry seedTables) = None
  /\ fst (fst (afterFastPath printUnits TOPUP (uuids "1") bobTopup500 seedTables))
     = Ok (Payload.mk None false "dddddddd-0002-0000-0000-000000000001"
             (Some (500 # 1)) None)
  /\ fst (afterFastPath printUnits TOPUP (uuids "2") bobTopup500 afterBobTopup500)
     = (Throw P2002, afterBobTopup500)
  /\ respond (Throw P2002)
     = mkResponse 409 false (Failure "Duplicate request detected" []).
Proof. repeat split; vm_compute; reflexivity. Qed.

Lemma race_loser_gets_conflict_witness :
  exists q2,
    afterFastPath printUnits TOPUP (uuids "2") bobTopup500 afterBobTopup500
    = (Throw P2002, afterBobTopup500, q2).
Proof.
  destruct (race_loser_gets_conflict printUnits TOPUP (uuids "1") (uuids "2")
              bobTopup500 seedTables _ afterBobTopup500 _ eq_refl)
    as (_ & _ & (e & q2 & Hlose & _ & [[-> _] | [Hkind _]]) & _).
  - exists q2. exact Hlose.
  - discriminate.
Defined.


(** C6, the claim as written, fails: the treasury user's own operation
    supplies its wallet twice, and the wallet is locked twice. *)
Lemma duplicate_identifier_locked_twice :
  snd (lockWalletsInOrder [treasury_gc_id; treasury_gc_id] seedTables)
  = [Q_wallet_forUpdate treasury_gc_id; Q_wallet_forUpdate treasury_gc_id]
  /\ map Q_wallet_forUpdate (spec_lockOrder [treasury_gc_id; treasury_gc_id])
     = [Q_wallet_forUpdate treasury_gc_id].
Proof. split; vm_compute; reflexivity. Qed.

Lemma lockWalletsInOrder_ascending_witness :
  snd (lockWalletsInOrder [alice_gc_id; treasury_gc_id] seedTables)
  = [Q_wallet_forUpdate treasury_gc_id; Q_wallet_forUpdate alice_gc_id]
  /\ sort [alice_gc_id; treasury_gc_id] = spec_lockOrder [alice_gc_id; treasury_gc_id].
Proof.
  destruct (lockWalletsInOrder_ascending [alice_gc_id; treasury_gc_id] seedTables)
    as (Heq & _ & _ & _ & Hdistinct).
  split.
  - rewrite Heq. reflexivity.
  - apply Hdistinct. repeat constructor; simpl; intuition discriminate.
Defined.

(** C7, the claim as written, fails: a top-up requested under the treasury
    user's own identifier writes an entry from the treasury wallet to
    itself. *)
Lemma treasury_topup_debits_and_credits_one_wallet :
  fst (fst (topupWallet printUnits (uuids "1") treasuryTopup500 seedTables))
  = Ok (Payload.mk None false "dddddddd-0002-0000-0000-000000000001"
          (Some (500 # 1)) None)
  /\ map (fun e => (LedgerEntry.debitWalletId e, LedgerEntry.creditWalletId e))
       (ledgerEntry afterTreasuryTopup500)
     = [(treasury_gc_id, alice_gc_id); (treasury_gc_id, treasury_gc_id)].
Proof. split; vm_compute; reflexivity. Qed.

Lemma entry_wallets_differ_witness :
  exists e,
    ledgerEntry afterBobTopup500 = ledgerEntry seedTables ++ [e]
    /\ 0 < LedgerEntry.amount e
    /\ LedgerEntry.debitWalletId e <> LedgerEntry.creditWalletId e.
Proof.
  destruct (entry_wallets_differ printUnits TOPUP (uuids "1") bobTopup500 seedTables
              (Payload.mk None false "dddddddd-0002-0000-0000-000000000001"
                 (Some (500 # 1)) None)
              afterBobTopup500
              (snd (topupWallet printUnits (uuids "1") bobTopup500 seedTables)))
    as (e & HE & _ & Hpos & Hne).
  - unfold Wallet_pkey. simpl. repeat constructor; simpl; intuition discriminate.
  - reflexivity.
  - reflexivity.
  - exists e. split; [exact HE|]. split.
    + apply Hpos. vm_compute. discriminate.
    + apply Hne. intros sys H. inversion H. discriminate.
Defined.

(** C8 on the seed: an amount of zero. *)
Lemma nonpositive_amount_rejected_witness :
  topupWallet printUnits (uuids "1") zeroForSeedKey seedTables
  = (Throw (Error "Amount must be positive"), seedTables, []).
Proof.
  refine (proj1 (nonpositive_amount_rejected printUnits TOPUP (uuids "1")
                   zeroForSeedKey seedTables _)).
  vm_compute. discriminate.
Defined.

(** C9 on the seed: Bob has no Gold Coins wallet. *)
Lemma getBalance_derived_witness :
  getBalance bob_id gc_id seedTables
  = (Ok (BalanceResponse.mk bob_id gc_id "Gold Coins" "GC" "0.0000"),
     seedTables,
     [Q_wallet_findUnique bob_id gc_id; Q_assetType_findUniqueOrThrow gc_id]).
Proof.
  refine (proj2 (getBalance_derived bob_id gc_id seedTables
                   (AssetType.mk gc_id "Gold Coins" "GC"
                      (Some "Premium in-game currency")) _)).
  reflexivity.
Defined.

(** C10 on the seed: a bonus for Bob under the key of Alice's seed
    entry. *)
Lemma replay_matches_key_alone_witness :
  issueBonus printUnits (uuids "9")
    (Request.mk bob_id gc_id (7 # 1) "seed-alice-gc" None) seedTables
  = (Ok (Payload.mk (Some "Duplicate request - returning original result") true
           seed_tx_id None None),
     seedTables, [Q_ledgerEntry_findUnique "seed-alice-gc"]).
Proof.
  refine (replay_matches_key_alone printUnits BONUS (uuids "9")
            (Request.mk bob_id gc_id (7 # 1) "seed-alice-gc" None) seedTables
            seedEntry _ _).
  - reflexivity.
  - reflexivity.
Defined.

(** ** Two further runs *)

(** A racing SPEND can lose on the balance instead of on the key: Alice
    holds 50, the winner spends 30, and the loser finds 20. *)
Example racing_spend_loser_meets_the_guard :
  fst (afterFastPath printUnits SPEND (uuids "2") aliceSpends30 afterAliceSpends30)
  = (Throw (Error "Insufficient balance. Available: 20.0000, Required: 30.0000"),
     afterAliceSpends30)
  /\ status
       (respond
          (Throw (Error "Insufficient balance. Available: 20.0000, Required: 30.0000")))
     = 422%nat.
Proof. split; vm_compute; reflexivity. Qed.

(** The amount is tested before it is rounded: a top-up of 0.00001 passes
    the test and is stored as 0.0000. *)
Example amount_below_the_scale_is_stored_as_zero :
  fst (fst (topupWallet printUnits (uuids "1") bobTopupTiny seedTables))
  = Ok (Payload.mk None false "dddddddd-0002-0000-0000-000000000001"
          (Some (1 # 100000)) None)
  /\ map LedgerEntry.amount (ledgerEntry afterBobTopupTiny) = [500000; 0].
Proof. split; vm_compute; reflexivity. Qed.

(** * Further properties of the engine *)

(** ** What an operation can throw *)

Lemma wallet_upsert_Throw uuid u a t e t' q :
  wallet_upsert uuid u a t = (Throw e, t', q) -> e = P2002 \/ e = P2003.
Proof.
  rewrite wallet_upsert_eq.
  destruct (find _ (wallet t)); [discriminate|].
  destruct (walletExists uuid t); [intros H; inversion H; auto|].
  destruct (negb _); intros H; inversion H; auto.
Qed.

Lemma resolveAndLock_Throw ids u a t e t' q :
  resolveAndLock ids u a t = (Throw e, t', q) ->
  e = P2002 \/ e = P2003 \/ e = P2025.
Proof.
  unfold resolveAndLock, getOrCreateWallet, getTreasuryWallet. intros H.
  apply bind_inv in H.
  destruct H as [(uw & t1 & q1 & q2 & H1 & H & ->) | (e' & H1 & Hr)].
  2: { inversion Hr; subst. apply wallet_upsert_Throw in H1. tauto. }
  apply bind_inv in H.
  destruct H as [(tw & t2 & q3 & q4 & H2 & H & ->) | (e' & H2 & Hr)].
  - rewrite bind_eq_Ok with (1 := lockWalletsInOrder_eq _ _) in H. discriminate.
  - inversion Hr; subst. apply bind_inv in H2.
    destruct H2 as [(sys & t3 & q5 & q6 & H3 & H2 & ->) | (e'' & H3 & Hr')].
    + apply wallet_upsert_Throw in H2. tauto.
    + inversion Hr'; subst. rewrite user_findFirstOrThrow_eq in H3.
      destruct (find User.isSystem (user _)); inversion H3; subst. auto.
Qed.

Lemma create_then_insert_Throw uuid type status description
    (entry : Transaction.t -> LedgerEntry.t) (payload : Transaction.t -> Payload.t)
    t e t' q :
  (x <- transaction_create uuid type status description ;;
   ledgerEntry_create (entry x) ;;;
   transaction_update (Transaction.id x) COMPLETED ;;;
   ret (payload x)) t
  = (Throw e, t', q) ->
  databaseError e.
Proof.
  unfold databaseError. intros H. apply bind_inv in H.
  destruct H as [(x & t1 & q1 & q2 & H1 & H & ->) | (e' & H1 & Hr)].
  2: { inversion Hr; subst. rewrite transaction_create_eq in H1.
       destruct (transactionExists uuid t); inversion H1. auto. }
  apply bind_inv in H.
  destruct H as [(u1 & t2 & q3 & q4 & H2 & H & ->) | (e' & H2 & Hr)].
  2: { inversion Hr; subst. rewrite ledgerEntry_create_eq in H2.
       destruct (negb (fitsDecimal20_4 _)); [inversion H2; auto|].
       destruct (_ || _); [inversion H2; auto|].
       destruct (negb (referencesResolve _ _)); inversion H2; auto. }
  apply bind_inv in H.
  destruct H as [(u2 & t3 & q5 & q6 & H3 & H & ->) | (e' & H3 & Hr)].
  - discriminate.
  - inversion Hr; subst. rewrite transaction_update_eq in H3.
    destruct (transactionExists _ t2); inversion H3. auto.
Qed.

(** ** Constraints the engine keeps *)

Lemma resolveAndLock_preserves (P : Tables -> Prop) :
  (forall uuid u a t r t' q,
      wallet_upsert uuid u a t = (r, t', q) -> P t -> P t') ->
  forall ids u a t r t' q,
    resolveAndLock ids u a t = (r, t', q) -> P t -> P t'.
Proof.
  intros Hup ids u a t r t' q H HP.
  unfold resolveAndLock, getOrCreateWallet, getTreasuryWallet in H.
  apply bind_inv in H.
  destruct H as [(uw & t1 & q1 & q2 & H1 & H & ->) | (e & H1 & ->)];
    [|eapply Hup; eauto].
  assert (HP1 : P t1) by (eapply Hup; eauto).
  assert (Htreasury : forall r2 t2 q2',
             (systemUser <- user_findFirstOrThrow_isSystem ;;
              wallet_upsert (treasuryWalletUuid ids) (User.id systemUser) a) t1
             = (r2, t2, q2') -> P t2).
  { intros r2 t2 q2' H2. apply bind_inv in H2.
    destruct H2 as [(sys & t3 & q5 & q6 & H3 & H2 & ->) | (e & H3 & ->)];
      rewrite user_findFirstOrThrow_eq in H3;
      destruct (find User.isSystem (user t1)); inversion H3; subst; auto.
    eapply Hup; eauto. }
  apply bind_inv in H.
  destruct H as [(tw & t2 & q3 & q4 & H2 & H & ->) | (e & H2 & ->)];
    [|eapply Htreasury; eauto].
  rewrite bind_eq_Ok with (1 := lockWalletsInOrder_eq _ _) in H.
  unfold ret in H. inversion H; subst. eapply Htreasury; eauto.
Qed.

Lemma keysOf_In k es : In k (keysOf es) <-> existsb (hasKey k) es = true.
Proof.
  unfold keysOf. rewrite in_flat_map, existsb_exists.
  split; intros [e [Hin He]]; exists e; (split; [exact Hin|]);
    unfold hasKey in *; destruct (LedgerEntry.idempotencyKey e) as [k'|].
  - destruct He as [-> | []]. apply String.eqb_refl.
  - destruct He.
  - apply String.eqb_eq in He. subst. now left.
  - discriminate.
Qed.

Lemma not_existsb_id {A} (proj : A -> string) id l :
  existsb (fun x => String.eqb (proj x) id) l = false -> ~ In id (map proj l).
Proof.
  intros H Hin. apply (existsb_id_In proj) in Hin. congruence.
Qed.

Lemma wallet_upsert_UniqueKeys uuid u a t r t' q :
  wallet_upsert uuid u a t = (r, t', q) -> UniqueKeys t -> UniqueKeys t'.
Proof.
  rewrite wallet_upsert_eq. intros H (Hid & Hpair & HX & HE & HK).
  destruct (find (ownedBy u a) (wallet t)) eqn:Hfind;
    [inversion H; subst; repeat split; assumption|].
  destruct (walletExists uuid t) eqn:Hpk;
    [inversion H; subst; repeat split; assumption|].
  destruct (negb _); inversion H; subst; [repeat split; assumption|].
  unfold UniqueKeys; simpl. rewrite !map_app. simpl.
  repeat split; auto.
  - apply NoDup_snoc; [exact Hid|]. now apply not_existsb_id.
  - apply NoDup_snoc; [exact Hpair|]. intros Hin.
    apply in_map_iff in Hin. destruct Hin as [w [Hw Hin]].
    inversion Hw; subst.
    apply (find_none _ _ Hfind) in Hin.
    unfold ownedBy in Hin. now rewrite !String.eqb_refl in Hin.
Qed.

Lemma existsb_app_l {A} (f : A -> bool) l l' :
  existsb f l = true -> existsb f (l ++ l') = true.
Proof. intros H. rewrite existsb_app, H. reflexivity. Qed.

Lemma wallet_upsert_ForeignKeys uuid u a t r t' q :
  wallet_upsert uuid u a t = (r, t', q) -> ForeignKeys t -> ForeignKeys t'.
Proof.
  rewrite wallet_upsert_eq. intros H [HW HE].
  destruct (find (ownedBy u a) (wallet t)) eqn:Hfind;
    [inversion H; subst; split; assumption|].
  destruct (walletExists uuid t) eqn:Hpk;
    [inversion H; subst; split; assumption|].
  destruct (userExists u t && assetTypeExists a t) eqn:Hfk; simpl in H;
    inversion H; subst; [|split; assumption].
  apply andb_true_iff in Hfk. destruct Hfk as [Hu Ha].
  split; simpl.
  - intros w Hin. apply in_app_or in Hin. destruct Hin as [Hin | [<- | []]].
    + exact (HW w Hin).
    + simpl. auto.
  - intros e Hin. specialize (HE e Hin). unfold referencesResolve in *.
    apply andb_true_iff in HE. destruct HE as [HE Hc].
    apply andb_true_iff in HE. destruct HE as [HE Hd].
    unfold walletExists in *. simpl.
    rewrite (existsb_app_l _ _ _ Hc), (existsb_app_l _ _ _ Hd).
    rewrite andb_true_r. now rewrite andb_true_r.
Qed.

Lemma sameAsset_more_wallets t t' e :
  (exists new, wallet t' = wallet t ++ new) -> sameAsset t e -> sameAsset t' e.
Proof.
  intros [new HW] (d & c & Hd & Hc & H). exists d, c.
  rewrite HW. repeat split; try apply in_or_app; tauto.
Qed.

Lemma wallet_upsert_OneAssetPerEntry uuid u a t r t' q :
  wallet_upsert uuid u a t = (r, t', q) ->
  OneAssetPerEntry t -> OneAssetPerEntry t'.
Proof.
  intros H Hone. apply wallet_upsert_inv in H.
  destruct H as (_ & (_ & _ & _ & HE & Hnew & _) & _).
  intros e Hin. rewrite HE in Hin.
  eapply sameAsset_more_wallets; eauto.
Qed.

(** ** Double entry *)

Lemma balanceQuery_cons walletId e es :
  balanceQuery walletId (e :: es)
  = creditCase walletId e - debitCase walletId e + balanceQuery walletId es.
Proof.
  rewrite !balanceQuery_spec. unfold creditsTotal, debitsTotal, creditCase, debitCase.
  simpl.
  destruct (String.eqb (LedgerEntry.creditWalletId e) walletId),
    (String.eqb (LedgerEntry.debitWalletId e) walletId); simpl; lia.
Qed.

Lemma sum_no_hit (f : Wallet.t -> bool) id v ws :
  ~ In id (map Wallet.id ws) ->
  fold_right Z.add 0
    (map (fun w => if String.eqb id (Wallet.id w) then v else 0) (filter f ws)) = 0.
Proof.
  induction ws as [|w ws IH]; simpl; [reflexivity|].
  intros Hnot. destruct (f w); simpl.
  - destruct (String.eqb_spec id (Wallet.id w)) as [Heq | _];
      [exfalso; apply Hnot; left; now symmetry|].
    rewrite IH; tauto.
  - apply IH. tauto.
Qed.

Lemma sum_one_hit (f : Wallet.t -> bool) c v ws :
  NoDup (map Wallet.id ws) -> In c ws ->
  fold_right Z.add 0
    (map (fun w => if String.eqb (Wallet.id c) (Wallet.id w) then v else 0)
       (filter f ws))
  = if f c then v else 0.
Proof.
  induction ws as [|w ws IH]; simpl; [tauto|].
  intros Hnd Hin. inversion Hnd as [|? ? Hnot Hnd']; subst.
  destruct Hin as [-> | Hin].
  - destruct (f c); simpl.
    + rewrite String.eqb_refl, sum_no_hit by exact Hnot. lia.
    + now apply sum_no_hit.
  - assert (Hne : Wallet.id c <> Wallet.id w).
    { intros Heq. apply Hnot. rewrite <- Heq. now apply in_map. }
    apply String.eqb_neq in Hne. destruct (f w); simpl.
    + rewrite Hne, IH by assumption. lia.
    + now apply IH.
Qed.

Lemma totalBalance_sameAsset a t e :
  Wallet_pkey t -> sameAsset t e ->
  fold_right Z.add 0
    (map (fun w => creditCase (Wallet.id w) e - debitCase (Wallet.id w) e)
       (filter (holds a) (wallet t))) = 0.
Proof.
  intros Hpk (d & c & Hd & Hc & Hid & Hic & Had & Hac).
  assert (Hsplit : forall (g h : Wallet.t -> Z) l,
             fold_right Z.add 0 (map (fun w => g w - h w) l)
             = fold_right Z.add 0 (map g l) - fold_right Z.add 0 (map h l)).
  { induction l as [|x l IH]; simpl; [reflexivity | rewrite IH; lia]. }
  rewrite Hsplit. unfold creditCase, debitCase. rewrite <- Hid, <- Hic.
  rewrite (sum_one_hit (holds a) c) by assumption.
  rewrite (sum_one_hit (holds a) d) by assumption.
  unfold holds. rewrite Had, Hac. lia.
Qed.

(** X7.  Double entry: on a store where wallet identifiers are unique and
    both wallets of every entry hold the entry's asset type, the derived
    balances of the wallets of any one asset type sum to zero. *)
Theorem balances_of_an_asset_sum_to_zero t assetTypeId :
  Wallet_pkey t -> OneAssetPerEntry t ->
  totalBalance (filter (holds assetTypeId) (wallet t)) (ledgerEntry t) = 0.
Proof.
  intros Hpk Hone. unfold OneAssetPerEntry in Hone. unfold totalBalance.
  induction (ledgerEntry t) as [|e es IH].
  - induction (filter _ _) as [|w ws IHw]; simpl; [reflexivity|].
    rewrite IHw. reflexivity.
  - assert (Hstep : forall ws,
               fold_right Z.add 0
                 (map (fun w => balanceQuery (Wallet.id w) (e :: es)) ws)
               = fold_right Z.add 0
                   (map (fun w => creditCase (Wallet.id w) e
                                  - debitCase (Wallet.id w) e) ws)
                 + fold_right Z.add 0
                     (map (fun w => balanceQuery (Wallet.id w) es) ws)).
    { induction ws as [|w ws IHw]; simpl; [reflexivity|].
      rewrite IHw, balanceQuery_cons. lia. }
    rewrite Hstep, IH by (intros e' Hin; apply Hone; now right).
    rewrite totalBalance_sameAsset; [reflexivity | exact Hpk |].
    apply Hone. now left.
Qed.

(** ** When an operation goes through *)

Lemma wallet_upsert_Ok uuid u a t :
  userExists u t = true -> assetTypeExists a t = true ->
  walletExists uuid t = false ->
  exists w t1,
    wallet_upsert uuid u a t = (Ok w, t1, [Q_wallet_upsert u a])
    /\ (forall f w0, find f (wallet t) = Some w0 -> find f (wallet t1) = Some w0)
    /\ (forall id, id <> uuid -> walletExists id t = false ->
                   walletExists id t1 = false).
Proof.
  intros Hu Ha Hfresh. rewrite wallet_upsert_eq.
  destruct (find (ownedBy u a) (wallet t)) as [w|]; [exists w, t; auto|].
  rewrite Hfresh, Hu, Ha. simpl. do 2 eexists. split; [reflexivity|].
  split; simpl.
  - intros f w0 H. now apply find_app_Some.
  - intros id Hne H. unfold walletExists in *. simpl.
    rewrite existsb_app, H. simpl.
    apply String.eqb_neq in Hne. rewrite String.eqb_sym. now rewrite Hne.
Qed.

Lemma find_userExists t sys :
  find User.isSystem (user t) = Some sys -> userExists (User.id sys) t = true.
Proof.
  intros H. apply find_some in H. destruct H as [Hin _].
  apply (existsb_id_In User.id). now apply in_map.
Qed.

Lemma resolveAndLock_Ok ids u a t sys :
  userExists u t = true -> assetTypeExists a t = true ->
  find User.isSystem (user t) = Some sys ->
  walletExists (userWalletUuid ids) t = false ->
  walletExists (treasuryWalletUuid ids) t = false ->
  userWalletUuid ids <> treasuryWalletUuid ids ->
  exists uw tw t1 q,
    resolveAndLock ids u a t = (Ok (uw, tw), t1, q)
    /\ (forall w, find (ownedBy u a) (wallet t) = Some w -> uw = w).
Proof.
  intros Hu Ha Hsys Hf1 Hf2 Hne.
  destruct (wallet_upsert_Ok (userWalletUuid ids) u a t Hu Ha Hf1)
    as (uw & t1 & H1 & Hkeep & Hfresh).
  pose proof (wallet_upsert_inv _ _ _ _ _ _ _ H1) as (_ & (HA & HU & _) & Fu).
  assert (Hsys1 : find User.isSystem (user t1) = Some sys) by now rewrite HU.
  assert (Hf2' : walletExists (treasuryWalletUuid ids) t1 = false)
    by (apply Hfresh; auto).
  destruct (wallet_upsert_Ok (treasuryWalletUuid ids) (User.id sys) a t1)
    as (tw & t2 & H2 & _ & _); auto.
  { apply find_userExists. exact Hsys1. }
  { unfold assetTypeExists in *. now rewrite HA. }
  exists uw, tw, t2. eexists. split.
  - unfold resolveAndLock, getOrCreateWallet, getTreasuryWallet.
    rewrite bind_eq_Ok with (1 := H1).
    rewrite (bind_eq_Ok (bind _ _)) with (a := tw) (t1 := t2)
      (q1 := [Q_user_findFirstOrThrow; Q_wallet_upsert (User.id sys) a]).
    2: { assert (H3 : user_findFirstOrThrow_isSystem t1
                      = (Ok sys, t1, [Q_user_findFirstOrThrow]))
           by (rewrite user_findFirstOrThrow_eq, Hsys1; reflexivity).
         rewrite bind_eq_Ok with (1 := H3). cbv beta.
         unfold getOrCreateWallet. rewrite H2. reflexivity. }
    rewrite bind_eq_Ok with (1 := lockWalletsInOrder_eq _ _).
    unfold ret. reflexivity.
  - intros w Hw. apply Hkeep in Hw. congruence.
Qed.

Lemma create_then_insert_Ok uuid type status description
    (entry : Transaction.t -> LedgerEntry.t) (payload : Transaction.t -> Payload.t)
    t :
  let x := Transaction.mk uuid type status (Some description) in
  transactionExists uuid t = false ->
  fitsDecimal20_4 (LedgerEntry.amount (entry x)) = true ->
  ledgerEntryExists (LedgerEntry.id (entry x)) t = false ->
  keyTaken (entry x) t = false ->
  LedgerEntry.transactionId (entry x) = uuid ->
  assetTypeExists (LedgerEntry.assetTypeId (entry x)) t = true ->
  walletExists (LedgerEntry.debitWalletId (entry x)) t = true ->
  walletExists (LedgerEntry.creditWalletId (entry x)) t = true ->
  exists t' q,
    (x <- transaction_create uuid type status description ;;
     ledgerEntry_create (entry x) ;;;
     transaction_update (Transaction.id x) COMPLETED ;;;
     ret (payload x)) t
    = (Ok (payload x), t', q).
Proof.
  intros x Hfresh Hfit Hpk Hkey Htx Ha Hd Hc.
  assert (H1 : transaction_create uuid type status description t
               = (Ok x, withTransaction t (transaction t ++ [x]),
                  [Q_transaction_create]))
    by (rewrite transaction_create_eq, Hfresh; reflexivity).
  set (t1 := withTransaction t (transaction t ++ [x])) in *.
  assert (Hx1 : transactionExists uuid t1 = true).
  { unfold transactionExists, t1. simpl. rewrite existsb_app. simpl.
    rewrite String.eqb_refl. now rewrite orb_true_r. }
  assert (H2 : ledgerEntry_create (entry x) t1
               = (Ok tt, withLedgerEntry t1 (ledgerEntry t1 ++ [entry x]),
                  [Q_ledgerEntry_create])).
  { rewrite ledgerEntry_create_eq, Hfit. simpl negb. cbv iota.
    replace (ledgerEntryExists (LedgerEntry.id (entry x)) t1) with false
      by (symmetry; exact Hpk).
    replace (keyTaken (entry x) t1) with false by (symmetry; exact Hkey).
    simpl orb. cbv iota.
    replace (referencesResolve (entry x) t1) with true; [reflexivity|].
    symmetry. unfold referencesResolve. rewrite Htx, Hx1.
    change (assetTypeExists (LedgerEntry.assetTypeId (entry x)) t1)
      with (assetTypeExists (LedgerEntry.assetTypeId (entry x)) t).
    change (walletExists (LedgerEntry.debitWalletId (entry x)) t1)
      with (walletExists (LedgerEntry.debitWalletId (entry x)) t).
    change (walletExists (LedgerEntry.creditWalletId (entry x)) t1)
      with (walletExists (LedgerEntry.creditWalletId (entry x)) t).
    now rewrite Ha, Hd, Hc. }
  set (t2 := withLedgerEntry t1 (ledgerEntry t1 ++ [entry x])) in *.
  assert (H3 : transaction_update (Transaction.id x) COMPLETED t2
               = (Ok tt,
                  withTransaction t2
                    (map (setStatus uuid COMPLETED) (transaction t2)),
                  [Q_transaction_update uuid])).
  { rewrite transaction_update_eq.
    change (transactionExists (Transaction.id x) t2)
      with (transactionExists uuid t1).
    now rewrite Hx1. }
  do 2 eexists.
  rewrite bind_eq_Ok with (1 := H1).
  rewrite bind_eq_Ok with (1 := H2).
  rewrite bind_eq_Ok with (1 := H3).
  unfold ret. reflexivity.
Qed.

(** ** Amounts with at most four decimals *)

Lemma toFixed4_exact (x : Q) (k : Z) :
  (x == decimal k)%Q -> toFixed4 x = k.
Proof.
  intros H. unfold Qeq, decimal in H. simpl in H. unfold toFixed4.
  set (n := Qnum x) in *. set (d := Zpos (Qden x)) in *.
  assert (Hd : 0 < d) by (unfold d; lia).
  assert (Habs : Z.abs n * 10000 = Z.abs k * d) by nia.
  assert (Hdiv : (2 * Z.abs n * 10000 + d) / (2 * d) = Z.abs k).
  { symmetry. apply Z.div_unique with (r := d); nia. }
  rewrite Hdiv.
  assert (Hsgn : Z.sgn n = Z.sgn k) by nia.
  rewrite Hsgn. destruct k; simpl; lia.
Qed.

(** *** Twenty significant digits are enough for [DECIMAL(20,4)] *)

Lemma exponentFrom_bound fuel e n d :
  reaches (exponentFrom fuel e n d) n d = true
  \/ exponentFrom fuel e n d = e - Z.of_nat fuel.
Proof.
  revert e. induction fuel as [|fuel IH]; intros e.
  - right. simpl. lia.
  - cbn [exponentFrom]. destruct (reaches e n d) eqn:He; [now left|].
    destruct (IH (e - 1)) as [H | H]; [now left|]. right. rewrite H. lia.
Qed.

Lemma reaches_small e n d :
  0 < d -> reaches e n d = true -> n < 10 ^ 16 * d -> e < 16.
Proof.
  intros Hd H Hn. unfold reaches in H.
  destruct (Z.leb_spec 0 e) as [He | He]; [|lia].
  apply Z.leb_le in H.
  destruct (Z.lt_ge_cases e 16) as [Hlt | Hge]; [exact Hlt|].
  pose proof (Z.pow_le_mono_r 10 16 e ltac:(lia) Hge). nia.
Qed.

Lemma exponent_small n d :
  0 < n -> 0 < d -> n < 10 ^ 16 * d -> exponent n d < 16.
Proof.
  intros Hn Hd Hlt. unfold exponent.
  destruct (exponentFrom_bound (Z.to_nat (Z.log2 n + 1 + Z.log2 d + 2))
              (Z.log2 n + 1) n d) as [H | H].
  - now apply (reaches_small _ n d).
  - rewrite H, Z2Nat.id.
    + pose proof (Z.log2_nonneg d). lia.
    + pose proof (Z.log2_nonneg n). pose proof (Z.log2_nonneg d). lia.
Qed.

Lemma roundAt_grid s (x : Q) z :
  4 <= s -> (x == decimal z)%Q -> (roundAt s x == decimal z)%Q.
Proof.
  intros Hs H. unfold Qeq, decimal in H. simpl in H. unfold roundAt.
  set (p := Qnum x) in *. set (d := Zpos (Qden x)) in *.
  assert (Hd : 0 < d) by (unfold d; lia).
  destruct (Z.leb_spec 0 s) as [_ | Hneg]; [|lia].
  set (c := 10 ^ (s - 4)).
  assert (Hc : 0 < c) by (apply Z.pow_pos_nonneg; lia).
  assert (Hpow : 10 ^ s = 10000 * c).
  { unfold c. replace s with (4 + (s - 4)) at 1 by lia.
    rewrite Z.pow_add_r by lia. reflexivity. }
  assert (Habs : Z.abs p * 10000 = Z.abs z * d) by nia.
  assert (Hdiv : (2 * Z.abs p * 10 ^ s + d) / (2 * d) = Z.abs z * c).
  { symmetry. apply Z.div_unique with (r := d); [lia|]. rewrite Hpow. nia. }
  assert (Hsgn : Z.sgn p = Z.sgn z) by nia.
  assert (Hz : Z.sgn z * Z.abs z = z) by (destruct z; simpl; lia).
  rewrite Hdiv, Hsgn. unfold Qeq, decimal. cbn [Qnum Qden].
  rewrite Z2Pos.id by (rewrite Hpow; lia). rewrite Hpow.
  transitivity (Z.sgn z * Z.abs z * (10000 * c)); [ring | now rewrite Hz].
Qed.

Lemma toSignificantDigits_grid (x : Q) z :
  (x == decimal z)%Q -> Z.abs z < 10 ^ 20 ->
  (toSignificantDigits x == decimal z)%Q.
Proof.
  intros H Hz. unfold toSignificantDigits.
  destruct (Z.eqb_spec (Qnum x) 0) as [_ | Hne]; [exact H|].
  apply roundAt_grid; [|exact H].
  assert (Hx : Z.abs (Qnum x) * 10000 = Z.abs z * Zpos (Qden x)).
  { unfold Qeq, decimal in H. simpl in H. nia. }
  assert (Hlt : Z.abs (Qnum x) < 10 ^ 16 * Zpos (Qden x)).
  { change (10 ^ 20) with (10 ^ 16 * 10000) in Hz.
    assert (0 < 10 ^ 16) by reflexivity. nia. }
  pose proof (exponent_small (Z.abs (Qnum x)) (Zpos (Qden x))
                ltac:(lia) ltac:(lia) Hlt).
  unfold precision. lia.
Qed.

(** A difference on the grid of ten-thousandths that fits twenty digits
    is not rounded. *)
Lemma minus_exact balance (x : Q) k :
  (x == decimal k)%Q -> Z.abs (balance - k) < 10 ^ 20 ->
  toFixed4 (minus balance x) = balance - k.
Proof.
  intros H Hfit. apply toFixed4_exact. unfold minus.
  apply toSignificantDigits_grid; [|exact Hfit]. rewrite H.
  unfold Qeq, decimal, Qminus, Qplus, Qopp. simpl. lia.
Qed.

(** The rounded amount lies within half a ten-thousandth of the amount. *)
Lemma toFixed4_close (x : Q) :
  (0 < x)%Q ->
  (x - (1 # 20000) < decimal (toFixed4 x))%Q
  /\ (decimal (toFixed4 x) <= x + (1 # 20000))%Q.
Proof.
  intros Hpos. apply Qpos_num in Hpos.
  pose proof (toFixed4_nearest x Hpos) as [Hlo Hhi].
  unfold Qlt, Qle, decimal, Qminus, Qplus, Qopp. simpl.
  set (n := Qnum x) in *. set (d := Zpos (Qden x)) in *.
  set (r := toFixed4 x) in *.
  rewrite !Pos2Z.inj_mul. fold d. split; nia.
Qed.

(** ** Reading a balance *)

Lemma existsb_find_Some {A} (f : A -> bool) l :
  existsb f l = true -> exists x, find f l = Some x.
Proof.
  intros H. destruct (find f l) as [x|] eqn:E; [eauto|].
  apply find_None_existsb in E. congruence.
Qed.

Lemma getBalance_found userId assetTypeId t w a :
  find (ownedBy userId assetTypeId) (wallet t) = Some w ->
  find (fun x => String.eqb (AssetType.id x) assetTypeId) (assetType t) = Some a ->
  getBalance userId assetTypeId t
  = (Ok (BalanceResponse.mk userId assetTypeId (AssetType.name a)
           (AssetType.symbol a)
           (showFixed4 (balanceQuery (Wallet.id w) (ledgerEntry t)))),
     t, [Q_wallet_findUnique userId assetTypeId; Q_balance (Wallet.id w)]).
Proof.
  intros Hw Ha.
  unfold getBalance, wallet_findUnique, assetType_findUniqueOrThrow,
    computeBalance, bind, issue, readTables, ret, throw.
  rewrite Hw. simpl.
  apply find_some in Hw. destruct Hw as [_ Hw].
  apply ownedBy_true in Hw. destruct Hw as [_ ->].
  rewrite Ha. reflexivity.
Qed.

Lemma getBalance_no_wallet userId assetTypeId t :
  find (ownedBy userId assetTypeId) (wallet t) = None ->
  getBalance userId assetTypeId t
  = (match find (fun x => String.eqb (AssetType.id x) assetTypeId) (assetType t) with
     | Some a =>
         Ok (BalanceResponse.mk userId assetTypeId (AssetType.name a)
               (AssetType.symbol a) "0.0000")
     | None => Throw P2025
     end,
     t, [Q_wallet_findUnique userId assetTypeId;
         Q_assetType_findUniqueOrThrow assetTypeId]).
Proof.
  intros Hw.
  unfold getBalance, wallet_findUnique, assetType_findUniqueOrThrow,
    computeBalance, bind, issue, readTables, ret, throw.
  rewrite Hw. simpl.
  destruct (find _ (assetType t)); reflexivity.
Qed.

(** X12.  What the balance endpoint can answer on tables that satisfy the
    foreign keys.  It never writes.  It answers 200 with the balance data
    of the user and asset type asked for when the asset type exists, 404
    when the asset type does not exist, and 400 without a query when the
    [assetTypeId] of the query string is missing or no UUID; it never
    answers 500. *)
Theorem balance_endpoint_answers isUuid userId query t resp t' q :
  ForeignKeys t ->
  walletController.getBalance isUuid userId query t = (resp, t', q) ->
  t' = t
  /\ ((status resp = 200%nat /\ success resp = true
       /\ exists a data,
           query = Some a /\ isUuid a = true /\ assetTypeExists a t = true
           /\ content resp = BalanceData data
           /\ BalanceResponse.userId data = userId
           /\ BalanceResponse.assetTypeId data = a)
      \/ (resp = mkResponse 404 false (Failure "Record not found" [])
          /\ exists a,
              query = Some a /\ isUuid a = true /\ assetTypeExists a t = false)
      \/ (status resp = 400%nat /\ success resp = false /\ q = []
          /\ forall a, query = Some a -> isUuid a = false)).
Proof.
  intros [HW _] H. unfold walletController.getBalance in H.
  unfold walletController.BalanceQuerySchema_parse in H.
  destruct query as [a|].
  2:{ injection H as <- <- <-. split; [reflexivity|]. right. right.
      repeat split; auto. discriminate. }
  destruct (isUuid a) eqn:Hu.
  2:{ injection H as <- <- <-. split; [reflexivity|]. right. right.
      repeat split; auto. intros ? [= <-]. exact Hu. }
  destruct (find (ownedBy userId a) (wallet t)) as [w|] eqn:Hw.
  - pose proof (find_some _ _ Hw) as [Hin Hown].
    apply ownedBy_true in Hown. destruct Hown as [_ Ha].
    destruct (HW w Hin) as [_ Hex]. rewrite Ha in Hex.
    destruct (existsb_find_Some _ _ Hex) as [x Hx].
    rewrite (getBalance_found _ _ _ _ _ Hw Hx) in H.
    injection H as <- <- <-. split; [reflexivity|]. left. simpl.
    repeat split. do 2 eexists. repeat split; eauto.
  - rewrite (getBalance_no_wallet _ _ _ Hw) in H.
    destruct (find _ (assetType t)) as [x|] eqn:Hx.
    + injection H as <- <- <-. split; [reflexivity|]. left. simpl.
      repeat split. do 2 eexists. repeat split; eauto.
      unfold assetTypeExists.
      destruct (existsb _ (assetType t)) eqn:E; [reflexivity|].
      apply find_None_existsb in E. congruence.
    + injection H as <- <- <-. split; [reflexivity|]. right. left.
      split; [reflexivity|]. exists a. repeat split; auto.
      now apply find_None_existsb.
Qed.

(** ** One wallet per user and asset type *)

(** X16.  [getOrCreateWallet] creates at most once: after a call that
    succeeded, a second call for the same user and asset type returns the
    same wallet, whatever identifier is drawn for it, and leaves the tables
    as they are.  The wallet belongs to the user and asset type asked for,
    and the first call added it as the last row or added nothing. *)
Theorem getOrCreateWallet_creates_once uuid uuid' userId assetTypeId t w t1 q :
  getOrCreateWallet uuid userId assetTypeId t = (Ok w, t1, q) ->
  getOrCreateWallet uuid' userId assetTypeId t1
  = (Ok w, t1, [Q_wallet_upsert userId assetTypeId])
  /\ Wallet.userId w = userId /\ Wallet.assetTypeId w = assetTypeId
  /\ (wallet t1 = wallet t \/ wallet t1 = wallet t ++ [w]).
Proof.
  unfold getOrCreateWallet. intros H.
  pose proof (wallet_upsert_inv _ _ _ _ _ _ _ H) as (_ & _ & Hfind).
  split; [rewrite wallet_upsert_eq, Hfind; reflexivity|].
  pose proof (find_some _ _ Hfind) as [_ Hown].
  apply ownedBy_true in Hown. destruct Hown as [Hu Ha].
  split; [exact Hu|]. split; [exact Ha|].
  rewrite wallet_upsert_eq in H.
  destruct (find (ownedBy userId assetTypeId) (wallet t)).
  - injection H as <- <- <-. now left.
  - destruct (walletExists uuid t); [discriminate|].
    destruct (negb _); [discriminate|].
    injection H as <- <- <-. now right.
Qed.

Section More.

Variable numberToString : number -> string.

Lemma transactionBody_Throw kind ids (req : Request.t) t e t' q :
  transactionBody numberToString kind ids req t = (Throw e, t', q) ->
  databaseError e
  \/ (kind = SPEND
      /\ exists balance,
          e = insufficientBalance numberToString balance (Request.amount req)).
Proof.
  intros H.
  assert (Hres : forall e0 t0 q0,
             resolveAndLock ids (Request.userId req) (Request.assetTypeId req) t
             = (Throw e0, t0, q0) -> databaseError e0).
  { intros e0 t0 q0 H0. apply resolveAndLock_Throw in H0.
    unfold databaseError. tauto. }
  destruct kind; simpl in H.
  - unfold topupBody in H. apply bind_inv in H.
    destruct H as [([uw tw] & t1 & q1 & q2 & H1 & H & ->) | (e' & H1 & Hr)].
    + left. eapply create_then_insert_Throw
        with (entry := fun x => LedgerEntry.mk _ (Transaction.id x) _ _ _ _ _ _ _)
             (payload := fun x => Payload.mk _ _ (Transaction.id x) _ _).
      exact H.
    + inversion Hr; subst. left. eauto.
  - unfold bonusBody in H. apply bind_inv in H.
    destruct H as [([uw tw] & t1 & q1 & q2 & H1 & H & ->) | (e' & H1 & Hr)].
    + left. eapply create_then_insert_Throw
        with (entry := fun x => LedgerEntry.mk _ (Transaction.id x) _ _ _ _ _ _ _)
             (payload := fun x => Payload.mk _ _ (Transaction.id x) _ _).
      exact H.
    + inversion Hr; subst. left. eauto.
  - unfold spendBody in H. apply bind_inv in H.
    destruct H as [([uw tw] & t1 & q1 & q2 & H1 & H & ->) | (e' & H1 & Hr)].
    + rewrite bind_eq_Ok with (1 := computeBalanceInTx_eq _ _) in H.
      cbv beta in H. destruct (lessThan _ _).
      * unfold throw in H. inversion H; subst. right. eauto.
      * left.
        destruct (bind _ _ t1) as [[r2 t2] q3] eqn:Htail in H.
        inversion H; subst.
        eapply create_then_insert_Throw
          with (entry := fun x => LedgerEntry.mk _ (Transaction.id x) _ _ _ _ _ _ _)
               (payload := fun x => Payload.mk _ _ (Transaction.id x) _ _).
        exact Htail.
    + inversion Hr; subst. left. eauto.
Qed.

Lemma operation_Throw kind ids (req : Request.t) t e t' q :
  operation numberToString kind ids req t = (Throw e, t', q) ->
  t' = t
  /\ ((e = Error "Amount must be positive"
       /\ Qle_bool (Request.amount req) 0 = true)
      \/ databaseError e
      \/ (kind = SPEND
          /\ exists balance,
              e = insufficientBalance numberToString balance
                    (Request.amount req))).
Proof.
  rewrite operation_eq.
  destruct (Qle_bool (Request.amount req) 0).
  - intros H; inversion H; subst. auto.
  - destruct (find _ (ledgerEntry t)); [discriminate|].
    unfold transaction_scope.
    destruct (transactionBody numberToString kind ids req t)
      as [[[p|e0] t0] q0] eqn:Hbody; intros H; inversion H; subst.
    split; [reflexivity|]. right. eapply transactionBody_Throw; eauto.
Qed.

(** X1.  An operation that throws leaves every table as it found it.  It
    throws either at the amount guard, before any query, or inside its
    unit, after a lookup that did not find the key, and then the unit is
    rolled back with whatever it had written; a top-up or a bonus never
    throws the "Insufficient balance" error. *)
Theorem failed_operation_leaves_no_trace kind ids (req : Request.t) t e t' q :
  operation numberToString kind ids req t = (Throw e, t', q) ->
  t' = t
  /\ (((Request.amount req <= 0)%Q
       /\ e = Error "Amount must be positive" /\ q = [])
      \/ ((0 < Request.amount req)%Q
          /\ find (hasKey (Request.idempotencyKey req)) (ledgerEntry t) = None
          /\ (exists body,
                q = Q_ledgerEntry_findUnique (Request.idempotencyKey req)
                    :: Q_begin :: body ++ [Q_rollback])
          /\ (kind <> SPEND ->
              forall balance,
                e <> insufficientBalance numberToString balance
                       (Request.amount req)))).
Proof.
  intros H. pose proof (operation_Throw _ _ _ _ _ _ _ H) as [_ Hwhat].
  rewrite operation_eq in H.
  destruct (Qle_bool (Request.amount req) 0) eqn:Hguard.
  - injection H as <- <- <-. split; [reflexivity|]. left.
    split; [now apply Qle_bool_iff | auto].
  - apply Qle_bool_false in Hguard.
    destruct (find _ (ledgerEntry t)) eqn:Hmiss; [discriminate|].
    unfold transaction_scope in H.
    destruct (transactionBody numberToString kind ids req t)
      as [[[p|e0] t0] q0]; [discriminate|].
    injection H as <- <- <-. split; [reflexivity|]. right.
    split; [exact Hguard|]. split; [reflexivity|]. split; [eauto|].
    intros Hkind balance ->.
    destruct Hwhat as [[He _] | [Hdb | [Hspend _]]].
    + discriminate He.
    + destruct Hdb as [Hdb | [Hdb | [Hdb | Hdb]]]; discriminate Hdb.
    + contradiction.
Qed.

(** ** Rows are only ever appended *)

Lemma submit_appends s t :
  user (submit numberToString s t) = user t
  /\ assetType (submit numberToString s t) = assetType t
  /\ exists ws xs es,
      wallet (submit numberToString s t) = wallet t ++ ws
      /\ transaction (submit numberToString s t) = transaction t ++ xs
      /\ ledgerEntry (submit numberToString s t) = ledgerEntry t ++ es
      /\ List.length xs = List.length es
      /\ (List.length es <= 1)%nat
      /\ Forall (fun x => Transaction.status x = COMPLETED) xs.
Proof.
  unfold submit.
  destruct (operation numberToString (kind s) (draws s) (request s) t)
    as [[r t'] q] eqn:Hop.
  apply operation_outcome in Hop.
  inversion Hop as [| e0 ? ? | p0 t0 Hpos Hmiss Hc | ]; subst;
    try (split; [reflexivity|]; split; [reflexivity|];
         exists [], [], []; rewrite !app_nil_r; simpl; repeat split; auto).
  apply committed_inv in Hc.
  destruct Hc as (uw & tw & sys & HE & HX & HU & HA & [new HW] & _).
  split; [exact HU|]. split; [exact HA|].
  exists new, [transactionOf numberToString (kind s) (draws s) (request s)],
    [entryOf (kind s) (draws s) (request s) uw tw].
  repeat split; auto.
Qed.

(** X2.  Through any sequence of submissions no row of any table is
    changed or removed: [User] and [AssetType] are never written, and the
    wallets, the transactions and the ledger grow at their end only, a
    transaction row (COMPLETED) for each entry and at most one entry for each
    submission. *)
Theorem tables_are_append_only submissions t :
  user (submitAll numberToString submissions t) = user t
  /\ assetType (submitAll numberToString submissions t) = assetType t
  /\ exists ws xs es,
      wallet (submitAll numberToString submissions t) = wallet t ++ ws
      /\ transaction (submitAll numberToString submissions t) = transaction t ++ xs
      /\ ledgerEntry (submitAll numberToString submissions t) = ledgerEntry t ++ es
      /\ List.length xs = List.length es
      /\ (List.length es <= List.length submissions)%nat
      /\ Forall (fun x => Transaction.status x = COMPLETED) xs.
Proof.
  revert t. induction submissions as [|s l IH]; intros t; simpl.
  - split; [reflexivity|]. split; [reflexivity|].
    exists [], [], []. rewrite !app_nil_r. simpl. repeat split; auto.
  - destruct (IH (submit numberToString s t))
      as (HU & HA & ws & xs & es & HW & HX & HE & Hlen & Hle & Hall).
    destruct (submit_appends s t)
      as (HU1 & HA1 & ws1 & xs1 & es1 & HW1 & HX1 & HE1 & Hlen1 & Hle1 & Hall1).
    split; [congruence|]. split; [congruence|].
    exists (ws1 ++ ws), (xs1 ++ xs), (es1 ++ es).
    rewrite HW, HX, HE, HW1, HX1, HE1, !app_assoc, !length_app.
    repeat split; auto; try lia.
    apply Forall_app. auto.
Qed.

(** ** The constraints through a stream of submissions *)

Lemma keysOf_snoc es e k :
  LedgerEntry.idempotencyKey e = Some k -> keysOf (es ++ [e]) = keysOf es ++ [k].
Proof.
  intros H. unfold keysOf. rewrite flat_map_app. simpl. now rewrite H.
Qed.

Lemma committed_UniqueKeys kind ids (req : Request.t) t t' p :
  committed numberToString kind ids req t t' p -> UniqueKeys t -> UniqueKeys t'.
Proof.
  intros (uw & tw & t1 & q1 & Hres & Hx & _ & Hpk & Hkey & _ & -> & _) HU.
  pose proof (resolveAndLock_preserves UniqueKeys wallet_upsert_UniqueKeys
                _ _ _ _ _ _ _ Hres HU) as (Hid & Hpair & _).
  destruct HU as (_ & _ & HX & HE & HK).
  unfold UniqueKeys; simpl. rewrite !map_app. simpl.
  repeat split; auto.
  - apply NoDup_snoc; [exact HX|]. now apply not_existsb_id.
  - apply NoDup_snoc; [exact HE|]. now apply not_existsb_id.
  - rewrite keysOf_snoc with (k := Request.idempotencyKey req) by reflexivity.
    apply NoDup_snoc; [exact HK|]. intros Hin.
    apply keysOf_In in Hin. congruence.
Qed.

Lemma find_walletExists f t w :
  find f (wallet t) = Some w -> walletExists (Wallet.id w) t = true.
Proof.
  intros H. apply find_some in H. destruct H as [Hin _].
  apply (existsb_id_In Wallet.id). now apply in_map.
Qed.

Lemma committed_ForeignKeys kind ids (req : Request.t) t t' p :
  committed numberToString kind ids req t t' p -> ForeignKeys t -> ForeignKeys t'.
Proof.
  intros (uw & tw & t1 & q1 & Hres & _ & _ & _ & _ & _ & -> & _) HF.
  pose proof (resolveAndLock_preserves ForeignKeys wallet_upsert_ForeignKeys
                _ _ _ _ _ _ _ Hres HF) as [HW1 HE1].
  apply resolveAndLock_inv in Hres.
  destruct Hres as [(HA & HU & HX & HE & _ & _) (Fu & (sys & Hsys & Ft) & _)].
  assert (Hasset : assetTypeExists (Request.assetTypeId req) t1 = true).
  { pose proof (find_some _ _ Fu) as [Hin Hown].
    apply ownedBy_true in Hown. destruct Hown as [_ <-]. now apply HW1. }
  unfold ForeignKeys.
  unfold userExists, assetTypeExists, referencesResolve, transactionExists,
    assetTypeExists, walletExists in *.
  rewrite HA, HU, ?HX, ?HE in *.
  split; simpl.
  - exact HW1.
  - intros e Hin. apply in_app_or in Hin. destruct Hin as [Hin | [<- | []]].
    + specialize (HE1 e Hin). rewrite existsb_app.
      apply andb_true_iff in HE1. destruct HE1 as [HE1 Hc].
      apply andb_true_iff in HE1. destruct HE1 as [HE1 Hd].
      apply andb_true_iff in HE1. destruct HE1 as [Ht Has].
      now rewrite Ht, Has, Hd, Hc.
    + simpl. rewrite existsb_app. simpl. rewrite String.eqb_refl, orb_true_r.
      rewrite Hasset. simpl.
      pose proof (find_walletExists _ _ _ Fu) as Wu.
      pose proof (find_walletExists _ _ _ Ft) as Wt.
      unfold walletExists in Wu, Wt.
      destruct kind; now rewrite Wu, Wt.
Qed.

Lemma committed_OneAssetPerEntry kind ids (req : Request.t) t t' p :
  committed numberToString kind ids req t t' p ->
  OneAssetPerEntry t -> OneAssetPerEntry t'.
Proof.
  intros (uw & tw & t1 & q1 & Hres & _ & _ & _ & _ & _ & -> & _) Hone.
  pose proof (resolveAndLock_preserves OneAssetPerEntry
                wallet_upsert_OneAssetPerEntry _ _ _ _ _ _ _ Hres Hone) as Hone1.
  apply resolveAndLock_inv in Hres.
  destruct Hres as [(_ & _ & _ & HE & _ & _) (Fu & (sys & _ & Ft) & _)].
  intros e Hin. simpl in Hin. apply in_app_or in Hin.
  destruct Hin as [Hin | [<- | []]].
  - rewrite <- HE in Hin. destruct (Hone1 e Hin) as (d & c & H).
    exists d, c. exact H.
  - apply find_some in Fu. destruct Fu as [Inu Ou].
    apply find_some in Ft. destruct Ft as [Int Ot].
    apply ownedBy_true in Ou. destruct Ou as [_ Ou].
    apply ownedBy_true in Ot. destruct Ot as [_ Ot].
    destruct kind; [exists tw, uw | exists tw, uw | exists uw, tw];
      simpl; repeat split; auto.
Qed.

Lemma submitAll_preserves (P : Tables -> Prop) :
  (forall kind ids (req : Request.t) t t' p,
      committed numberToString kind ids req t t' p -> P t -> P t') ->
  forall submissions t, P t -> P (submitAll numberToString submissions t).
Proof.
  intros Hstep submissions. induction submissions as [|s l IH]; intros t HP;
    simpl; [exact HP|].
  apply IH. unfold submit.
  destruct (operation numberToString (kind s) (draws s) (request s) t)
    as [[r t'] q] eqn:Hop.
  apply operation_outcome in Hop.
  inversion Hop as [| e0 ? ? | p0 t0 Hpos Hmiss Hc | ]; subst; eauto.
Qed.

(** X4.  The uniqueness constraints of the schema hold through any
    sequence of submissions: wallet, transaction and entry identifiers stay
    unique, no user gets a second wallet of an asset type, and no
    idempotency key is borne by two entries. *)
Theorem unique_keys_are_kept submissions t :
  UniqueKeys t -> UniqueKeys (submitAll numberToString submissions t).
Proof. apply submitAll_preserves. apply committed_UniqueKeys. Qed.

(** X5.  Referential integrity holds through any sequence of submissions:
    every wallet has its user and asset type, every entry its transaction,
    its asset type and its two wallets. *)
Theorem foreign_keys_are_kept submissions t :
  ForeignKeys t -> ForeignKeys (submitAll numberToString submissions t).
Proof. apply submitAll_preserves. apply committed_ForeignKeys. Qed.

(** X6.  Value never moves between asset types: through any sequence of
    submissions both wallets of every entry hold the asset type the entry
    names. *)
Theorem entries_stay_within_one_asset submissions t :
  OneAssetPerEntry t ->
  OneAssetPerEntry (submitAll numberToString submissions t).
Proof. apply submitAll_preserves. apply committed_OneAssetPerEntry. Qed.

(** ** A valid request goes through *)

Lemma transactionBody_Ok_conditions kind ids (req : Request.t) t uw tw t1 q1 :
  resolveAndLock ids (Request.userId req) (Request.assetTypeId req) t
  = (Ok (uw, tw), t1, q1) ->
  assetTypeExists (Request.assetTypeId req) t = true ->
  transactionExists (transactionUuid ids) t = false ->
  ledgerEntryExists (ledgerEntryUuid ids) t = false ->
  existsb (hasKey (Request.idempotencyKey req)) (ledgerEntry t) = false ->
  fitsDecimal20_4 (toFixed4 (Request.amount req)) = true ->
  (kind = SPEND ->
   lessThan (balanceQuery (Wallet.id uw) (ledgerEntry t)) (Request.amount req)
   = false) ->
  exists p t' q,
    transactionBody numberToString kind ids req t = (Ok p, t', q)
    /\ Payload.idempotent p = false
    /\ Payload.transactionId p = transactionUuid ids.
Proof.
  intros Hres Ha Hx Hpk Hkey Hfit Hguard.
  pose proof (resolveAndLock_inv _ _ _ _ _ _ _ Hres)
    as [(HA & HU & HX & HE & _ & _) (Fu & (sys & _ & Ft) & _)].
  pose proof (find_walletExists _ _ _ Fu) as Wu.
  pose proof (find_walletExists _ _ _ Ft) as Wt.
  assert (Ha1 : assetTypeExists (Request.assetTypeId req) t1 = true)
    by (unfold assetTypeExists in *; now rewrite HA).
  assert (Hx1 : transactionExists (transactionUuid ids) t1 = false)
    by (unfold transactionExists in *; now rewrite HX).
  assert (Hpk1 : ledgerEntryExists (ledgerEntryUuid ids) t1 = false)
    by (unfold ledgerEntryExists in *; now rewrite HE).
  assert (Hkey1 : existsb (hasKey (Request.idempotencyKey req)) (ledgerEntry t1)
                  = false) by now rewrite HE.
  destruct kind; simpl.
  - unfold topupBody. rewrite bind_eq_Ok with (1 := Hres). cbv beta iota.
    edestruct (create_then_insert_Ok (transactionUuid ids) TOPUP COMPLETED)
      with (entry := fun x : Transaction.t =>
                       LedgerEntry.mk (ledgerEntryUuid ids) (Transaction.id x)
                         (Request.assetTypeId req) (Wallet.id tw) (Wallet.id uw)
                         (toFixed4 (Request.amount req)) TOPUP
                         (Some (orElse (Request.description req) "Top-up purchase"))
                         (Some (Request.idempotencyKey req)))
           (payload := fun x : Transaction.t =>
                         Payload.mk None false (Transaction.id x)
                           (Some (Request.amount req)) None)
      as (t' & q & H); try eassumption; try reflexivity.
    cbv beta in H. rewrite H.
    do 3 eexists. split; [reflexivity|]. split; reflexivity.
  - unfold bonusBody. rewrite bind_eq_Ok with (1 := Hres). cbv beta iota.
    edestruct (create_then_insert_Ok (transactionUuid ids) BONUS PENDING)
      with (entry := fun x : Transaction.t =>
                       LedgerEntry.mk (ledgerEntryUuid ids) (Transaction.id x)
                         (Request.assetTypeId req) (Wallet.id tw) (Wallet.id uw)
                         (toFixed4 (Request.amount req)) BONUS
                         (Some (orElse (Request.description req)
                                  "Bonus/incentive credit"))
                         (Some (Request.idempotencyKey req)))
           (payload := fun x : Transaction.t =>
                         Payload.mk None false (Transaction.id x)
                           (Some (Request.amount req)) None)
      as (t' & q & H); try eassumption; try reflexivity.
    cbv beta in H. rewrite H.
    do 3 eexists. split; [reflexivity|]. split; reflexivity.
  - unfold spendBody. rewrite bind_eq_Ok with (1 := Hres). cbv beta iota.
    rewrite bind_eq_Ok with (1 := computeBalanceInTx_eq _ _). cbv beta.
    rewrite HE, (Hguard eq_refl).
    edestruct (create_then_insert_Ok (transactionUuid ids) SPEND PENDING)
      with (entry := fun x : Transaction.t =>
                       LedgerEntry.mk (ledgerEntryUuid ids) (Transaction.id x)
                         (Request.assetTypeId req) (Wallet.id uw) (Wallet.id tw)
                         (toFixed4 (Request.amount req)) SPEND
                         (Some (orElse (Request.description req) "In-app purchase"))
                         (Some (Request.idempotencyKey req)))
           (payload := fun x : Transaction.t =>
                         Payload.mk None false (Transaction.id x)
                           (Some (Request.amount req))
                           (Some (showFixed4
                                    (toFixed4
                                       (minus
                                          (balanceQuery (Wallet.id uw)
                                             (ledgerEntry t))
                                          (Request.amount req))))))
      as (t' & q & H); try eassumption; try reflexivity.
    cbv beta in H. rewrite H.
    do 3 eexists. split; [reflexivity|]. split; reflexivity.
Qed.

(** X8.  A request goes through when it is sound and the identifiers drawn
    for it are free: a positive amount that fits the column, a key no entry
    bears, a known user and asset type, a system user, and, for SPEND, a
    wallet whose balance covers the amount.  The result names the drawn
    transaction identifier and is not a replay. *)
Theorem sound_request_is_applied kind ids (req : Request.t) t sys :
  (0 < Request.amount req)%Q ->
  fitsDecimal20_4 (toFixed4 (Request.amount req)) = true ->
  find (hasKey (Request.idempotencyKey req)) (ledgerEntry t) = None ->
  userExists (Request.userId req) t = true ->
  assetTypeExists (Request.assetTypeId req) t = true ->
  find User.isSystem (user t) = Some sys ->
  walletExists (userWalletUuid ids) t = false ->
  walletExists (treasuryWalletUuid ids) t = false ->
  userWalletUuid ids <> treasuryWalletUuid ids ->
  transactionExists (transactionUuid ids) t = false ->
  ledgerEntryExists (ledgerEntryUuid ids) t = false ->
  (kind = SPEND ->
   exists w,
     find (ownedBy (Request.userId req) (Request.assetTypeId req)) (wallet t)
     = Some w
     /\ lessThan (balanceQuery (Wallet.id w) (ledgerEntry t)) (Request.amount req)
        = false) ->
  exists p t' q,
    operation numberToString kind ids req t = (Ok p, t', q)
    /\ Payload.idempotent p = false
    /\ Payload.transactionId p = transactionUuid ids
    /\ exists e, ledgerEntry t' = ledgerEntry t ++ [e].
Proof.
  intros Hpos Hfit Hmiss Hu Ha Hsys Hf1 Hf2 Hne Hx Hpk Hguard.
  destruct (resolveAndLock_Ok ids _ _ t sys Hu Ha Hsys Hf1 Hf2 Hne)
    as (uw & tw & t1 & q1 & Hres & Hsame).
  destruct (transactionBody_Ok_conditions kind ids req t uw tw t1 q1)
    as (p & t' & q & Hbody & Hfresh & Hid); auto.
  { now apply find_None_existsb. }
  { intros Hk. destruct (Hguard Hk) as (w & Hw & Hbal).
    now rewrite (Hsame w Hw). }
  exists p, t'. eexists.
  rewrite operation_eq, (Qle_bool_pos _ Hpos), Hmiss.
  unfold transaction_scope. rewrite Hbody.
  split; [reflexivity|]. split; [exact Hfresh|]. split; [exact Hid|].
  apply transactionBody_Ok in Hbody. apply committed_inv in Hbody.
  destruct Hbody as (uw' & tw' & sys' & HE & _). eauto.
Qed.

(** ** What a commit does to the balances *)

Lemma committed_effect kind ids (req : Request.t) t t' p :
  Wallet_pkey t ->
  (forall sys, find User.isSystem (user t) = Some sys ->
               User.id sys <> Request.userId req) ->
  committed numberToString kind ids req t t' p ->
  exists uw tw sys,
    find (ownedBy (Request.userId req) (Request.assetTypeId req)) (wallet t')
    = Some uw
    /\ find User.isSystem (user t) = Some sys
    /\ find (ownedBy (User.id sys) (Request.assetTypeId req)) (wallet t')
       = Some tw
    /\ Wallet.id uw <> Wallet.id tw
    /\ ledgerEntry t' = ledgerEntry t ++ [entryOf kind ids req uw tw]
    /\ p = payloadOf kind ids req (balanceQuery (Wallet.id uw) (ledgerEntry t)).
Proof.
  intros Hpkey Hother Hc. apply committed_inv in Hc.
  destruct Hc as (uw & tw & sys & HE & _ & _ & _ & _ & Hpk' & Fu & Hsys & Ft
                  & Hp & _).
  exists uw, tw, sys. repeat split; auto.
  intros Heq.
  pose proof (find_some _ _ Fu) as [Inu Ou].
  pose proof (find_some _ _ Ft) as [Int Ot].
  apply ownedBy_true in Ou. destruct Ou as [Ou _].
  apply ownedBy_true in Ot. destruct Ot as [Ot _].
  pose proof (NoDup_map_inj Wallet.id _ uw tw (Hpk' Hpkey) Inu Int Heq).
  subst tw. apply (Hother sys Hsys). congruence.
Qed.

(** X9.  What an applied request does to the balances, when its user is not
    the system user: the user's wallet moves by the amount rounded to four
    decimals, up for TOPUP and BONUS and down for SPEND, the treasury wallet
    moves by the same the other way, and no other wallet's balance
    changes. *)
Theorem applied_request_moves_the_amount kind ids (req : Request.t) t p t' q :
  Wallet_pkey t ->
  (forall sys, find User.isSystem (user t) = Some sys ->
               User.id sys <> Request.userId req) ->
  operation numberToString kind ids req t = (Ok p, t', q) ->
  Payload.idempotent p = false ->
  exists userWallet treasuryWallet sys,
    find (ownedBy (Request.userId req) (Request.assetTypeId req)) (wallet t')
    = Some userWallet
    /\ find User.isSystem (user t) = Some sys
    /\ find (ownedBy (User.id sys) (Request.assetTypeId req)) (wallet t')
       = Some treasuryWallet
    /\ balanceQuery (Wallet.id userWallet) (ledgerEntry t')
       = balanceQuery (Wallet.id userWallet) (ledgerEntry t)
         + signed kind (toFixed4 (Request.amount req))
    /\ balanceQuery (Wallet.id treasuryWallet) (ledgerEntry t')
       = balanceQuery (Wallet.id treasuryWallet) (ledgerEntry t)
         - signed kind (toFixed4 (Request.amount req))
    /\ forall walletId,
        walletId <> Wallet.id userWallet ->
        walletId <> Wallet.id treasuryWallet ->
        balanceQuery walletId (ledgerEntry t')
        = balanceQuery walletId (ledgerEntry t).
Proof.
  intros Hpkey Hother Hop Hfresh. apply operation_outcome in Hop.
  inversion Hop as [| e0 ? ? | p0 t0 Hpos Hmiss Hc | ]; subst; [discriminate|].
  destruct (committed_effect _ _ _ _ _ _ Hpkey Hother Hc)
    as (uw & tw & sys & Fu & Hsys & Ft & Hne & HE & _).
  exists uw, tw, sys. rewrite HE, !balanceQuery_snoc.
  split; [exact Fu|]. split; [exact Hsys|]. split; [exact Ft|].
  assert (Hut : String.eqb (Wallet.id uw) (Wallet.id tw) = false)
    by now apply String.eqb_neq.
  assert (Htu : String.eqb (Wallet.id tw) (Wallet.id uw) = false)
    by (rewrite String.eqb_sym; exact Hut).
  unfold creditCase, debitCase, signed.
  split; [|split].
  - destruct kind; simpl; rewrite ?String.eqb_refl, ?Hut, ?Htu; lia.
  - destruct kind; simpl; rewrite ?String.eqb_refl, ?Hut, ?Htu; lia.
  - intros w Hwu Hwt.
    assert (Hu : String.eqb (Wallet.id uw) w = false)
      by (apply String.eqb_neq; congruence).
    assert (Ht : String.eqb (Wallet.id tw) w = false)
      by (apply String.eqb_neq; congruence).
    rewrite balanceQuery_snoc. unfold creditCase, debitCase.
    destruct kind; simpl; rewrite Hu, Ht; lia.
Qed.

(** X10.  For an amount with at most four decimals, on a ledger in which
    every balance is below the range of [DECIMAL(20,4)], a SPEND reports
    the balance it leaves: the [remainingBalance] of the result is the text
    of the derived balance of the user's wallet after the commit.  (Within
    that range the twenty significant digits of [decimal.js] hold the
    difference exactly; see [remaining_balance_beyond_twenty_digits] for a
    balance beyond it.) *)
Theorem spend_reports_the_balance_it_leaves ids (req : SpendRequest) t p t' q k :
  Wallet_pkey t ->
  (forall sys, find User.isSystem (user t) = Some sys ->
               User.id sys <> Request.userId req) ->
  (forall walletId, balanceQuery walletId (ledgerEntry t) < 10 ^ 20) ->
  (Request.amount req == decimal k)%Q ->
  spendCredits numberToString ids req t = (Ok p, t', q) ->
  Payload.idempotent p = false ->
  exists userWallet,
    find (ownedBy (Request.userId req) (Request.assetTypeId req)) (wallet t')
    = Some userWallet
    /\ Payload.remainingBalance p
       = Some (showFixed4 (balanceQuery (Wallet.id userWallet) (ledgerEntry t'))).
Proof.
  intros Hpkey Hother Hrange Hk Hop Hfresh.
  change (operation numberToString SPEND ids req t = (Ok p, t', q)) in Hop.
  apply operation_outcome in Hop.
  inversion Hop as [| e0 ? ? | p0 t0 Hpos Hmiss Hc | ]; subst; [discriminate|].
  destruct (committed_effect _ _ _ _ _ _ Hpkey Hother Hc)
    as (uw & tw & sys & Fu & Hsys & Ft & Hne & HE & ->).
  apply committed_inv in Hc.
  destruct Hc as (uw' & _ & _ & _ & _ & _ & _ & _ & _ & Fu' & _ & _ & _ & _
                  & _ & Hguard).
  assert (uw' = uw) by congruence. subst uw'.
  specialize (Hguard eq_refl). apply lessThan_false in Hguard.
  assert (Hfit : Z.abs (balanceQuery (Wallet.id uw) (ledgerEntry t) - k) < 10 ^ 20).
  { specialize (Hrange (Wallet.id uw)).
    assert (0 < k /\ k <= balanceQuery (Wallet.id uw) (ledgerEntry t)).
    { rewrite Hk in Hguard, Hpos. unfold Qle, Qlt, decimal in *.
      simpl in *. lia. }
    lia. }
  exists uw. split; [exact Fu|].
  rewrite HE, balanceQuery_snoc. unfold creditCase, debitCase. simpl.
  rewrite String.eqb_refl.
  replace (String.eqb (Wallet.id tw) (Wallet.id uw)) with false
    by (symmetry; apply String.eqb_neq; congruence).
  rewrite (minus_exact _ _ k Hk Hfit), (toFixed4_exact _ k Hk).
  do 2 f_equal. lia.
Qed.

(** X11.  The amount an applied request stores is the requested amount
    rounded to the nearest ten-thousandth: it lies within 0.00005 of the
    request, is the request itself when the request has at most four
    decimals, and fits [DECIMAL(20,4)]. *)
Theorem stored_amount_is_the_rounded_request kind ids (req : Request.t) t p t' q :
  operation numberToString kind ids req t = (Ok p, t', q) ->
  Payload.idempotent p = false ->
  exists e,
    ledgerEntry t' = ledgerEntry t ++ [e]
    /\ (Request.amount req - (1 # 20000) < decimal (LedgerEntry.amount e))%Q
    /\ (decimal (LedgerEntry.amount e) <= Request.amount req + (1 # 20000))%Q
    /\ (forall k, (Request.amount req == decimal k)%Q -> LedgerEntry.amount e = k)
    /\ Z.abs (LedgerEntry.amount e) < 10 ^ 20.
Proof.
  intros Hop Hfresh. apply operation_outcome in Hop.
  inversion Hop as [| e0 ? ? | p0 t0 Hpos Hmiss Hc | ]; subst; [discriminate|].
  apply committed_inv in Hc.
  destruct Hc as (uw & tw & sys & HE & _ & _ & _ & _ & _ & _ & _ & _ & _ & _
                  & Hfit & _).
  exists (entryOf kind ids req uw tw). split; [exact HE|]. simpl.
  destruct (toFixed4_close _ Hpos) as [Hlo Hhi].
  repeat split; auto.
  - intros k Hk. now apply toFixed4_exact.
  - unfold fitsDecimal20_4 in Hfit. now apply Z.ltb_lt.
Qed.

Lemma user_balance_after kind ids (req : Request.t) uw tw es :
  Wallet.id uw <> Wallet.id tw ->
  balanceQuery (Wallet.id uw) (es ++ [entryOf kind ids req uw tw])
  = balanceQuery (Wallet.id uw) es + signed kind (toFixed4 (Request.amount req)).
Proof.
  intros Hne. rewrite balanceQuery_snoc. unfold creditCase, debitCase, signed.
  assert (Htu : String.eqb (Wallet.id tw) (Wallet.id uw) = false)
    by (apply String.eqb_neq; congruence).
  destruct kind; simpl; rewrite ?String.eqb_refl, ?Htu; lia.
Qed.

(** X13.  Reading after writing.  On tables that satisfy the foreign keys,
    once a request of a user other than the system user is applied,
    [getBalance] for the request's user and asset type answers with the
    asset's name and symbol and with the balance the wallet had before the
    request, raised (TOPUP, BONUS) or lowered (SPEND) by the amount rounded
    to four decimals. *)
Theorem balance_read_after_applied_request kind ids (req : Request.t) t p t' q :
  Wallet_pkey t ->
  ForeignKeys t ->
  (forall sys, find User.isSystem (user t) = Some sys ->
               User.id sys <> Request.userId req) ->
  operation numberToString kind ids req t = (Ok p, t', q) ->
  Payload.idempotent p = false ->
  exists a userWallet,
    find (fun x => String.eqb (AssetType.id x) (Request.assetTypeId req))
         (assetType t) = Some a
    /\ find (ownedBy (Request.userId req) (Request.assetTypeId req)) (wallet t')
       = Some userWallet
    /\ getBalance (Request.userId req) (Request.assetTypeId req) t'
       = (Ok (BalanceResponse.mk (Request.userId req) (Request.assetTypeId req)
                (AssetType.name a) (AssetType.symbol a)
                (showFixed4
                   (balanceQuery (Wallet.id userWallet) (ledgerEntry t)
                    + signed kind (toFixed4 (Request.amount req))))),
          t',
          [Q_wallet_findUnique (Request.userId req) (Request.assetTypeId req);
           Q_balance (Wallet.id userWallet)]).
Proof.
  intros Hpkey HF Hother Hop Hfresh. apply operation_outcome in Hop.
  inversion Hop as [| e0 ? ? | p0 t0 Hpos Hmiss Hc | ]; subst; [discriminate|].
  pose proof (committed_ForeignKeys _ _ _ _ _ _ Hc HF) as [HW' _].
  destruct (committed_effect _ _ _ _ _ _ Hpkey Hother Hc)
    as (uw & tw & sys & Fu & Hsys & Ft & Hne & HE & _).
  assert (HA : assetType t' = assetType t).
  { apply committed_inv in Hc.
    destruct Hc as (? & ? & ? & _ & _ & _ & HA & _). exact HA. }
  pose proof (find_some _ _ Fu) as [Hin Hown].
  apply ownedBy_true in Hown. destruct Hown as [_ Ha].
  destruct (HW' uw Hin) as [_ Hex]. rewrite Ha in Hex.
  destruct (existsb_find_Some _ _ Hex) as [a Hx].
  exists a, uw. split; [now rewrite <- HA|]. split; [exact Fu|].
  rewrite (getBalance_found _ _ _ _ _ Fu Hx), HE.
  now rewrite user_balance_after.
Qed.

(** ** The transaction history *)

Lemma mapResult_Ok {A B} (f : A -> result B) l :
  (forall x, In x l -> exists y, f x = Ok y) ->
  exists ys,
    mapResult f l = Ok ys
    /\ List.length ys = List.length l
    /\ (forall y, In y ys <-> exists x, In x l /\ f x = Ok y).
Proof.
  induction l as [|x l IH]; intros H; simpl.
  - exists []. repeat split; simpl; [tauto|]. intros (x & [] & _).
  - destruct (H x (or_introl eq_refl)) as [y Hy]. rewrite Hy.
    destruct IH as (ys & -> & Hlen & Hin).
    { intros x' Hx'. apply H. now right. }
    exists (y :: ys). split; [reflexivity|]. split; [simpl; now rewrite Hlen|].
    intros y'. simpl. rewrite Hin. split.
    + intros [<- | (x' & Hx' & Hf)]; eauto.
    + intros (x' & [<- | Hx'] & Hf); [left; congruence | eauto].
Qed.

Lemma In_firstn {A} n (l : list A) x : In x (firstn n l) -> In x l.
Proof.
  intros H. rewrite <- (firstn_skipn n l). apply in_or_app. now left.
Qed.

Lemma length_filter_le {A} (f : A -> bool) l :
  (List.length (List.filter f l) <= List.length l)%nat.
Proof.
  induction l as [|x l IH]; simpl; [lia|]. destruct (f x); simpl; lia.
Qed.

Lemma existsb_eqb_In a ids :
  existsb (String.eqb a) ids = true <-> In a ids.
Proof.
  rewrite existsb_exists. split.
  - intros (x & Hin & Hx). apply String.eqb_eq in Hx. now subst.
  - intros Hin. exists a. split; [exact Hin | apply String.eqb_refl].
Qed.

Lemma touches_spec ids e :
  touches ids e = true
  <-> In (LedgerEntry.debitWalletId e) ids \/ In (LedgerEntry.creditWalletId e) ids.
Proof. unfold touches. now rewrite orb_true_iff, !existsb_eqb_In. Qed.

Lemma wallet_findMany_spec userId asset t w :
  In w (wallet_findMany userId asset t)
  <-> In w (wallet t) /\ Wallet.userId w = userId
      /\ (forall a, asset = Some a -> a <> "" -> Wallet.assetTypeId w = a).
Proof.
  unfold wallet_findMany. rewrite filter_In, andb_true_iff, String.eqb_eq.
  assert (H : match asset with
              | Some a => if truthy a then String.eqb (Wallet.assetTypeId w) a else true
              | None => true
              end = true
              <-> (forall a, asset = Some a -> a <> "" -> Wallet.assetTypeId w = a)).
  { destruct asset as [a|]; [|split; [discriminate | reflexivity]].
    unfold truthy. destruct (String.eqb_spec a "") as [-> | Hne]; simpl.
    - split; [|reflexivity]. intros _ ? [= <-] Hn. now destruct Hn.
    - rewrite String.eqb_eq. split.
      + intros Hw ? [= <-] _. exact Hw.
      + intros Hw. now apply Hw. }
  rewrite H. tauto.
Qed.

Section HistoryFacts.

Variable createdAt : LedgerEntry.t -> Z.
Variable orderBy_createdAt_desc : list LedgerEntry.t -> list LedgerEntry.t.

(** Ordering rearranges the rows it is given. *)
Hypothesis orderBy_Permutation :
  forall l, Permutation l (orderBy_createdAt_desc l).

Lemma toResponse_Ok t e :
  ForeignKeys t -> In e (ledgerEntry t) ->
  exists x,
    find (fun x => String.eqb (Transaction.id x) (LedgerEntry.transactionId e))
         (transaction t) = Some x
    /\ toResponse createdAt t e
       = Ok (TransactionResponse.mk (LedgerEntry.id e)
               (LedgerEntry.transactionType e) (Transaction.status x)
               (decimalToString (LedgerEntry.amount e))
               (LedgerEntry.description e) (createdAt e)
               (LedgerEntry.debitWalletId e) (LedgerEntry.creditWalletId e)).
Proof.
  intros [_ HE] Hin. specialize (HE e Hin). unfold referencesResolve in HE.
  apply andb_true_iff in HE. destruct HE as [HE _].
  apply andb_true_iff in HE. destruct HE as [HE _].
  apply andb_true_iff in HE. destruct HE as [HE _].
  destruct (existsb_find_Some _ _ HE) as [x Hx].
  exists x. split; [exact Hx|]. unfold toResponse. now rewrite Hx.
Qed.

Lemma getTransactionHistory_eq userId asset t :
  ForeignKeys t ->
  let walletIds :=
    map Wallet.id (if truthy userId then wallet_findMany userId asset t else []) in
  exists rows,
    getTransactionHistory createdAt orderBy_createdAt_desc userId asset t = Ok rows
    /\ (List.length rows <= 50)%nat
    /\ (forall r, In r rows ->
                  exists e, In e (ledgerEntry t) /\ touches walletIds e = true
                            /\ toResponse createdAt t e = Ok r)
    /\ ((List.length (ledgerEntry t) <= 50)%nat ->
        forall e, In e (ledgerEntry t) -> touches walletIds e = true ->
                  exists r, In r rows /\ toResponse createdAt t e = Ok r).
Proof.
  intros HF walletIds. unfold getTransactionHistory. fold walletIds.
  destruct walletIds as [|i ids] eqn:Hids.
  - exists []. split; [reflexivity|]. split; [simpl; lia|].
    split; [intros r []|]. intros _ e _ He. discriminate.
  - rewrite <- Hids.
    set (found := filter (touches walletIds) (ledgerEntry t)).
    set (entries := firstn 50 (orderBy_createdAt_desc found)).
    assert (Hsub : forall e, In e entries ->
                             In e (ledgerEntry t) /\ touches walletIds e = true).
    { intros e He. apply In_firstn in He.
      apply (Permutation_in _ (Permutation_sym (orderBy_Permutation found))) in He.
      now apply filter_In in He. }
    destruct (mapResult_Ok (toResponse createdAt t) entries)
      as (rows & Hrows & Hlen & Hin).
    { intros e He. destruct (Hsub e He) as [He' _].
      destruct (toResponse_Ok t e HF He') as (x & _ & Hx). eauto. }
    exists rows. split; [exact Hrows|]. split; [|split].
    + rewrite Hlen. apply firstn_le_length.
    + intros r Hr. apply Hin in Hr. destruct Hr as (e & He & Hf).
      destruct (Hsub e He). eauto.
    + intros Hfew e He Ht.
      assert (Hall : entries = orderBy_createdAt_desc found).
      { apply firstn_all2.
        rewrite <- (Permutation_length (orderBy_Permutation found)).
        pose proof (length_filter_le (touches walletIds) (ledgerEntry t)).
        fold found in H. lia. }
      assert (Hent : In e entries).
      { rewrite Hall. apply (Permutation_in _ (orderBy_Permutation found)).
        apply filter_In. now split. }
      destruct (toResponse_Ok t e HF He) as (x & _ & Hx).
      eexists. split; [|exact Hx]. apply Hin. eauto.
Qed.

(** X14.  On tables that satisfy the foreign keys the history of a user
    is produced without an exception and has at most fifty rows.  Each row
    is built from a ledger entry that debits or credits a wallet of that
    user (of the asset type asked for, when one is given and is not the
    empty string) and from the transaction the entry belongs to: the row
    carries the entry's identifier, kind, description and wallets, the
    status of the transaction, and the entry's amount as text. *)
Theorem history_rows_are_entries_of_the_user userId asset t :
  ForeignKeys t ->
  exists rows,
    getTransactionHistory createdAt orderBy_createdAt_desc userId asset t = Ok rows
    /\ (List.length rows <= 50)%nat
    /\ forall r, In r rows ->
        exists e w x,
          In e (ledgerEntry t) /\ In w (wallet t) /\ In x (transaction t)
          /\ Wallet.userId w = userId
          /\ (forall a, asset = Some a -> a <> "" -> Wallet.assetTypeId w = a)
          /\ (LedgerEntry.debitWalletId e = Wallet.id w
              \/ LedgerEntry.creditWalletId e = Wallet.id w)
          /\ Transaction.id x = LedgerEntry.transactionId e
          /\ r = TransactionResponse.mk (LedgerEntry.id e)
                   (LedgerEntry.transactionType e) (Transaction.status x)
                   (decimalToString (LedgerEntry.amount e))
                   (LedgerEntry.description e) (createdAt e)
                   (LedgerEntry.debitWalletId e) (LedgerEntry.creditWalletId e).
Proof.
  intros HF.
  destruct (getTransactionHistory_eq userId asset t HF)
    as (rows & Hrows & Hlen & Hsound & _).
  exists rows. split; [exact Hrows|]. split; [exact Hlen|].
  intros r Hr. destruct (Hsound r Hr) as (e & He & Ht & Hf).
  destruct (toResponse_Ok t e HF He) as (x & Hx & Hx'). rewrite Hx' in Hf.
  injection Hf as <-.
  apply find_some in Hx. destruct Hx as [Hxin Hxid]. apply String.eqb_eq in Hxid.
  assert (Hw : exists w, In w (wallet_findMany userId asset t)
                         /\ (LedgerEntry.debitWalletId e = Wallet.id w
                             \/ LedgerEntry.creditWalletId e = Wallet.id w)).
  { apply touches_spec in Ht.
    destruct (truthy userId);
      [|destruct Ht as [[] | []]].
    destruct Ht as [Ht | Ht]; apply in_map_iff in Ht;
      destruct Ht as (w & Hid & Hw); exists w; split; auto. }
  destruct Hw as (w & Hw & Hside).
  apply wallet_findMany_spec in Hw. destruct Hw as (Hwin & Hu & Ha).
  exists e, w, x. repeat split; auto.
Qed.

(** X15.  An applied request shows in the history.  On tables that
    satisfy the foreign keys and hold fewer than fifty entries, the history
    of the request's user, asked for without an asset type or for the
    request's, has after the request a row for the new entry: its
    identifier, the request's kind, the status COMPLETED, the amount rounded
    to four decimals as text, and the description. *)
Theorem applied_request_shows_in_history kind ids (req : Request.t) asset
    t p t' q :
  ForeignKeys t ->
  Request.userId req <> "" ->
  (forall a, asset = Some a -> a = Request.assetTypeId req) ->
  (List.length (ledgerEntry t) < 50)%nat ->
  operation numberToString kind ids req t = (Ok p, t', q) ->
  Payload.idempotent p = false ->
  exists rows e,
    getTransactionHistory createdAt orderBy_createdAt_desc
      (Request.userId req) asset t' = Ok rows
    /\ ledgerEntry t' = ledgerEntry t ++ [e]
    /\ In (TransactionResponse.mk (ledgerEntryUuid ids) kind COMPLETED
             (decimalToString (toFixed4 (Request.amount req)))
             (Some (orElse (Request.description req) (entryDefault kind)))
             (createdAt e)
             (LedgerEntry.debitWalletId e) (LedgerEntry.creditWalletId e))
          rows.
Proof.
  intros HF Huser Hasset Hfew Hop Hfresh. apply operation_outcome in Hop.
  inversion Hop as [| e0 ? ? | p0 t0 Hpos Hmiss Hc | ]; subst; [discriminate|].
  pose proof (committed_ForeignKeys _ _ _ _ _ _ Hc HF) as HF'.
  destruct Hc as (uw & tw & t1 & q1 & Hres & Hx & _ & _ & _ & _ & -> & _).
  apply resolveAndLock_inv in Hres.
  destruct Hres as [_ (Fu & _)].
  set (e := entryOf kind ids req uw tw).
  set (t' := mkTables _ _ _ _ _) in *.
  destruct (getTransactionHistory_eq (Request.userId req) asset t' HF')
    as (rows & Hrows & _ & _ & Hcomplete).
  assert (Hin : In e (ledgerEntry t')).
  { simpl. apply in_or_app. right. now left. }
  destruct (Hcomplete) with (e := e) as (r & Hr & Hf); auto.
  { simpl. rewrite length_app. simpl. lia. }
  { apply touches_spec.
    assert (Hw : In (Wallet.id uw)
                   (map Wallet.id
                      (if truthy (Request.userId req)
                       then wallet_findMany (Request.userId req) asset t'
                       else []))).
    { unfold truthy. destruct (String.eqb_spec (Request.userId req) "");
        [contradiction|]. simpl negb. cbv iota.
      apply in_map. apply wallet_findMany_spec.
      pose proof (find_some _ _ Fu) as [Hwin Hown].
      apply ownedBy_true in Hown. destruct Hown as [Hu Ha].
      split; [exact Hwin|]. split; [exact Hu|].
      intros a Hf' _. rewrite (Hasset a Hf'). exact Ha. }
    unfold e. destruct kind; simpl; auto. }
  exists rows, e. split; [exact Hrows|]. split; [reflexivity|].
  unfold toResponse in Hf.
  assert (Hfind :
    find (fun x => String.eqb (Transaction.id x) (LedgerEntry.transactionId e))
         (transaction t')
    = Some (transactionOf numberToString kind ids req)).
  { simpl. rewrite find_app_None.
    - simpl. now rewrite String.eqb_refl.
    - now apply find_None_existsb. }
  rewrite Hfind in Hf. injection Hf as <-. exact Hr.
Qed.

End HistoryFacts.

(** X17.  Without a system user nothing is applied: whatever the request,
    the tables stay as they are, and a result, if there is one, is the
    replay of an entry already committed. *)
Theorem without_system_user_nothing_is_applied kind ids (req : Request.t)
    t r t' q :
  find User.isSystem (user t) = None ->
  operation numberToString kind ids req t = (r, t', q) ->
  t' = t
  /\ forall p, r = Ok p ->
               exists e,
                 find (hasKey (Request.idempotencyKey req)) (ledgerEntry t)
                 = Some e
                 /\ p = duplicate e.
Proof.
  intros Hnone Hop. apply operation_outcome in Hop.
  inversion Hop as [| e0 ? ? | p0 t0 Hpos Hmiss Hc | ]; subst.
  - split; [reflexivity | discriminate].
  - split; [reflexivity|]. intros p [= <-]. eauto.
  - apply committed_inv in Hc.
    destruct Hc as (? & ? & sys & _ & _ & _ & _ & _ & _ & _ & Hsys & _).
    congruence.
  - split; [reflexivity | discriminate].
Qed.

(** ** The answers of the three endpoints *)

Variable isUuid : string -> bool.

Lemma TopupSchema_parse_cases (body : Request.t) :
  (TopupSchema_parse isUuid body = Ok body
   /\ Qle_bool (Request.amount body) 0 = false)
  \/ exists issues, TopupSchema_parse isUuid body = Throw (ZodError issues).
Proof.
  unfold TopupSchema_parse, check.
  destruct (isUuid (Request.userId body)), (isUuid (Request.assetTypeId body)),
    (Qle_bool (Request.amount body) 0),
    (Nat.leb 1 (String.length (Request.idempotencyKey body))),
    (Nat.leb (String.length (Request.idempotencyKey body)) 255);
    simpl; eauto.
Qed.

Lemma databaseError_status e :
  databaseError e ->
  status (errorHandler e) = 409%nat \/ status (errorHandler e) = 404%nat
  \/ status (errorHandler e) = 500%nat.
Proof. intros [-> | [-> | [-> | ->]]]; simpl; auto. Qed.

(** X3.  What an endpoint can answer.  201 means one entry, bearing the
    request's key, was appended; 200 means a replay and no write; every
    other answer is a failure that left the tables as they were: 400 from
    the schema, before any query, 409, 404 or 500 from the database, and 422
    from SPEND alone.  The service's own amount guard is never the
    answer. *)
Theorem endpoint_answers kind ids (body : Request.t) t resp t' q :
  endpoint numberToString isUuid kind ids body t = (resp, t', q) ->
  ((status resp = 201%nat /\ success resp = true
    /\ exists e, ledgerEntry t' = ledgerEntry t ++ [e]
                 /\ LedgerEntry.idempotencyKey e
                    = Some (Request.idempotencyKey body))
   \/ (status resp = 200%nat /\ success resp = true /\ t' = t
       /\ existsb (hasKey (Request.idempotencyKey body)) (ledgerEntry t) = true)
   \/ (success resp = false /\ t' = t
       /\ ((status resp = 400%nat /\ q = [])
           \/ status resp = 409%nat \/ status resp = 404%nat
           \/ status resp = 500%nat
           \/ (status resp = 422%nat /\ kind = SPEND))))
  /\ content resp <> Failure "Amount must be positive" [].
Proof.
  assert (Hh : endpoint numberToString isUuid kind ids body
               = handle (TopupSchema_parse isUuid)
                   (operation numberToString kind ids) body)
    by (destruct kind; reflexivity).
  rewrite Hh. unfold handle.
  destruct (TopupSchema_parse_cases body) as [[-> Hamt] | [issues ->]].
  2: { intros H; inversion H; subst. simpl. split; [|discriminate].
       right. right. auto. }
  destruct (operation numberToString kind ids body t) as [[r t1] q1] eqn:Hop.
  intros H; inversion H; subst. destruct r as [p|e].
  - apply operation_outcome in Hop.
    inversion Hop as [| e0 ? Hfind | p0 t0 Hpos Hmiss Hc | ]; subst.
    + split; [|discriminate]. right. left. simpl. repeat split.
      destruct (existsb _ _) eqn:Hex; [reflexivity|].
      apply find_None_existsb in Hex. congruence.
    + apply committed_inv in Hc.
      destruct Hc as (uw & tw & sys & HE & _ & _ & _ & _ & _ & _ & _ & _ & -> & _).
      split; [|discriminate]. left. simpl. repeat split. eauto.
  - apply operation_Throw in Hop.
    destruct Hop as [-> [[-> Hguard] | [Hdb | (-> & balance & ->)]]].
    + congruence.
    + split.
      * right. right. split; [apply errorHandler_failure|]. split; [reflexivity|].
        simpl. apply databaseError_status in Hdb. tauto.
      * destruct Hdb as [-> | [-> | [-> | ->]]]; discriminate.
    + split; [|discriminate]. right. right.
      split; [reflexivity|]. split; [reflexivity|]. simpl. tauto.
Qed.

End More.
(** * The further properties on the seeded database *)

(** X1 on the seed: Bob, who has no wallet yet, asks to spend 10; the
    wallet created for him inside the unit is rolled back with it. *)
Lemma failed_operation_leaves_no_trace_witness :
  snd (fst (operation printUnits SPEND (uuids "1")
              (Request.mk bob_id gc_id (10 # 1) "spend-bob-001" None)
              seedTables))
  = seedTables.
Proof.
  refine (proj1 (failed_operation_leaves_no_trace printUnits SPEND (uuids "1")
                   (Request.mk bob_id gc_id (10 # 1) "spend-bob-001" None)
                   seedTables
                   (Error "Insufficient balance. Available: 0.0000, Required: 10.0000")
                   _
                   (snd (operation printUnits SPEND (uuids "1")
                           (Request.mk bob_id gc_id (10 # 1) "spend-bob-001" None)
                           seedTables))
                   _)).
  reflexivity.
Defined.

(** X3 on the seed: Bob's top-up through the endpoint. *)
Lemma endpoint_answers_witness :
  content
    (fst (fst (endpoint printUnits (fun s => Nat.eqb (String.length s) 36)
                 TOPUP (uuids "1") bobTopup500 seedTables)))
  <> Failure "Amount must be positive" [].
Proof.
  refine (proj2 (endpoint_answers printUnits
                   (fun s => Nat.eqb (String.length s) 36)
                   TOPUP (uuids "1") bobTopup500 seedTables _ _
                   (snd (endpoint printUnits
                           (fun s => Nat.eqb (String.length s) 36)
                           TOPUP (uuids "1") bobTopup500 seedTables))
                   _)).
  reflexivity.
Defined.

(** X4 on the seed. *)
Lemma unique_keys_are_kept_witness :
  UniqueKeys
    (submitAll printUnits
       [mkSubmission SPEND (uuids "1") aliceSpends10;
        mkSubmission TOPUP (uuids "2") bobTopup500;
        mkSubmission SPEND (uuids "3") aliceSpends9999]
       seedTables).
Proof.
  apply (unique_keys_are_kept printUnits _ seedTables).
  unfold UniqueKeys. simpl.
  repeat split; repeat constructor; simpl; intuition discriminate.
Defined.

(** X5 on the seed. *)
Lemma foreign_keys_are_kept_witness :
  ForeignKeys
    (submitAll printUnits
       [mkSubmission SPEND (uuids "1") aliceSpends10;
        mkSubmission TOPUP (uuids "2") bobTopup500;
        mkSubmission SPEND (uuids "3") aliceSpends9999]
       seedTables).
Proof.
  apply (foreign_keys_are_kept printUnits _ seedTables).
  split.
  - intros w [<- | [<- | []]]; split; reflexivity.
  - intros e [<- | []]. reflexivity.
Defined.

(** X6 on the seed. *)
Lemma entries_stay_within_one_asset_witness :
  OneAssetPerEntry
    (submitAll printUnits
       [mkSubmission SPEND (uuids "1") aliceSpends10;
        mkSubmission TOPUP (uuids "2") bobTopup500;
        mkSubmission SPEND (uuids "3") aliceSpends9999]
       seedTables).
Proof.
  apply (entries_stay_within_one_asset printUnits _ seedTables).
  intros e [<- | []]. exists treasuryWallet, aliceWallet.
  simpl. repeat split; auto.
Defined.

(** X7 on the seed: the Gold Coins of the treasury and of Alice. *)
Lemma balances_of_an_asset_sum_to_zero_witness :
  totalBalance (filter (holds gc_id) (wallet seedTables)) (ledgerEntry seedTables)
  = 0.
Proof.
  apply (balances_of_an_asset_sum_to_zero seedTables gc_id).
  - unfold Wallet_pkey. simpl. repeat constructor; simpl; intuition discriminate.
  - intros e [<- | []]. exists treasuryWallet, aliceWallet.
    simpl. repeat split; auto.
Defined.

(** X8 on the seed: Bob's first top-up. *)
Lemma sound_request_is_applied_witness :
  exists p t' q,
    operation printUnits TOPUP (uuids "1") bobTopup500 seedTables = (Ok p, t', q)
    /\ Payload.idempotent p = false
    /\ Payload.transactionId p = transactionUuid (uuids "1")
    /\ exists e, ledgerEntry t' = ledgerEntry seedTables ++ [e].
Proof.
  apply (sound_request_is_applied printUnits TOPUP (uuids "1") bobTopup500
           seedTables
           (User.mk treasury_id "treasury" "treasury@system.internal" true)).
  - reflexivity.
  - reflexivity.
  - reflexivity.
  - reflexivity.
  - reflexivity.
  - reflexivity.
  - reflexivity.
  - reflexivity.
  - simpl. discriminate.
  - reflexivity.
  - reflexivity.
  - discriminate.
Defined.

(** X9 on the seed: Bob's top-up moves 500 from the treasury to Bob. *)
Lemma applied_request_moves_the_amount_witness :
  exists userWallet treasuryWallet sys,
    find (ownedBy bob_id gc_id) (wallet afterBobTopup500) = Some userWallet
    /\ find User.isSystem (user seedTables) = Some sys
    /\ find (ownedBy (User.id sys) gc_id) (wallet afterBobTopup500)
       = Some treasuryWallet
    /\ balanceQuery (Wallet.id userWallet) (ledgerEntry afterBobTopup500)
       = balanceQuery (Wallet.id userWallet) (ledgerEntry seedTables)
         + signed TOPUP (toFixed4 (500 # 1))
    /\ balanceQuery (Wallet.id treasuryWallet) (ledgerEntry afterBobTopup500)
       = balanceQuery (Wallet.id treasuryWallet) (ledgerEntry seedTables)
         - signed TOPUP (toFixed4 (500 # 1))
    /\ forall walletId,
        walletId <> Wallet.id userWallet ->
        walletId <> Wallet.id treasuryWallet ->
        balanceQuery walletId (ledgerEntry afterBobTopup500)
        = balanceQuery walletId (ledgerEntry seedTables).
Proof.
  apply (applied_request_moves_the_amount printUnits TOPUP (uuids "1")
           bobTopup500 seedTables
           (Payload.mk None false "dddddddd-0002-0000-0000-000000000001"
              (Some (500 # 1)) None)
           afterBobTopup500
           (snd (operation printUnits TOPUP (uuids "1") bobTopup500 seedTables))).
  - unfold Wallet_pkey. simpl. repeat constructor; simpl; intuition discriminate.
  - intros sys [= <-]. simpl. discriminate.
  - reflexivity.
  - reflexivity.
Defined.

(** X10 on the seed: Alice spends 10 of her 50 and is told 40. *)
Lemma spend_reports_the_balance_it_leaves_witness :
  exists userWallet,
    find (ownedBy alice_id gc_id) (wallet afterAliceSpends10) = Some userWallet
    /\ Some "40.0000"
       = Some (showFixed4
                 (balanceQuery (Wallet.id userWallet)
                    (ledgerEntry afterAliceSpends10))).
Proof.
  apply (spend_reports_the_balance_it_leaves printUnits (uuids "1")
           aliceSpends10 seedTables
           (Payload.mk None false "dddddddd-0002-0000-0000-000000000001"
              (Some (10 # 1)) (Some "40.0000"))
           afterAliceSpends10
           (snd (operation printUnits SPEND (uuids "1") aliceSpends10 seedTables))
           100000).
  - unfold Wallet_pkey. simpl. repeat constructor; simpl; intuition discriminate.
  - intros sys [= <-]. simpl. discriminate.
  - intros walletId.
    cbv [balanceQuery seedTables ledgerEntry seedEntry filter mentions
         creditCase debitCase LedgerEntry.creditWalletId
         LedgerEntry.debitWalletId LedgerEntry.amount].
    destruct (String.eqb alice_gc_id walletId) eqn:Ha,
             (String.eqb treasury_gc_id walletId) eqn:Ht;
      cbv [orb SUM map fold_right]; rewrite ?Ha, ?Ht; reflexivity.
  - reflexivity.
  - reflexivity.
  - reflexivity.
Defined.

(** X11 on the seed: Bob's top-up of 500 is stored as 500.0000. *)
Lemma stored_amount_is_the_rounded_request_witness :
  exists e,
    ledgerEntry afterBobTopup500 = ledgerEntry seedTables ++ [e]
    /\ ((500 # 1) - (1 # 20000) < decimal (LedgerEntry.amount e))%Q
    /\ (decimal (LedgerEntry.amount e) <= (500 # 1) + (1 # 20000))%Q
    /\ (forall k, ((500 # 1) == decimal k)%Q -> LedgerEntry.amount e = k)
    /\ Z.abs (LedgerEntry.amount e) < 10 ^ 20.
Proof.
  apply (stored_amount_is_the_rounded_request printUnits TOPUP (uuids "1")
           bobTopup500 seedTables
           (Payload.mk None false "dddddddd-0002-0000-0000-000000000001"
              (Some (500 # 1)) None)
           afterBobTopup500
           (snd (operation printUnits TOPUP (uuids "1") bobTopup500 seedTables))).
  - reflexivity.
  - reflexivity.
Defined.

(** X12 on the seed: Alice's balance through the endpoint. *)
Lemma balance_endpoint_answers_witness :
  let isUuid := fun s => Nat.eqb (String.length s) 36 in
  let query := Some gc_id in
  let resp :=
    mkResponse 200 true
      (BalanceData
         (BalanceResponse.mk alice_id gc_id "Gold Coins" "GC" "50.0000")) in
  let q := [Q_wallet_findUnique alice_id gc_id; Q_balance alice_gc_id] in
  walletController.getBalance isUuid alice_id query seedTables
  = (resp, seedTables, q)
  /\ seedTables = seedTables
  /\ ((status resp = 200%nat /\ success resp = true
       /\ exists a data,
           query = Some a /\ isUuid a = true
           /\ assetTypeExists a seedTables = true
           /\ content resp = BalanceData data
           /\ BalanceResponse.userId data = alice_id
           /\ BalanceResponse.assetTypeId data = a)
      \/ (resp = mkResponse 404 false (Failure "Record not found" [])
          /\ exists a,
              query = Some a /\ isUuid a = true
              /\ assetTypeExists a seedTables = false)
      \/ (status resp = 400%nat /\ success resp = false /\ q = []
          /\ forall a, query = Some a -> isUuid a = false)).
Proof.
  intros isUuid query resp q. split; [reflexivity|].
  apply (balance_endpoint_answers isUuid alice_id query seedTables resp
           seedTables q).
  - split.
    + intros w [<- | [<- | []]]; split; reflexivity.
    + intros e [<- | []]. reflexivity.
  - reflexivity.
Defined.

(** X13 on the seed: after his top-up Bob reads 500. *)
Lemma balance_read_after_applied_request_witness :
  exists a userWallet,
    find (fun x => String.eqb (AssetType.id x) gc_id) (assetType seedTables)
    = Some a
    /\ find (ownedBy bob_id gc_id) (wallet afterBobTopup500) = Some userWallet
    /\ getBalance bob_id gc_id afterBobTopup500
       = (Ok (BalanceResponse.mk bob_id gc_id (AssetType.name a)
                (AssetType.symbol a)
                (showFixed4
                   (balanceQuery (Wallet.id userWallet) (ledgerEntry seedTables)
                    + signed TOPUP (toFixed4 (500 # 1))))),
          afterBobTopup500,
          [Q_wallet_findUnique bob_id gc_id; Q_balance (Wallet.id userWallet)]).
Proof.
  apply (balance_read_after_applied_request printUnits TOPUP (uuids "1")
           bobTopup500 seedTables
           (Payload.mk None false "dddddddd-0002-0000-0000-000000000001"
              (Some (500 # 1)) None)
           afterBobTopup500
           (snd (operation printUnits TOPUP (uuids "1") bobTopup500 seedTables))).
  - unfold Wallet_pkey. simpl. repeat constructor; simpl; intuition discriminate.
  - split.
    + intros w [<- | [<- | []]]; split; reflexivity.
    + intros e [<- | []]. reflexivity.
  - intros sys [= <-]. simpl. discriminate.
  - reflexivity.
  - reflexivity.
Defined.

(** X14 on the seed: Alice's history, with the rows kept in the order of
    the table. *)
Lemma history_rows_are_entries_of_the_user_witness :
  exists rows,
    getTransactionHistory (fun _ => 0) (fun l => l) alice_id (Some gc_id)
      seedTables = Ok rows
    /\ (List.length rows <= 50)%nat
    /\ forall r, In r rows ->
        exists e w x,
          In e (ledgerEntry seedTables) /\ In w (wallet seedTables)
          /\ In x (transaction seedTables)
          /\ Wallet.userId w = alice_id
          /\ (forall a, Some gc_id = Some a -> a <> "" -> Wallet.assetTypeId w = a)
          /\ (LedgerEntry.debitWalletId e = Wallet.id w
              \/ LedgerEntry.creditWalletId e = Wallet.id w)
          /\ Transaction.id x = LedgerEntry.transactionId e
          /\ r = TransactionResponse.mk (LedgerEntry.id e)
                   (LedgerEntry.transactionType e) (Transaction.status x)
                   (decimalToString (LedgerEntry.amount e))
                   (LedgerEntry.description e) 0
                   (LedgerEntry.debitWalletId e) (LedgerEntry.creditWalletId e).
Proof.
  apply (history_rows_are_entries_of_the_user (fun _ => 0) (fun l => l)
           (fun l => Permutation_refl l) alice_id (Some gc_id) seedTables).
  split.
  - intros w [<- | [<- | []]]; split; reflexivity.
  - intros e [<- | []]. reflexivity.
Defined.

(** X15 on the seed: Bob's top-up in Bob's history. *)
Lemma applied_request_shows_in_history_witness :
  exists rows e,
    getTransactionHistory (fun _ => 0) (fun l => l) bob_id (Some gc_id)
      afterBobTopup500 = Ok rows
    /\ ledgerEntry afterBobTopup500 = ledgerEntry seedTables ++ [e]
    /\ In (TransactionResponse.mk (ledgerEntryUuid (uuids "1")) TOPUP COMPLETED
             (decimalToString (toFixed4 (500 # 1)))
             (Some (orElse (Some "Purchased Gold Coins") (entryDefault TOPUP)))
             0 (LedgerEntry.debitWalletId e) (LedgerEntry.creditWalletId e))
          rows.
Proof.
  apply (applied_request_shows_in_history printUnits (fun _ => 0) (fun l => l)
           (fun l => Permutation_refl l) TOPUP (uuids "1") bobTopup500
           (Some gc_id) seedTables
           (Payload.mk None false "dddddddd-0002-0000-0000-000000000001"
              (Some (500 # 1)) None)
           afterBobTopup500
           (snd (operation printUnits TOPUP (uuids "1") bobTopup500 seedTables))).
  - split.
    + intros w [<- | [<- | []]]; split; reflexivity.
    + intros e [<- | []]. reflexivity.
  - discriminate.
  - intros a [= <-]. reflexivity.
  - simpl. lia.
  - reflexivity.
  - reflexivity.
Defined.

(** X16 on the seed: Bob's Gold Coins wallet is created once. *)
Lemma getOrCreateWallet_creates_once_witness :
  getOrCreateWallet "cccccccc-0002-0000-0000-000000000002" bob_id gc_id
    (withWallet seedTables
       (wallet seedTables
        ++ [Wallet.mk "cccccccc-0002-0000-0000-000000000001" bob_id gc_id]))
  = (Ok (Wallet.mk "cccccccc-0002-0000-0000-000000000001" bob_id gc_id),
     withWallet seedTables
       (wallet seedTables
        ++ [Wallet.mk "cccccccc-0002-0000-0000-000000000001" bob_id gc_id]),
     [Q_wallet_upsert bob_id gc_id]).
Proof.
  refine (proj1 (getOrCreateWallet_creates_once
                   "cccccccc-0002-0000-0000-000000000001"
                   "cccccccc-0002-0000-0000-000000000002" bob_id gc_id
                   seedTables _ _ [Q_wallet_upsert bob_id gc_id] _)).
  reflexivity.
Defined.

(** X17 on a database that was not seeded with a system user. *)
Lemma without_system_user_nothing_is_applied_witness :
  snd (fst (operation printUnits TOPUP (uuids "1") bobTopup500
              (mkTables (assetType seedTables)
                 [User.mk bob_id "bob" "bob@example.com" false] [] [] [])))
  = mkTables (assetType seedTables)
      [User.mk bob_id "bob" "bob@example.com" false] [] [] [].
Proof.
  refine (proj1 (without_system_user_nothing_is_applied printUnits TOPUP
                   (uuids "1") bobTopup500
                   (mkTables (assetType seedTables)
                      [User.mk bob_id "bob" "bob@example.com" false] [] [] [])
                   (fst (fst (operation printUnits TOPUP (uuids "1") bobTopup500
                                (mkTables (assetType seedTables)
                                   [User.mk bob_id "bob" "bob@example.com" false]
                                   [] [] []))))
                   _
                   (snd (operation printUnits TOPUP (uuids "1") bobTopup500
                           (mkTables (assetType seedTables)
                              [User.mk bob_id "bob" "bob@example.com" false]
                              [] [] [])))
                   _ _)).
  - reflexivity.
  - reflexivity.
Defined.

(** Beyond the range of [DECIMAL(20,4)] the twenty significant digits show:
    with a balance of 18000000000000000 a spend of 0.0001 reports a
    remaining balance that is not the balance it leaves. *)
Example remaining_balance_beyond_twenty_digits :
  let big := fun n =>
    LedgerEntry.mk n seed_tx_id gc_id treasury_gc_id alice_gc_id
      90000000000000000000 TOPUP None None in
  let t := withLedgerEntry seedTables [big "e1"; big "e2"] in
  let req := Request.mk alice_id gc_id (1 # 10000) "spend-alice-003" None in
  match spendCredits printUnits (uuids "1") req t with
  | (Ok p, t', _) =>
      Payload.remainingBalance p = Some "18000000000000000.0000"
      /\ showFixed4 (balanceQuery alice_gc_id (ledgerEntry t'))
         = "17999999999999999.9999"
  | _ => False
  end.
Proof. vm_compute. split; reflexivity. Qed.
